(** * Healthcare appointment backend: scheduling, availability and token
      lifecycle.

    A shallow embedding of the Express route handlers and middlewares of the
    backend (routes/auth, routes/appointments, routes/doctors, routes/users,
    middleware/auth, middleware/validation, middleware/errorHandler) over an
    explicit model of the MySQL tables declared in the schema.

    Conventions.
    - Integers (ids, minutes, fees) are [Z].  Instants are milliseconds since
      the epoch, as [Date.getTime()] gives them; a DATE column is a day number
      since 1970-01-01; a TIME column is a number of seconds since midnight.
    - A handler is a computation in the monad [M]: it threads the database
      and either returns a value or throws.  [transaction] restores the
      database it started from when the body throws (the handlers' catch
      block calls [connection.rollback()]).
    - Request bodies are records holding the values at the type of the
      column they are compared with or written to; the keys a handler does
      not read are kept by name.
    - A [string] is the sequence of the UTF-8 bytes of the JavaScript
      string: [Js.length] counts its UTF-16 code units as [s.length] does,
      and bcrypt reads its bytes. *)

From Stdlib Require Import ZArith List String Ascii Bool Lia DecimalString.
Import ListNotations.
Local Open Scope Z_scope.
Local Open Scope string_scope.

(* ------------------------------------------------------------------ *)
(** ** middleware/errorHandler: the error classes and the final handler *)

Module Errors.

(** What a handler can throw.  [AppError] and its subclasses carry the
    message, the status and the code their constructors set.
    [ReferenceError] is what evaluating an unbound identifier throws,
    [TypeError] what reading a property of [undefined] throws;
    [MysqlError] is a driver error with its [code]. *)
Inductive thrown : Type :=
| AppError (message : string) (statusCode : Z)
| ValidationError (message : string)
| NotFoundError (resource : string)
| UnauthorizedError (message : string)
| ForbiddenError (message : string)
| ConflictError (message : string)
| JsonWebTokenError
| TokenExpiredError
| ReferenceError (identifier : string)
| TypeError (message : string)
| MysqlError (code : string).

(** The JSON error replies: a status with [{error, code, details}]; [code]
    is empty and [details] is nil where the source does not send them. *)
Record failure : Type := mkFailureWith
  { f_status : Z;
    f_error : string;
    f_code : string;
    f_details : list (string * string) }.

Definition mkFailure (status : Z) (error code : string) : failure :=
  mkFailureWith status error code [].

(** [err.status], [err.message] and [err.code] of the custom classes. *)
Definition appFields (e : thrown) : option (string * Z * string) :=
  match e with
  | AppError m s => Some (m, s, "APPLICATION_ERROR")
  | ValidationError m => Some (m, 400, "VALIDATION_ERROR")
  | NotFoundError r => Some (r ++ " not found", 404, "NOT_FOUND")
  | UnauthorizedError m => Some (m, 401, "UNAUTHORIZED")
  | ForbiddenError m => Some (m, 403, "FORBIDDEN")
  | ConflictError m => Some (m, 409, "CONFLICT")
  | _ => None
  end.

Definition errorHandler (err : thrown) : failure :=
  match appFields err with
  | Some (m, s, c) =>
    if negb (s =? 0)%Z && negb (m =? "")%string
    then mkFailure s m c
    else mkFailure 500 "Internal server error" "INTERNAL_ERROR"
  | None =>
    match err with
    | JsonWebTokenError => mkFailure 401 "Invalid token" "INVALID_TOKEN"
    | TokenExpiredError => mkFailure 401 "Token expired" "TOKEN_EXPIRED"
    | MysqlError "ER_DUP_ENTRY" =>
        mkFailure 409 "Duplicate entry - resource already exists" "DUPLICATE_ENTRY"
    | MysqlError "ER_NO_REFERENCED_ROW_2" =>
        mkFailure 400 "Referenced resource not found" "INVALID_REFERENCE"
    | MysqlError "ER_ROW_IS_REFERENCED_2" =>
        mkFailure 400 "Cannot delete - resource is referenced by other records"
                  "REFERENCE_CONSTRAINT"
    | MysqlError "ER_ACCESS_DENIED_ERROR" =>
        mkFailure 500 "Database access denied" "DB_ACCESS_DENIED"
    | MysqlError "ECONNREFUSED" =>
        mkFailure 500 "Database connection failed" "DB_CONNECTION_FAILED"
    | _ => mkFailure 500 "Internal server error" "INTERNAL_ERROR"
    end
  end.

(** The outcome of evaluating code that may throw. *)
Inductive result (A : Type) : Type :=
| Ok (a : A)
| Throw (e : thrown).
Arguments Ok {A} a.
Arguments Throw {A} e.

End Errors.
Export Errors.

(* ------------------------------------------------------------------ *)
(** ** The process environment of one request *)

Record env : Type := mkEnv
  { now : Z;                          (* Date.now(), NOW() *)
    tz : Z;                           (* local time minus UTC, in ms *)
    JWT_EXPIRES_IN : option Z;        (* process.env, in seconds *)
    JWT_REFRESH_EXPIRES_IN : option Z;
    salt : Z;                         (* the salt bcrypt draws *)
    room : string }.                  (* Math.random().toString(36).substr(2, 12) *)

(** [a || b] on an optional setting. *)
Definition or_default {A : Type} (o : option A) (d : A) : A :=
  match o with Some a => a | None => d end.

(* ------------------------------------------------------------------ *)
(** ** JavaScript strings *)

Module Js.

(** [s.length]: the UTF-16 code units of the string whose UTF-8 bytes are
    [s]; one for each byte that starts a character and one more for a
    character of four bytes (a surrogate pair). *)
Fixpoint length (s : string) : nat :=
  match s with
  | EmptyString => O
  | String c rest =>
    let b := nat_of_ascii c in
    ((if (b <? 128)%nat || (192 <=? b)%nat then 1 else 0)
     + (if (240 <=? b)%nat then 1 else 0)
     + length rest)%nat
  end.

End Js.

(* ------------------------------------------------------------------ *)
(** ** jsonwebtoken, as far as the routes use it

    A token is the term it was signed from: HS256 signs header and payload
    deterministically, so two calls of [sign] with the same payload, key and
    clock second give the same string.  [sign] stamps [iat] with the clock in
    whole seconds and [exp] with [iat + expiresIn]; no [jti] is requested by
    the callers.  Any other string is [Opaque].

    The string itself is header, payload and signature in base64url,
    joined by dots.  The signature stays symbolic; [signing_input] is the
    text before it, which is all that bcrypt gets to read of a token. *)

Module Jwt.

Inductive secret : Type := JWT_SECRET | JWT_REFRESH_SECRET.

Definition secret_eqb (a b : secret) : bool :=
  match a, b with
  | JWT_SECRET, JWT_SECRET | JWT_REFRESH_SECRET, JWT_REFRESH_SECRET => true
  | _, _ => false
  end.

Record payload : Type := mkPayload { userId : Z; iat : Z; exp : Z }.

Inductive token : Type :=
| Signed (key : secret) (p : payload)
| Opaque (s : string).

(** [!token]: only the empty string is falsy. *)
Definition falsy (t : token) : bool :=
  match t with Opaque "" => true | _ => false end.

Definition sign (uid : Z) (key : secret) (expiresIn : Z) (clock : Z) : token :=
  let timestamp := (clock / 1000)%Z in
  Signed key (mkPayload uid timestamp (timestamp + expiresIn)).

Definition verify (t : token) (key : secret) (clock : Z) : result payload :=
  match t with
  | Opaque _ => Throw JsonWebTokenError
  | Signed k p =>
    if secret_eqb k key then
      if (exp p <=? clock / 1000)%Z then Throw TokenExpiredError else Ok p
    else Throw JsonWebTokenError
  end.

(** The double quote of JSON. *)
Definition quote : ascii := ascii_of_nat 34.

Definition quoted (s : string) : string := String quote (s ++ String quote "").

(** [JSON.stringify] of an integer. *)
Definition decimal (n : Z) : string := NilZero.string_of_int (Z.to_int n).

Definition alphabet : string :=
  "ABCDEFGHIJKLMNOPQRSTUVWXYZabcdefghijklmnopqrstuvwxyz0123456789-_".

Definition sextet (n : nat) : ascii :=
  match String.get n alphabet with Some c => c | None => "A"%char end.

(** base64url without padding: three bytes give four characters. *)
Fixpoint base64url (s : string) : string :=
  match s with
  | EmptyString => EmptyString
  | String a EmptyString =>
    let x := nat_of_ascii a in
    String (sextet (x / 4)) (String (sextet (x mod 4 * 16)) EmptyString)
  | String a (String b EmptyString) =>
    let x := nat_of_ascii a in
    let y := nat_of_ascii b in
    String (sextet (x / 4))
      (String (sextet (x mod 4 * 16 + y / 16))
         (String (sextet (y mod 16 * 4)) EmptyString))
  | String a (String b (String c rest)) =>
    let x := nat_of_ascii a in
    let y := nat_of_ascii b in
    let z := nat_of_ascii c in
    String (sextet (x / 4))
      (String (sextet (x mod 4 * 16 + y / 16))
         (String (sextet (y mod 16 * 4 + z / 64))
            (String (sextet (z mod 64)) (base64url rest))))
  end.

(** The header of every token jsonwebtoken signs with HS256. *)
Definition header : string :=
  base64url ("{" ++ quoted "alg" ++ ":" ++ quoted "HS256" ++ ","
             ++ quoted "typ" ++ ":" ++ quoted "JWT" ++ "}").

(** The payload as [sign] serializes it: the caller's [userId], then [iat],
    then [exp]. *)
Definition json (p : payload) : string :=
  "{" ++ quoted "userId" ++ ":" ++ decimal (userId p) ++ ","
      ++ quoted "iat" ++ ":" ++ decimal (iat p) ++ ","
      ++ quoted "exp" ++ ":" ++ decimal (exp p) ++ "}".

(** What is signed: header and payload; the token is this text, a dot and
    the signature. *)
Definition signing_input (p : payload) : string :=
  header ++ "." ++ base64url (json p).

End Jwt.

(* ------------------------------------------------------------------ *)
(** ** bcryptjs, as far as the routes use it

    A digest is written as its salt and the value it was computed from; the
    routes do nothing with a digest but pass it to [compare].  bcrypt keys
    its cipher with 72 bytes: the UTF-8 bytes of the value followed by a
    NUL, repeated for as long as it takes.  Of a value longer than that
    only the first 72 bytes are read, and [compare] accepts every value
    with the same 72 bytes.  The cipher itself is idealised: different key
    bytes never give the same digest. *)

Module Bcrypt.

Record digest (A : Type) : Type := mkDigest { d_salt : Z; d_of : A }.
Arguments mkDigest {A} _ _.
Arguments d_salt {A} _.
Arguments d_of {A} _.

Definition hash {A : Type} (s : A) (salt : Z) : digest A := mkDigest salt s.

(** [n] bytes read from [rest], starting over at [key] when it runs out. *)
Fixpoint key_stream (n : nat) (key rest : string) : string :=
  match n with
  | O => EmptyString
  | S n' =>
    match rest with
    | String c rest' => String c (key_stream n' key rest')
    | EmptyString =>
      match key with
      | String c key' => String c (key_stream n' key key')
      | EmptyString => EmptyString
      end
    end
  end.

(** The key bytes of a string. *)
Definition key72 (s : string) : string :=
  key_stream 72 (s ++ String zero "") (s ++ String zero "").

(** The key bytes of a token.  The text before the signature of a signed
    token is longer than 72 characters, so neither the signature nor the
    secret it was made with is among them. *)
Definition key_of_token (t : Jwt.token) : string :=
  match t with
  | Jwt.Signed _ p => substring 0 72 (Jwt.signing_input p)
  | Jwt.Opaque s => key72 s
  end.

Definition compare {A : Type} (key : A -> string) (s : A) (h : digest A)
  : bool := (key s =? key (d_of h))%string.

End Bcrypt.

(* ------------------------------------------------------------------ *)
(** ** The schema: enumerations, rows and the database *)

Module Schema.

Inductive role : Type := patient | doctor | admin.

Definition role_name (r : role) : string :=
  match r with
  | patient => "patient" | doctor => "doctor" | admin => "admin"
  end.

Definition role_of_string (s : string) : option role :=
  if s =? "patient" then Some patient
  else if s =? "doctor" then Some doctor
  else if s =? "admin" then Some admin
  else None.

Definition role_eqb (a b : role) : bool :=
  match a, b with
  | patient, patient | doctor, doctor | admin, admin => true
  | _, _ => false
  end.

Inductive status : Type :=
| scheduled | confirmed | in_progress | completed | cancelled | no_show.

Definition status_eqb (a b : status) : bool :=
  match a, b with
  | scheduled, scheduled | confirmed, confirmed | in_progress, in_progress
  | completed, completed | cancelled, cancelled | no_show, no_show => true
  | _, _ => false
  end.

Inductive appointment_type : Type := in_person | virtual.

Inductive payment_status : Type := pending | paid | refunded.

Record users_row : Type := mkUser
  { u_id : Z;
    u_email : string;
    u_password_hash : Bcrypt.digest string;
    u_role : role;
    u_first_name : string;
    u_last_name : string;
    u_is_active : bool;
    u_email_verified : bool }.

Record doctors_row : Type := mkDoctor
  { d_id : Z;
    d_user_id : Z;
    d_specialization : string;
    d_license_number : string;
    d_years_of_experience : Z;
    d_consultation_fee : Z;
    d_is_available : bool }.

Record doctor_availability_row : Type := mkAvailability
  { da_doctor_id : Z;
    da_day_of_week : string;
    da_start_time : Z;
    da_end_time : Z;
    da_is_active : bool }.

Record appointments_row : Type := mkAppointment
  { a_id : Z;
    a_patient_id : Z;
    a_doctor_id : Z;
    a_appointment_date : Z;
    a_appointment_time : Z;
    a_duration_minutes : Z;
    a_type : appointment_type;
    a_status : status;
    a_reason_for_visit : string;
    a_notes : option string;
    a_virtual_meeting_url : option string;
    a_consultation_fee : Z;
    a_payment_status : payment_status }.

Record refresh_tokens_row : Type := mkRefreshToken
  { rt_id : Z;
    rt_user_id : Z;
    rt_token_hash : Bcrypt.digest Jwt.token;
    rt_expires_at : Z;
    rt_is_revoked : bool }.

(** The tables the modelled routes touch. *)
Record Db : Type := mkDb
  { users : list users_row;
    doctors : list doctors_row;
    doctor_availability : list doctor_availability_row;
    appointments : list appointments_row;
    refresh_tokens : list refresh_tokens_row }.

Definition set_users (l : list users_row) (db : Db) : Db :=
  mkDb l (doctors db) (doctor_availability db) (appointments db)
       (refresh_tokens db).
Definition set_doctors (l : list doctors_row) (db : Db) : Db :=
  mkDb (users db) l (doctor_availability db) (appointments db)
       (refresh_tokens db).
Definition set_doctor_availability (l : list doctor_availability_row)
           (db : Db) : Db :=
  mkDb (users db) (doctors db) l (appointments db) (refresh_tokens db).
Definition set_appointments (l : list appointments_row) (db : Db) : Db :=
  mkDb (users db) (doctors db) (doctor_availability db) l
       (refresh_tokens db).
Definition set_refresh_tokens (l : list refresh_tokens_row) (db : Db) : Db :=
  mkDb (users db) (doctors db) (doctor_availability db) (appointments db) l.

(** AUTO_INCREMENT: the next id of a table is above every id in it. *)
Definition insertId {A : Type} (key : A -> Z) (table : list A) : Z :=
  1 + fold_right (fun r m => Z.max (key r) m) 0 table.

(** ENUM('monday', ..., 'sunday') of doctor_availability.day_of_week. *)
Definition day_of_week_enum : list string :=
  ["monday"; "tuesday"; "wednesday"; "thursday"; "friday"; "saturday";
   "sunday"].

End Schema.
Export Schema.

(* ------------------------------------------------------------------ *)
(** ** Handlers as computations over the database *)

Module Handler.

Definition M (A : Type) : Type := Db -> result A * Db.

Definition ret {A : Type} (a : A) : M A := fun db => (Ok a, db).

Definition bind {A B : Type} (c : M A) (k : A -> M B) : M B :=
  fun db =>
    match c db with
    | (Ok a, db') => k a db'
    | (Throw e, db') => (Throw e, db')
    end.

Definition throw {A : Type} (e : thrown) : M A := fun db => (Throw e, db).

(** A SELECT. *)
Definition query {A : Type} (q : Db -> A) : M A := fun db => (Ok (q db), db).

(** An INSERT, UPDATE or DELETE that cannot fail. *)
Definition execute (f : Db -> Db) : M unit := fun db => (Ok tt, f db).

(** [jwt.verify] and the like: a pure step that may throw. *)
Definition lift {A : Type} (r : result A) : M A := fun db => (r, db).

(** beginTransaction ... commit, with rollback in the catch block. *)
Definition transaction {A : Type} (body : M A) : M A :=
  fun db =>
    match body db with
    | (Ok a, db') => (Ok a, db')
    | (Throw e, _) => (Throw e, db)
    end.

(** What a handler sends when it does not throw. *)
Inductive reply (A : Type) : Type :=
| Sent (status : Z) (body : A)
| Refused (f : failure).
Arguments Sent {A} status body.
Arguments Refused {A} f.

(** A middleware either passes control on or answers itself. *)
Inductive step (A : Type) : Type :=
| Next (a : A)
| Answer (f : failure).
Arguments Next {A} a.
Arguments Answer {A} f.

End Handler.
Export Handler.

Declare Scope handler_scope.
Delimit Scope handler_scope with handler.
Notation "x <- c ;; k" := (bind c (fun x => k))
  (at level 61, c at next level, right associativity) : handler_scope.
Notation "c ;;; k" := (bind c (fun _ => k))
  (at level 61, right associativity) : handler_scope.

(* ------------------------------------------------------------------ *)
(** ** middleware/auth *)

Module AuthMiddleware.

(** [req.user] as [authenticateToken] builds it. *)
Record req_user : Type := mkReqUser
  { id : Z;
    email : string;
    role_of : role;
    firstName : string;
    lastName : string }.

(** The Authorization header is given as its [split(' ')] parts; a part is
    a signed token or any other string. *)
Definition authenticateToken (e : env) (db : Db)
           (authHeader : option (list Jwt.token)) : step req_user :=
  let token :=
    match authHeader with
    | None => None
    | Some parts => nth_error parts 1
    end in
  match token with
  | None => Answer (mkFailure 401 "Access token required" "TOKEN_MISSING")
  | Some t =>
    if Jwt.falsy t
    then Answer (mkFailure 401 "Access token required" "TOKEN_MISSING")
    else
      match Jwt.verify t Jwt.JWT_SECRET (now e) with
      | Throw JsonWebTokenError =>
          Answer (mkFailure 401 "Invalid token" "INVALID_TOKEN")
      | Throw TokenExpiredError =>
          Answer (mkFailure 401 "Token expired" "TOKEN_EXPIRED")
      | Throw _ => Answer (mkFailure 500 "Authentication failed" "AUTH_ERROR")
      | Ok decoded =>
        match filter (fun u => (u_id u =? Jwt.userId decoded)%Z && u_is_active u)
                     (users db) with
        | [] => Answer (mkFailure 401 "Invalid token - user not found or inactive"
                                  "INVALID_TOKEN")
        | u :: _ =>
            Next (mkReqUser (u_id u) (u_email u) (u_role u) (u_first_name u)
                            (u_last_name u))
        end
      end
  end.

Definition includes (l : list string) (s : string) : bool :=
  existsb (fun x => (x =? s)%string) l.

Definition authorizeRoles (roles : list string) (user : option req_user)
  : step unit :=
  match user with
  | None => Answer (mkFailure 401 "Authentication required" "AUTH_REQUIRED")
  | Some u =>
    if negb (includes roles (role_name (role_of u)))
    then Answer (mkFailure 403 "Insufficient permissions"
                           "INSUFFICIENT_PERMISSIONS")
    else Next tt
  end.

End AuthMiddleware.
Export AuthMiddleware.

(* ------------------------------------------------------------------ *)
(** ** middleware/validation *)

Module Validation.

(** The validators and sanitizers of express-validator that the chains call
    on strings.  [isIn] and [equals] are list membership and string equality
    and are written out below. *)
Class Validators : Type :=
  { isEmail : string -> bool;
    normalizeEmail : string -> string;
    trim : string -> string;
    isLength : option Z -> option Z -> string -> bool;
    matches_password : string -> bool;  (* /^(?=.*[a-z])(?=.*[A-Z])(?=.*\d)/ *)
    matches_phone : string -> bool;     (* /^\+?[\d\s\-\(\)]+$/ *)
    isISO8601 : string -> bool }.

Definition isIn (values : list string) (v : option string) : bool :=
  includes values (or_default v "").

(** One entry of [errors.array()]: the field and the message. *)
Definition check (field : string) (ok : bool) (msg : string)
  : list (string * string) :=
  if ok then [] else [(field, msg)].

(** [.optional()]: an absent field is not validated. *)
Definition optional {A : Type} (v : option A)
           (chain : A -> list (string * string)) : list (string * string) :=
  match v with None => [] | Some a => chain a end.

Definition handleValidationErrors {A : Type} (errors : list (string * string))
           (req : A) : step A :=
  match errors with
  | [] => Next req
  | _ => Answer (mkFailureWith 400 "Validation failed" "" errors)
  end.

(** The body of POST /register. *)
Record register_body : Type := mkRegisterBody
  { rb_email : string;
    rb_password : string;
    rb_firstName : string;
    rb_lastName : string;
    rb_role : option string;
    rb_phone : option string;
    rb_dateOfBirth : option string;
    rb_gender : option string;
    rb_specialization : option string;
    rb_licenseNumber : option string;
    rb_yearsOfExperience : option Z }.

Definition notEmpty (v : option string) : bool :=
  negb (or_default v "" =? "")%string.

Definition registerValidation {V : Validators} (b : register_body)
  : step register_body :=
  let errors := (
    check "email" (isEmail (rb_email b)) "Valid email is required"
    ++ check "password" (isLength (Some 8) None (rb_password b))
             "Password must be at least 8 characters"
    ++ check "password" (matches_password (rb_password b))
             "Password must contain at least one lowercase letter, one uppercase letter, and one number"
    ++ check "firstName" (isLength (Some 2) (Some 50) (trim (rb_firstName b)))
             "First name must be between 2 and 50 characters"
    ++ check "lastName" (isLength (Some 2) (Some 50) (trim (rb_lastName b)))
             "Last name must be between 2 and 50 characters"
    ++ check "role" (isIn ["patient"; "doctor"] (rb_role b))
             "Role must be either patient or doctor"
    ++ optional (rb_phone b) (fun v =>
         check "phone" (matches_phone v) "Invalid phone number format")
    ++ optional (rb_dateOfBirth b) (fun v =>
         check "dateOfBirth" (isISO8601 v) "Invalid date format")
    ++ (if (or_default (rb_role b) "" =? "doctor")%string
        then check "specialization" (notEmpty (rb_specialization b))
                   "Specialization is required for doctors"
        else [])
    ++ (if (or_default (rb_role b) "" =? "doctor")%string
        then check "licenseNumber" (notEmpty (rb_licenseNumber b))
                   "License number is required for doctors"
        else []))%list in
  handleValidationErrors errors
    (mkRegisterBody (normalizeEmail (rb_email b)) (rb_password b)
                    (trim (rb_firstName b)) (trim (rb_lastName b))
                    (rb_role b) (rb_phone b) (rb_dateOfBirth b) (rb_gender b)
                    (rb_specialization b) (rb_licenseNumber b)
                    (rb_yearsOfExperience b)).

Definition msPerDay : Z := 86400000.

(** [today.setHours(0, 0, 0, 0)]: the local midnight before the clock. *)
Definition today (e : env) : Z :=
  (now e + tz e) / msPerDay * msPerDay - tz e.

(** [new Date('YYYY-MM-DD')]: midnight UTC of that day. *)
Definition Date_of_day (day : Z) : Z := day * msPerDay.

(** The body of POST /appointments.  [cb_appointmentTime] is the time the
    string denotes, in seconds; [cb_other] lists the keys the handler does
    not destructure, each with the number the client sent. *)
Record create_body : Type := mkCreateBody
  { cb_doctorId : Z;
    cb_appointmentDate : Z;
    cb_appointmentTime : Z;
    cb_durationMinutes : option Z;
    cb_type : string;
    cb_reasonForVisit : string;
    cb_other : list (string * Z) }.

(** /^([0-1]?[0-9]|2[0-3]):[0-5][0-9]$/ read on the time denoted: a whole
    minute of the day. *)
Definition matches_HHMM (t : Z) : bool :=
  (0 <=? t)%Z && (t <? 86400)%Z && (t mod 60 =? 0)%Z.

Definition createAppointmentValidation {V : Validators} (e : env)
           (b : create_body) : step create_body :=
  let errors := (
    check "doctorId" (1 <=? cb_doctorId b)%Z "Valid doctor ID is required"
    ++ check "appointmentDate"
             (negb (Date_of_day (cb_appointmentDate b) <? today e)%Z)
             "Appointment date cannot be in the past"
    ++ check "appointmentTime" (matches_HHMM (cb_appointmentTime b))
             "Valid appointment time is required (HH:MM format)"
    ++ check "type" (isIn ["in-person"; "virtual"] (Some (cb_type b)))
             "Appointment type must be either in-person or virtual"
    ++ check "reasonForVisit"
             (isLength (Some 10) (Some 500) (trim (cb_reasonForVisit b)))
             "Reason for visit must be between 10 and 500 characters"
    ++ optional (cb_durationMinutes b) (fun v =>
         check "durationMinutes" ((15 <=? v)%Z && (v <=? 120)%Z)
               "Duration must be between 15 and 120 minutes"))%list in
  handleValidationErrors errors
    (mkCreateBody (cb_doctorId b) (cb_appointmentDate b)
                  (cb_appointmentTime b) (cb_durationMinutes b) (cb_type b)
                  (trim (cb_reasonForVisit b)) (cb_other b)).

End Validation.
Export Validation.

(* ------------------------------------------------------------------ *)
(** ** routes/auth *)

Module AuthRoutes.

Local Open Scope handler_scope.

Record tokens : Type := mkTokens
  { accessToken : Jwt.token; refreshToken : Jwt.token }.

(** '24h' and '7d', in seconds. *)
Definition default_JWT_EXPIRES_IN : Z := 86400.
Definition default_JWT_REFRESH_EXPIRES_IN : Z := 604800.

Definition generateTokens (e : env) (uid : Z) : tokens :=
  mkTokens
    (Jwt.sign uid Jwt.JWT_SECRET
              (or_default (JWT_EXPIRES_IN e) default_JWT_EXPIRES_IN) (now e))
    (Jwt.sign uid Jwt.JWT_REFRESH_SECRET
              (or_default (JWT_REFRESH_EXPIRES_IN e)
                          default_JWT_REFRESH_EXPIRES_IN) (now e)).

(** INSERT INTO refresh_tokens (user_id, token_hash, expires_at), with
    [expiresAt = Date.now() + 7 * 24 * 60 * 60 * 1000]. *)
Definition storeRefreshToken (e : env) (uid : Z) (t : Jwt.token) : M unit :=
  execute (fun db =>
    set_refresh_tokens
      (refresh_tokens db ++
       [mkRefreshToken (insertId rt_id (refresh_tokens db)) uid
                       (Bcrypt.hash t (salt e))
                       (now e + 7 * 24 * 60 * 60 * 1000) false])
      db).

Record user_json : Type := mkUserJson
  { uj_id : Z;
    uj_email : string;
    uj_role : string;
    uj_firstName : string;
    uj_lastName : string }.

Record auth_json : Type := mkAuthJson
  { message : string;
    user : option user_json;
    issued : tokens }.

Definition truthy (v : option string) : bool :=
  negb (or_default v "" =? "")%string.

(** POST /register, after [registerValidation]. *)
Definition register (e : env) (b : register_body) : M (reply auth_json) :=
  uid <- transaction (
    existingUsers <- query (fun db =>
      filter (fun u => (u_email u =? rb_email b)%string) (users db)) ;;
    match existingUsers with
    | _ :: _ => throw (ConflictError "User with this email already exists")
    | [] =>
      let passwordHash := Bcrypt.hash (rb_password b) (salt e) in
      uid <- (fun db =>
        match role_of_string (or_default (rb_role b) "") with
        | None => (Throw (MysqlError "WARN_DATA_TRUNCATED"), db)
        | Some r =>
          let uid := insertId u_id (users db) in
          (Ok uid,
           set_users (users db ++
                      [mkUser uid (rb_email b) passwordHash r (rb_firstName b)
                              (rb_lastName b) true false]) db)
        end) ;;
      (if (or_default (rb_role b) "" =? "doctor")%string then
         if negb (truthy (rb_specialization b))
            || negb (truthy (rb_licenseNumber b))
         then throw (AppError
                "Specialization and license number are required for doctors"
                400)
         else
           existingLicense <- query (fun db =>
             filter (fun d => (d_license_number d
                               =? or_default (rb_licenseNumber b) "")%string)
                    (doctors db)) ;;
           match existingLicense with
           | _ :: _ => throw (ConflictError
                         "Doctor with this license number already exists")
           | [] =>
             execute (fun db =>
               set_doctors (doctors db ++
                 [mkDoctor (insertId d_id (doctors db)) uid
                           (or_default (rb_specialization b) "")
                           (or_default (rb_licenseNumber b) "")
                           (or_default (rb_yearsOfExperience b) 0) 0 true]) db)
           end
       else ret tt) ;;;
      ret uid
    end) ;;
  let t := generateTokens e uid in
  storeRefreshToken e uid (refreshToken t) ;;;
  ret (Sent 201
         (mkAuthJson "User registered successfully"
            (Some (mkUserJson uid (rb_email b) (or_default (rb_role b) "")
                              (rb_firstName b) (rb_lastName b)))
            t)).

(** POST /register with its validation chain. *)
Definition POST_register {V : Validators} (e : env) (b : register_body)
  : M (reply auth_json) :=
  match registerValidation b with
  | Answer f => ret (Refused f)
  | Next b' => register e b'
  end.

(** POST /login, after [loginValidation]. *)
Definition login (e : env) (email password : string) : M (reply auth_json) :=
  found <- query (fun db =>
    filter (fun u => (u_email u =? email)%string) (users db)) ;;
  match found with
  | [] => throw (UnauthorizedError "Invalid email or password")
  | u :: _ =>
    if negb (u_is_active u)
    then throw (UnauthorizedError "Account is deactivated")
    else if negb (Bcrypt.compare Bcrypt.key72 password (u_password_hash u))
    then throw (UnauthorizedError "Invalid email or password")
    else
      let t := generateTokens e (u_id u) in
      storeRefreshToken e (u_id u) (refreshToken t) ;;;
      ret (Sent 200
             (mkAuthJson "Login successful"
                (Some (mkUserJson (u_id u) (u_email u) (role_name (u_role u))
                                  (u_first_name u) (u_last_name u)))
                t))
  end.

(** The loop over the candidate records: the first whose hash matches. *)
Fixpoint validToken (presented : Jwt.token) (rows : list refresh_tokens_row)
  : option refresh_tokens_row :=
  match rows with
  | [] => None
  | row :: rest =>
    if Bcrypt.compare Bcrypt.key_of_token presented (rt_token_hash row)
    then Some row
    else validToken presented rest
  end.

(** UPDATE refresh_tokens SET is_revoked = TRUE WHERE id = ? *)
Definition revoke (rid : Z) (rows : list refresh_tokens_row)
  : list refresh_tokens_row :=
  map (fun r =>
         if (rt_id r =? rid)%Z
         then mkRefreshToken (rt_id r) (rt_user_id r) (rt_token_hash r)
                             (rt_expires_at r) true
         else r) rows.

(** POST /refresh; [presented] is [req.body.refreshToken]. *)
Definition refresh (e : env) (presented : option Jwt.token)
  : M (reply auth_json) :=
  match presented with
  | None => throw (UnauthorizedError "Refresh token is required")
  | Some t =>
    if Jwt.falsy t then throw (UnauthorizedError "Refresh token is required")
    else
      decoded <- lift (Jwt.verify t Jwt.JWT_REFRESH_SECRET (now e)) ;;
      candidates <- query (fun db =>
        filter (fun r => (rt_user_id r =? Jwt.userId decoded)%Z
                         && (now e <? rt_expires_at r)%Z
                         && negb (rt_is_revoked r))
               (refresh_tokens db)) ;;
      match validToken t candidates with
      | None => throw (UnauthorizedError "Invalid or expired refresh token")
      | Some valid =>
        let fresh := generateTokens e (Jwt.userId decoded) in
        execute (fun db =>
          set_refresh_tokens (revoke (rt_id valid) (refresh_tokens db)) db) ;;;
        storeRefreshToken e (Jwt.userId decoded) (refreshToken fresh) ;;;
        ret (Sent 200 (mkAuthJson "Tokens refreshed successfully" None fresh))
      end
  end.

End AuthRoutes.
Export AuthRoutes.

(* ------------------------------------------------------------------ *)
(** ** routes/users: the admin's status switch *)

Module UserRoutes.

Local Open Scope handler_scope.

Record status_json : Type := mkStatusJson
  { sj_message : string; sj_userId : Z; sj_isActive : bool }.

(** PUT /:id/status, after [authenticateToken], [authorizeRoles('admin')]
    and [idValidation].  [isActive] is [None] when the body does not hold a
    boolean there. *)
Definition updateUserStatus (caller : req_user) (target : Z)
           (isActive : option bool) : M (reply status_json) :=
  match isActive with
  | None => ret (Refused (mkFailure 400 "isActive must be a boolean value" ""))
  | Some active =>
    if (target =? id caller)%Z && negb active
    then ret (Refused (mkFailure 400 "Cannot deactivate your own account" ""))
    else
      affectedRows <- (fun db =>
        (Ok (Z.of_nat (List.length (filter (fun u => (u_id u =? target)%Z)
                                      (users db)))),
         set_users
           (map (fun u =>
                   if (u_id u =? target)%Z
                   then mkUser (u_id u) (u_email u) (u_password_hash u)
                               (u_role u) (u_first_name u) (u_last_name u)
                               active (u_email_verified u)
                   else u) (users db)) db)) ;;
      if (affectedRows =? 0)%Z then throw (NotFoundError "User")
      else
        (if negb active then
           execute (fun db =>
             set_refresh_tokens
               (map (fun r =>
                       if (rt_user_id r =? target)%Z
                       then mkRefreshToken (rt_id r) (rt_user_id r)
                                           (rt_token_hash r) (rt_expires_at r)
                                           true
                       else r) (refresh_tokens db)) db)
         else ret tt) ;;;
        ret (Sent 200
               (mkStatusJson
                  (if active then "User activated successfully"
                   else "User deactivated successfully")
                  target active))
  end.

End UserRoutes.
Export UserRoutes.

(* ------------------------------------------------------------------ *)
(** ** routes/appointments *)

Module AppointmentRoutes.

Local Open Scope handler_scope.

Record appointment_json : Type := mkAppointmentJson
  { aj_message : string; aj_appointment : appointments_row }.

(** FROM doctors d JOIN users u ON d.user_id = u.id
    WHERE d.id = ? AND d.is_available = TRUE AND u.is_active = TRUE *)
Definition availableDoctors (doctorId : Z) (db : Db) : list doctors_row :=
  flat_map (fun d =>
    map (fun _ => d)
        (filter (fun u => (d_user_id d =? u_id u)%Z
                          && (d_id d =? doctorId)%Z
                          && d_is_available d && u_is_active u)
                (users db)))
    (doctors db).

(** status IN ('scheduled', 'confirmed') *)
Definition blocks (s : status) : bool :=
  match s with scheduled | confirmed => true | _ => false end.

(** SELECT id FROM appointments WHERE doctor_id = ? AND appointment_date = ?
    AND appointment_time = ? AND status IN ('scheduled', 'confirmed') *)
Definition conflictsOnCreate (doctorId date time : Z) (db : Db)
  : list appointments_row :=
  filter (fun a => (a_doctor_id a =? doctorId)%Z
                   && (a_appointment_date a =? date)%Z
                   && (a_appointment_time a =? time)%Z
                   && blocks (a_status a))
         (appointments db).

(** The same query with [AND id != ?]. *)
Definition conflictsOnUpdate (doctorId date time appointmentId : Z) (db : Db)
  : list appointments_row :=
  filter (fun a => (a_doctor_id a =? doctorId)%Z
                   && (a_appointment_date a =? date)%Z
                   && (a_appointment_time a =? time)%Z
                   && blocks (a_status a)
                   && negb (a_id a =? appointmentId)%Z)
         (appointments db).

(** UNIQUE KEY unique_doctor_datetime (doctor_id, appointment_date,
    appointment_time): does [row] collide with another row of the table? *)
Definition duplicates_key (row : appointments_row)
           (table : list appointments_row) : bool :=
  existsb (fun a => negb (a_id a =? a_id row)%Z
                    && (a_doctor_id a =? a_doctor_id row)%Z
                    && (a_appointment_date a =? a_appointment_date row)%Z
                    && (a_appointment_time a =? a_appointment_time row)%Z)
          table.

(** ENUM('in-person', 'virtual') *)
Definition type_of_string (s : string) : option appointment_type :=
  if (s =? "in-person")%string then Some in_person
  else if (s =? "virtual")%string then Some virtual
  else None.

(** INSERT INTO appointments ..., under the keys of the schema. *)
Definition insertAppointment (row : appointments_row) : M Z :=
  fun db =>
    if negb (existsb (fun u => (u_id u =? a_patient_id row)%Z) (users db))
       || negb (existsb (fun d => (d_id d =? a_doctor_id row)%Z) (doctors db))
    then (Throw (MysqlError "ER_NO_REFERENCED_ROW_2"), db)
    else if duplicates_key row (appointments db)
    then (Throw (MysqlError "ER_DUP_ENTRY"), db)
    else (Ok (a_id row), set_appointments (appointments db ++ [row]) db).

(** POST /, after [authenticateToken], [authorizeRoles('patient')] and
    [createAppointmentValidation]. *)
Definition createAppointment (e : env) (caller : req_user) (b : create_body)
  : M (reply appointment_json) :=
  transaction (
    found <- query (availableDoctors (cb_doctorId b)) ;;
    match found with
    | [] => throw (NotFoundError "Doctor not found or not available")
    | doc :: _ =>
      conflicts <- query (conflictsOnCreate (cb_doctorId b)
                            (cb_appointmentDate b) (cb_appointmentTime b)) ;;
      match conflicts with
      | _ :: _ => throw (ConflictError "Time slot is already booked")
      | [] =>
        let virtualMeetingUrl :=
          if (cb_type b =? "virtual")%string
          then Some ("https://meet.healthcare.com/room/" ++ room e)
          else None in
        match type_of_string (cb_type b) with
        | None => throw (MysqlError "WARN_DATA_TRUNCATED")
        | Some ty =>
          row <- query (fun db =>
            mkAppointment (insertId a_id (appointments db)) (id caller)
              (cb_doctorId b) (cb_appointmentDate b) (cb_appointmentTime b)
              (or_default (cb_durationMinutes b) 30) ty scheduled
              (cb_reasonForVisit b) None virtualMeetingUrl
              (d_consultation_fee doc) pending) ;;
          insertAppointment row ;;;
          ret (Sent 201 (mkAppointmentJson "Appointment created successfully"
                                           row))
        end
      end
    end).

(** The route with its middlewares; the caller is who the token names. *)
Definition POST_appointments {V : Validators} (e : env)
           (authHeader : option (list Jwt.token)) (b : create_body)
  : M (reply appointment_json) :=
  fun db =>
    match authenticateToken e db authHeader with
    | Answer f => (Ok (Refused f), db)
    | Next caller =>
      match authorizeRoles ["patient"] (Some caller) with
      | Answer f => (Ok (Refused f), db)
      | Next _ =>
        match createAppointmentValidation e b with
        | Answer f => (Ok (Refused f), db)
        | Next b' => createAppointment e caller b' db
        end
      end
    end.

(** The body of PUT /:id.  The seven keys of [fieldMapping] hold a value of
    their column's type when present; [ub_other] names further keys. *)
Record update_body : Type := mkUpdateBody
  { ub_appointmentDate : option Z;
    ub_appointmentTime : option Z;
    ub_durationMinutes : option Z;
    ub_type : option appointment_type;
    ub_status : option status;
    ub_reasonForVisit : option string;
    ub_notes : option string;
    ub_other : list string }.

(** What [fieldMapping[key]] finds: one of its seven columns, or, for a key
    that names a member of Object.prototype, that inherited member. *)
Inductive looked_up : Type :=
| Column (name : string)
| Inherited (member : string).

Definition Object_prototype : list string :=
  ["constructor"; "hasOwnProperty"; "isPrototypeOf"; "propertyIsEnumerable";
   "toLocaleString"; "toString"; "valueOf"; "__proto__"; "__defineGetter__";
   "__defineSetter__"; "__lookupGetter__"; "__lookupSetter__"].

Definition fieldMapping (key : string) : option looked_up :=
  if (key =? "appointmentDate")%string then Some (Column "appointment_date")
  else if (key =? "appointmentTime")%string
  then Some (Column "appointment_time")
  else if (key =? "durationMinutes")%string
  then Some (Column "duration_minutes")
  else if (key =? "type")%string then Some (Column "type")
  else if (key =? "status")%string then Some (Column "status")
  else if (key =? "reasonForVisit")%string
  then Some (Column "reason_for_visit")
  else if (key =? "notes")%string then Some (Column "notes")
  else if includes Object_prototype key then Some (Inherited key)
  else None.

Definition is_column (found : option looked_up) : bool :=
  match found with Some (Column _) => true | _ => false end.

Definition is_inherited (found : looked_up) : bool :=
  match found with Inherited _ => true | Column _ => false end.

Definition key_if {A : Type} (key : string) (v : option A) : list string :=
  match v with Some _ => [key] | None => [] end.

Definition is_some {A : Type} (v : option A) : bool :=
  match v with Some _ => true | None => false end.

(** [Object.keys(updates)]: the typed keys that are present, then the
    further keys (the name of a column's key among them is not a further
    key). *)
Definition Object_keys (u : update_body) : list string :=
  (key_if "appointmentDate" (ub_appointmentDate u)
   ++ key_if "appointmentTime" (ub_appointmentTime u)
   ++ key_if "durationMinutes" (ub_durationMinutes u)
   ++ key_if "type" (ub_type u)
   ++ key_if "status" (ub_status u)
   ++ key_if "reasonForVisit" (ub_reasonForVisit u)
   ++ key_if "notes" (ub_notes u)
   ++ filter (fun k => negb (is_column (fieldMapping k))) (ub_other u))%list.

Definition allowedFields : list string :=
  ["appointmentDate"; "appointmentTime"; "reasonForVisit"].

Definition hasDisallowedFields (u : update_body) : bool :=
  existsb (fun key => negb (includes allowedFields key)) (Object_keys u).

(** What the forEach collects. *)
Definition updateFields (u : update_body) : list looked_up :=
  flat_map (fun key =>
              match fieldMapping key with
              | Some found => [found]
              | None => []
              end) (Object_keys u).

(** The row after [UPDATE appointments SET ... WHERE id = ?]. *)
Definition assign (u : update_body) (a : appointments_row)
  : appointments_row :=
  mkAppointment (a_id a) (a_patient_id a) (a_doctor_id a)
    (or_default (ub_appointmentDate u) (a_appointment_date a))
    (or_default (ub_appointmentTime u) (a_appointment_time a))
    (or_default (ub_durationMinutes u) (a_duration_minutes a))
    (or_default (ub_type u) (a_type a))
    (or_default (ub_status u) (a_status a))
    (or_default (ub_reasonForVisit u) (a_reason_for_visit a))
    (match ub_notes u with Some n => Some n | None => a_notes a end)
    (a_virtual_meeting_url a) (a_consultation_fee a) (a_payment_status a).

(** SELECT a.*, d.user_id as doctor_user_id FROM appointments a
    JOIN doctors d ON a.doctor_id = d.id WHERE a.id = ? *)
Definition appointmentWithDoctor (appointmentId : Z) (db : Db)
  : list (appointments_row * Z) :=
  flat_map (fun a =>
    map (fun d => (a, d_user_id d))
        (filter (fun d => (a_doctor_id a =? d_id d)%Z
                          && (a_id a =? appointmentId)%Z)
                (doctors db)))
    (appointments db).

Definition canUpdate (caller : req_user) (appointment : appointments_row)
           (doctor_user_id : Z) : bool :=
  role_eqb (role_of caller) admin
  || (role_eqb (role_of caller) patient
      && (a_patient_id appointment =? id caller)%Z)
  || (role_eqb (role_of caller) doctor && (doctor_user_id =? id caller)%Z).

(** UPDATE appointments SET ... WHERE id = ?: the statement is refused when
    a collected field is not a column name, and runs under the unique key. *)
Definition updateAppointmentRow (appointmentId : Z) (u : update_body)
  : M unit :=
  fun db =>
    let table :=
      map (fun a => if (a_id a =? appointmentId)%Z then assign u a else a)
          (appointments db) in
    if existsb is_inherited (updateFields u)
    then (Throw (MysqlError "ER_PARSE_ERROR"), db)
    else if existsb (fun a => (a_id a =? appointmentId)%Z
                              && duplicates_key a table) table
    then (Throw (MysqlError "ER_DUP_ENTRY"), db)
    else (Ok tt, set_appointments table db).

(** PUT /:id, after [authenticateToken] and [updateAppointmentValidation].
    [ValidationError] is not among the names the module imports from
    errorHandler, so evaluating it throws a ReferenceError. *)
Definition updateAppointment (caller : req_user) (appointmentId : Z)
           (updates : update_body) : M (reply appointment_json) :=
  transaction (
    found <- query (appointmentWithDoctor appointmentId) ;;
    match found with
    | [] => throw (NotFoundError "Appointment")
    | (appointment, doctor_user_id) :: _ =>
      if negb (canUpdate caller appointment doctor_user_id)
      then throw (ForbiddenError "Access denied to update this appointment")
      else if role_eqb (role_of caller) patient
              && negb (status_eqb (a_status appointment) scheduled)
      then throw (ForbiddenError
                    "Cannot update appointment that is not scheduled")
      else if role_eqb (role_of caller) patient && hasDisallowedFields updates
      then throw (ForbiddenError
                    "Patients can only update date, time, and reason for visit")
      else
        (if is_some (ub_appointmentDate updates)
            || is_some (ub_appointmentTime updates)
         then
           let newDate := or_default (ub_appointmentDate updates)
                                     (a_appointment_date appointment) in
           let newTime := or_default (ub_appointmentTime updates)
                                     (a_appointment_time appointment) in
           conflicts <- query (conflictsOnUpdate (a_doctor_id appointment)
                                 newDate newTime appointmentId) ;;
           match conflicts with
           | _ :: _ => throw (ConflictError "Time slot is already booked")
           | [] => ret tt
           end
         else ret tt) ;;;
        match updateFields updates with
        | [] => throw (ReferenceError "ValidationError")
        | _ :: _ => updateAppointmentRow appointmentId updates
        end
    end) ;;;
  updated <- query (fun db =>
    filter (fun a => (a_id a =? appointmentId)%Z) (appointments db)) ;;
  match updated with
  | [] => throw (TypeError "Cannot read properties of undefined")
  | updatedAppointment :: _ =>
      ret (Sent 200 (mkAppointmentJson "Appointment updated successfully"
                                       updatedAppointment))
  end.

Definition canCancel (caller : req_user) (appointment : appointments_row)
           (doctor_user_id : Z) : bool :=
  role_eqb (role_of caller) admin
  || (role_eqb (role_of caller) patient
      && (a_patient_id appointment =? id caller)%Z)
  || (role_eqb (role_of caller) doctor && (doctor_user_id =? id caller)%Z).

Record cancel_json : Type := mkCancelJson
  { cj_message : string; cj_appointmentId : Z }.

Definition with_status (s : status) (a : appointments_row)
  : appointments_row :=
  mkAppointment (a_id a) (a_patient_id a) (a_doctor_id a)
    (a_appointment_date a) (a_appointment_time a) (a_duration_minutes a)
    (a_type a) s (a_reason_for_visit a) (a_notes a) (a_virtual_meeting_url a)
    (a_consultation_fee a) (a_payment_status a).

(** DELETE /:id, after [authenticateToken] and [idValidation]. *)
Definition cancelAppointment (caller : req_user) (appointmentId : Z)
  : M (reply cancel_json) :=
  found <- query (appointmentWithDoctor appointmentId) ;;
  match found with
  | [] => throw (NotFoundError "Appointment")
  | (appointment, doctor_user_id) :: _ =>
    if negb (canCancel caller appointment doctor_user_id)
    then throw (ForbiddenError "Access denied to cancel this appointment")
    else
      execute (fun db =>
        set_appointments
          (map (fun a => if (a_id a =? appointmentId)%Z
                         then with_status cancelled a else a)
               (appointments db)) db) ;;;
      ret (Sent 200 (mkCancelJson "Appointment cancelled successfully"
                                  appointmentId))
  end.

End AppointmentRoutes.
Export AppointmentRoutes.

(* ------------------------------------------------------------------ *)
(** ** routes/doctors: the availability calendar *)

Module DoctorRoutes.

Local Open Scope handler_scope.

Definition dayNames : list string :=
  ["sunday"; "monday"; "tuesday"; "wednesday"; "thursday"; "friday";
   "saturday"].

(** [getDay()]: the local weekday of an instant; day 0 was a Thursday. *)
Definition getDay (e : env) (t : Z) : Z := ((t + tz e) / msPerDay + 4) mod 7.

(** [new Date(`2000-01-01 ${time}`)] as milliseconds after that local
    midnight; 24:00:00 is read as the midnight that follows, and [None] is
    an Invalid Date. *)
Definition clock (time : Z) : option Z :=
  if (0 <=? time)%Z && (time <=? 86400)%Z then Some (time * 1000) else None.

(** Comparisons of dates; any comparison with an Invalid Date is false. *)
Definition date_lt (a b : option Z) : bool :=
  match a, b with Some x, Some y => (x <? y)%Z | _, _ => false end.
Definition date_le (a b : option Z) : bool :=
  match a, b with Some x, Some y => (x <=? y)%Z | _, _ => false end.

Definition digit (n : Z) : ascii := ascii_of_nat (48 + Z.to_nat n).

Definition pad2 (n : Z) : string :=
  String (digit (n / 10)) (String (digit (n mod 10)) EmptyString).

(** [toTimeString().slice(0, 5)] *)
Definition timeString (t : Z) : string :=
  pad2 ((t / 3600000) mod 24) ++ ":" ++ pad2 ((t / 60000) mod 60).

Record slot : Type := mkSlot { time : string; available : bool }.

(** The callback of [bookedSlots.some]. *)
Definition overlaps (currentTime : Z) (booked : Z * Z) : bool :=
  let slotStart := clock (fst booked) in
  let slotEnd := option_map (fun s => s + snd booked * 60000) slotStart in
  let currentSlotEnd := Some (currentTime + 30 * 60000) in
  (date_le slotStart (Some currentTime) && date_lt (Some currentTime) slotEnd)
  || (date_lt slotStart currentSlotEnd && date_le currentSlotEnd slotEnd).

Definition isBooked (bookedSlots : list (Z * Z)) (currentTime : Z) : bool :=
  existsb (overlaps currentTime) bookedSlots.

(** The while loop; [None] when [fuel] iterations did not reach its exit. *)
Fixpoint slotLoop (fuel : nat) (bookedSlots : list (Z * Z))
         (endTime : option Z) (currentTime : Z) (slots : list slot)
  : option (list slot) :=
  if negb (date_lt (Some currentTime) endTime) then Some slots
  else
    match fuel with
    | O => None
    | S fuel' =>
      slotLoop fuel' bookedSlots endTime (currentTime + 30 * 60000)
        (if isBooked bookedSlots currentTime then slots
         else (slots ++ [mkSlot (timeString currentTime) true])%list)
    end.

(** FROM doctor_availability da JOIN doctors d ON da.doctor_id = d.id
    JOIN users u ON d.user_id = u.id
    WHERE da.doctor_id = ? AND da.day_of_week = ? AND da.is_active = TRUE
    AND d.is_available = TRUE AND u.is_active = TRUE *)
Definition availabilityOn (doctorId : Z) (dayOfWeek : string) (db : Db)
  : list (Z * Z) :=
  flat_map (fun da =>
    flat_map (fun d =>
      map (fun _ => (da_start_time da, da_end_time da))
          (filter (fun u => (d_user_id d =? u_id u)%Z && u_is_active u)
                  (users db)))
      (filter (fun d => (da_doctor_id da =? d_id d)%Z && d_is_available d)
              (doctors db)))
    (filter (fun da => (da_doctor_id da =? doctorId)%Z
                       && (da_day_of_week da =? dayOfWeek)%string
                       && da_is_active da)
            (doctor_availability db)).

(** status IN ('scheduled', 'confirmed', 'in-progress') *)
Definition occupies (s : status) : bool :=
  match s with scheduled | confirmed | in_progress => true | _ => false end.

Definition bookedOn (doctorId date : Z) (db : Db) : list (Z * Z) :=
  map (fun a => (a_appointment_time a, a_duration_minutes a))
      (filter (fun a => (a_doctor_id a =? doctorId)%Z
                        && (a_appointment_date a =? date)%Z
                        && occupies (a_status a))
              (appointments db)).

Record availability_json : Type := mkAvailabilityJson
  { date_of : Z;
    dayOfWeek : string;
    doctorAvailability : option (Z * Z);
    availableSlots : list slot;
    totalSlots : option Z;
    note : option string }.

(** GET /:id/availability/:date, for a [date] the format check accepts.
    [None] when the slot loop did not finish within [fuel] iterations. *)
Definition getAvailability (fuel : nat) (e : env) (doctorId date : Z)
           (db : Db) : option (reply availability_json) :=
  let appointmentDate := Date_of_day date in
  if (appointmentDate <? today e)%Z
  then Some (Refused (mkFailure 400
               "Cannot check availability for past dates" ""))
  else
    let dow := nth (Z.to_nat (getDay e appointmentDate)) dayNames "" in
    match availabilityOn doctorId dow db with
    | [] => Some (Sent 200 (mkAvailabilityJson date dow None [] None
                     (Some "Doctor is not available on this day")))
    | (start_time, end_time) :: _ =>
      let bookedSlots := bookedOn doctorId date db in
      let finish (slots : list slot) :=
        Sent 200 (mkAvailabilityJson date dow (Some (start_time, end_time))
                    slots (Some (Z.of_nat (List.length slots))) None) in
      match clock start_time with
      | None => Some (finish [])
      | Some startTime =>
        option_map finish
          (slotLoop fuel bookedSlots (clock end_time) startTime [])
      end
    end.

(** One entry of [req.body.availability]; an absent or empty field is
    [None]. *)
Record window : Type := mkWindow
  { w_dayOfWeek : option string;
    w_startTime : option Z;
    w_endTime : option Z;
    w_isActive : option bool }.

Definition lower (c : ascii) : ascii :=
  let n := nat_of_ascii c in
  if (65 <=? n)%nat && (n <=? 90)%nat then ascii_of_nat (n + 32) else c.

Fixpoint toLowerCase (s : string) : string :=
  match s with
  | EmptyString => EmptyString
  | String c rest => String (lower c) (toLowerCase rest)
  end.

(** The for-of loop of the handler: check, then INSERT, slot by slot.
    [ValidationError] is not imported by the module either. *)
Fixpoint insertWindows (doctorId : Z) (availability : list window) : M unit :=
  match availability with
  | [] => ret tt
  | w :: rest =>
    match w_dayOfWeek w, w_startTime w, w_endTime w with
    | Some day, Some startTime, Some endTime =>
      if (day =? "")%string then throw (ReferenceError "ValidationError")
      else if negb (includes day_of_week_enum (toLowerCase day))
      then throw (MysqlError "WARN_DATA_TRUNCATED")
      else
        execute (fun db =>
          set_doctor_availability
            (doctor_availability db ++
             [mkAvailability doctorId (toLowerCase day) startTime endTime
                             (or_default (w_isActive w) true)])
            db) ;;;
        insertWindows doctorId rest
    | _, _, _ => throw (ReferenceError "ValidationError")
    end
  end.

(** PUT /availability, after [authenticateToken] and
    [authorizeRoles('doctor')]; [None] is a body whose [availability] is not
    an array. *)
Definition setAvailability (caller : req_user)
           (availability : option (list window)) : M (reply string) :=
  match availability with
  | None => ret (Refused (mkFailure 400 "Availability must be an array" ""))
  | Some windows =>
    found <- query (fun db =>
      filter (fun d => (d_user_id d =? id caller)%Z) (doctors db)) ;;
    match found with
    | [] => throw (NotFoundError "Doctor profile")
    | doc :: _ =>
      transaction (
        execute (fun db =>
          set_doctor_availability
            (filter (fun da => negb (da_doctor_id da =? d_id doc)%Z)
                    (doctor_availability db)) db) ;;;
        insertWindows (d_id doc) windows) ;;;
      ret (Sent 200 "Doctor availability updated successfully")
    end
  end.

End DoctorRoutes.
Export DoctorRoutes.

(* ------------------------------------------------------------------ *)
(** ** The specification's vocabulary

    Definitions that follow the wording of the specification, to be compared
    with the queries and tests of the handlers. *)

Module SpecWords.

(** The doctor exists, is marked available, and belongs to an active
    account. *)
Definition doctor_bookable (doctorId : Z) (db : Db) : Prop :=
  exists d u,
    In d (doctors db) /\ In u (users db) /\
    d_id d = doctorId /\ d_is_available d = true /\
    d_user_id d = u_id u /\ u_is_active u = true.

(** [checkConflict(doctorId, date, time, excludeAppointmentId?)]: an
    existing appointment with status scheduled or confirmed occupies the
    exact same (date, time) for that doctor, the excluded one apart. *)
Definition checkConflict (doctorId date time : Z)
           (excludeAppointmentId : option Z) (db : Db) : Prop :=
  exists a,
    In a (appointments db) /\
    a_doctor_id a = doctorId /\
    a_appointment_date a = date /\
    a_appointment_time a = time /\
    (a_status a = scheduled \/ a_status a = confirmed) /\
    (forall x, excludeAppointmentId = Some x -> a_id a <> x).

(** Half-open intervals [[a, a + la)] and [[b, b + lb)] intersect. *)
Definition spans_intersect (a la b lb : Z) : Prop :=
  a < b + lb /\ b < a + la.

(** The terminal states of the appointment state machine. *)
Definition terminal (s : status) : Prop :=
  s = completed \/ s = cancelled \/ s = no_show.

(** PRIMARY KEY of appointments and of refresh_tokens. *)
Definition appointments_keyed (db : Db) : Prop :=
  NoDup (map a_id (appointments db)).

Definition refresh_tokens_keyed (db : Db) : Prop :=
  NoDup (map rt_id (refresh_tokens db)).

(** What the availability loop accepts of a submitted window: the three
    fields present, the day one of the column's seven names. *)
Definition accepted (w : window) : bool :=
  match w_dayOfWeek w, w_startTime w, w_endTime w with
  | Some day, Some _, Some _ =>
      negb (day =? "")%string && includes day_of_week_enum (toLowerCase day)
  | _, _, _ => false
  end.

(** The row the loop inserts for an accepted window. *)
Definition row_of (doctorId : Z) (w : window) : doctor_availability_row :=
  mkAvailability doctorId (toLowerCase (or_default (w_dayOfWeek w) ""))
                 (or_default (w_startTime w) 0) (or_default (w_endTime w) 0)
                 (or_default (w_isActive w) true).

End SpecWords.
Export SpecWords.

(* ------------------------------------------------------------------ *)
(** ** A small clinic, after the seed data, for closed examples *)

Module Clinic.

(** Validators over ASCII strings standing in for express-validator. *)
Definition has (p : ascii -> bool) (s : string) : bool :=
  existsb p (list_ascii_of_string s).

Definition between (lo hi : nat) (c : ascii) : bool :=
  let n := nat_of_ascii c in (lo <=? n)%nat && (n <=? hi)%nat.

#[export] Instance ascii_validators : Validators :=
  {| isEmail := has (fun c => Ascii.eqb c "@"%char);
     normalizeEmail := toLowerCase;
     trim := fun s => s;
     isLength := fun lo hi s =>
       let n := Z.of_nat (String.length s) in
       (or_default lo 0 <=? n)%Z
       && match hi with Some h => (n <=? h)%Z | None => true end;
     matches_password := fun s =>
       has (between 97 122) s && has (between 65 90) s && has (between 48 57) s;
     matches_phone := fun s => negb (s =? "")%string;
     isISO8601 := fun s => negb (s =? "")%string |}.

Definition demo_hash : Bcrypt.digest string := Bcrypt.hash "Demo1234" 12.

Definition administrator : users_row :=
  mkUser 1 "admin@healthcare.com" demo_hash admin "System" "Administrator"
         true true.
Definition john : users_row :=
  mkUser 2 "patient@demo.com" demo_hash patient "John" "Doe" true true.
Definition jane : users_row :=
  mkUser 3 "jane.smith@email.com" demo_hash patient "Jane" "Smith" true true.
Definition sarah : users_row :=
  mkUser 5 "doctor@demo.com" demo_hash doctor "Dr. Sarah" "Smith" true true.

Definition cardiology : doctors_row :=
  mkDoctor 1 5 "Cardiology" "MD12345" 12 20000 true.

Definition nine : Z := 9 * 3600.
Definition ten : Z := 10 * 3600.
Definition seventeen : Z := 17 * 3600.

(** 2024-01-15, a Monday. *)
Definition monday_15 : Z := 19737.

Definition checkup : appointments_row :=
  mkAppointment 1 2 1 monday_15 ten 30 in_person scheduled
    "Regular checkup and blood pressure monitoring" None None 20000 pending.

Definition wellness : appointments_row :=
  mkAppointment 3 3 1 (monday_15 + 3) (11 * 3600 + 1800) 30 in_person completed
    "Child wellness exam" None None 20000 paid.

(** A short visit at 10:05 for fifteen minutes. *)
Definition short_visit : appointments_row :=
  mkAppointment 1 2 1 monday_15 (ten + 300) 15 in_person scheduled
    "Blood pressure reading" None None 20000 pending.

Definition staff : list users_row := [administrator; john; jane; sarah].

Definition weekdays : list doctor_availability_row :=
  map (fun day => mkAvailability 1 day nine seventeen true)
      ["monday"; "tuesday"; "wednesday"; "thursday"].

(** No appointment yet. *)
Definition opening : Db := mkDb staff [cardiology] weekdays [] [].

(** The checkup at 10:00 and a completed exam later in the week. *)
Definition booked : Db := mkDb staff [cardiology] weekdays [checkup; wellness] [].

(** Only the short visit at 10:05. *)
Definition squeezed : Db := mkDb staff [cardiology] weekdays [short_visit] [].

(** Thursday 2024-01-11, 05:06:40 UTC; the server runs on UTC. *)
Definition morning : env :=
  mkEnv 1704949600000 0 None None 7 "k3x9q2m4z1ab".

(** The same clock second, and an hour on. *)
Definition a_moment_later : env :=
  mkEnv (now morning + 400) 0 None None 8 "p0o9i8u7y6t5".
Definition an_hour_later : env :=
  mkEnv (now morning + 3600000) 0 None None 9 "m1n2b3v4c5x6".

Definition two_hours_later : env :=
  mkEnv (now morning + 7200000) 0 None None 10 "q1w2e3r4t5y6".

(** What [generateTokens] signs for John in that second. *)
Definition johns_tokens : tokens :=
  mkTokens
    (Jwt.Signed Jwt.JWT_SECRET (Jwt.mkPayload 2 1704949600 1705036000))
    (Jwt.Signed Jwt.JWT_REFRESH_SECRET
                (Jwt.mkPayload 2 1704949600 1705554400)).

(** What [generateTokens] signs for Sarah in that second. *)
Definition sarahs_access : Jwt.token :=
  Jwt.Signed Jwt.JWT_SECRET (Jwt.mkPayload 5 1704949600 1705036000).

Definition bearer (t : Jwt.token) : option (list Jwt.token) :=
  Some [Jwt.Opaque "Bearer"; t].

(** A registration that asks for the admin role. *)
Definition would_be_admin : register_body :=
  mkRegisterBody "mallory@example.com" "Sesame1234" "Mallory" "Smith"
                 (Some "admin") None None None None None None.

Definition new_patient : register_body :=
  mkRegisterBody "ann@example.com" "Sesame1234" "Ann" "Lee"
                 (Some "patient") None None None None None None.

Definition as_user (u : users_row) : req_user :=
  mkReqUser (u_id u) (u_email u) (u_role u) (u_first_name u) (u_last_name u).

(** Jane asks for the slot of John's checkup, naming John as the patient. *)
Definition same_slot : create_body :=
  mkCreateBody 1 monday_15 ten None "in-person"
               "Follow-up on blood pressure" [("patientId", 2)].

(** The short visit, as John books it. *)
Definition five_past_ten : create_body :=
  mkCreateBody 1 monday_15 (ten + 300) (Some 15) "in-person"
               "Blood pressure reading" [].

(** Jane's own visit at 10:30 the same Monday. *)
Definition follow_up : appointments_row :=
  mkAppointment 2 3 1 monday_15 (ten + 1800) 30 in_person scheduled
    "Follow-up on blood pressure" None None 20000 pending.

Definition busy : Db :=
  mkDb staff [cardiology] weekdays [checkup; follow_up; wellness] [].

Definition no_changes : update_body :=
  mkUpdateBody None None None None None None None [].

(** A window that ends before it starts. *)
Definition backwards : window :=
  mkWindow (Some "Monday") (Some seventeen) (Some nine) None.

(** A window without its end. *)
Definition open_ended : window :=
  mkWindow (Some "tuesday") (Some nine) None None.

Definition reopen : update_body :=
  mkUpdateBody None None None None (Some scheduled) None None [].

(** Move to 10:30; move to 10:00. *)
Definition to_half_past_ten : update_body :=
  mkUpdateBody None (Some (ten + 1800)) None None None None None [].
Definition to_ten : update_body :=
  mkUpdateBody None (Some ten) None None None None None [].

Definition half_hours : list string :=
  ["09:00"; "09:30"; "10:00"; "10:30"; "11:00"; "11:30"; "12:00"; "12:30";
   "13:00"; "13:30"; "14:00"; "14:30"; "15:00"; "15:30"; "16:00"; "16:30"].

Definition open_slots (times : list string) : list slot :=
  map (fun t => mkSlot t true) times.

End Clinic.
Export Clinic.

(* ------------------------------------------------------------------ *)
(** ** Further handlers of the same files *)

Module MoreRoutes.

Local Open Scope handler_scope.

(** middleware/auth, [optionalAuth]: the same lookup as [authenticateToken],
    with [req.user = null] wherever that one refuses. *)
Definition optionalAuth (e : env) (db : Db)
           (authHeader : option (list Jwt.token)) : option req_user :=
  let token :=
    match authHeader with
    | None => None
    | Some parts => nth_error parts 1
    end in
  match token with
  | None => None
  | Some t =>
    if Jwt.falsy t then None
    else
      match Jwt.verify t Jwt.JWT_SECRET (now e) with
      | Throw _ => None
      | Ok decoded =>
        match filter (fun u => (u_id u =? Jwt.userId decoded)%Z && u_is_active u)
                     (users db) with
        | [] => None
        | u :: _ =>
            Some (mkReqUser (u_id u) (u_email u) (u_role u) (u_first_name u)
                            (u_last_name u))
        end
      end
  end.

(** UPDATE refresh_tokens SET is_revoked = TRUE WHERE user_id = ? *)
Definition revokeAll (uid : Z) (rows : list refresh_tokens_row)
  : list refresh_tokens_row :=
  map (fun r =>
         if (rt_user_id r =? uid)%Z
         then mkRefreshToken (rt_id r) (rt_user_id r) (rt_token_hash r)
                             (rt_expires_at r) true
         else r) rows.

(** routes/auth, POST /logout, after [authenticateToken]. *)
Definition logout (caller : req_user) (presented : option Jwt.token)
  : M (reply string) :=
  (match presented with
   | Some t =>
     if Jwt.falsy t
     then execute (fun db =>
            set_refresh_tokens (revokeAll (id caller) (refresh_tokens db)) db)
     else
       candidates <- query (fun db =>
         filter (fun r => (rt_user_id r =? id caller)%Z
                          && negb (rt_is_revoked r))
                (refresh_tokens db)) ;;
       match validToken t candidates with
       | Some row =>
           execute (fun db =>
             set_refresh_tokens (revoke (rt_id row) (refresh_tokens db)) db)
       | None => ret tt
       end
   | None =>
     execute (fun db =>
       set_refresh_tokens (revokeAll (id caller) (refresh_tokens db)) db)
   end) ;;;
  ret (Sent 200 "Logout successful").

(** routes/users, PUT /password, after [authenticateToken]. *)
Definition changePassword (e : env) (caller : req_user)
           (currentPassword newPassword : option string) : M (reply string) :=
  if negb (truthy currentPassword) || negb (truthy newPassword)
  then ret (Refused (mkFailure 400
              "Current password and new password are required" ""))
  else if (Z.of_nat (Js.length (or_default newPassword "")) <? 8)%Z
  then ret (Refused (mkFailure 400
              "New password must be at least 8 characters long" ""))
  else
    found <- query (fun db =>
      filter (fun u => (u_id u =? id caller)%Z) (users db)) ;;
    match found with
    | [] => throw (NotFoundError "User")
    | u :: _ =>
      if negb (Bcrypt.compare Bcrypt.key72 (or_default currentPassword "")
                              (u_password_hash u))
      then ret (Refused (mkFailure 400 "Current password is incorrect" ""))
      else
        let newPasswordHash :=
          Bcrypt.hash (or_default newPassword "") (salt e) in
        execute (fun db =>
          set_users
            (map (fun u =>
                    if (u_id u =? id caller)%Z
                    then mkUser (u_id u) (u_email u) newPasswordHash (u_role u)
                                (u_first_name u) (u_last_name u)
                                (u_is_active u) (u_email_verified u)
                    else u) (users db)) db) ;;;
        execute (fun db =>
          set_refresh_tokens (revokeAll (id caller) (refresh_tokens db)) db) ;;;
        ret (Sent 200 "Password updated successfully")
    end.

(** What GET /:id of an appointment sends: the appointment's columns and
    the joined columns of its patient and its doctor. *)
Record appointment_view : Type := mkAppointmentView
  { av_appointment : appointments_row;
    av_patient_name : string;
    av_patient_email : string;
    av_doctor_name : string;
    av_doctor_email : string;
    av_specialization : string }.

(** FROM appointments a JOIN users p ON a.patient_id = p.id
    JOIN doctors d ON a.doctor_id = d.id JOIN users doc ON d.user_id = doc.id
    WHERE a.id = ? *)
Definition appointmentDetails (appointmentId : Z) (db : Db)
  : list appointment_view :=
  flat_map (fun a =>
    flat_map (fun p =>
      flat_map (fun d =>
        map (fun doc =>
               mkAppointmentView a
                 (u_first_name p ++ " " ++ u_last_name p) (u_email p)
                 (u_first_name doc ++ " " ++ u_last_name doc) (u_email doc)
                 (d_specialization d))
            (filter (fun doc => (d_user_id d =? u_id doc)%Z) (users db)))
        (filter (fun d => (a_doctor_id a =? d_id d)%Z) (doctors db)))
      (filter (fun p => (a_patient_id a =? u_id p)%Z) (users db)))
    (filter (fun a => (a_id a =? appointmentId)%Z) (appointments db)).

(** routes/appointments, GET /:id, after [authenticateToken] and
    [idValidation]. *)
Definition getAppointment (caller : req_user) (appointmentId : Z)
  : M (reply appointment_view) :=
  found <- query (appointmentDetails appointmentId) ;;
  match found with
  | [] => throw (NotFoundError "Appointment")
  | appointment :: _ =>
    if role_eqb (role_of caller) patient
       && negb (a_patient_id (av_appointment appointment) =? id caller)%Z
    then throw (ForbiddenError "Access denied to this appointment")
    else
      (if role_eqb (role_of caller) doctor then
         own <- query (fun db =>
           filter (fun d => (d_user_id d =? id caller)%Z) (doctors db)) ;;
         match own with
         | [] => throw (ForbiddenError "Access denied to this appointment")
         | d :: _ =>
           if negb (a_doctor_id (av_appointment appointment) =? d_id d)%Z
           then throw (ForbiddenError "Access denied to this appointment")
           else ret tt
         end
       else ret tt) ;;;
      ret (Sent 200 appointment)
  end.

Record delete_json : Type := mkDeleteJson
  { dj_message : string; dj_userId : Z }.

(** DELETE FROM users WHERE id = ?, with the ON DELETE CASCADE keys of the
    schema among the five tables: the account's doctors rows go, and with
    them their windows and their appointments; the account's appointments
    as a patient and its refresh records go. *)
Definition cascade (target : Z) (db : Db) : Db :=
  let removed (doctorId : Z) :=
    existsb (fun d => (d_id d =? doctorId)%Z && (d_user_id d =? target)%Z)
            (doctors db) in
  mkDb (filter (fun u => negb (u_id u =? target)%Z) (users db))
       (filter (fun d => negb (d_user_id d =? target)%Z) (doctors db))
       (filter (fun da => negb (removed (da_doctor_id da)))
               (doctor_availability db))
       (filter (fun a => negb (a_patient_id a =? target)%Z
                         && negb (removed (a_doctor_id a)))
               (appointments db))
       (filter (fun r => negb (rt_user_id r =? target)%Z) (refresh_tokens db)).

(** routes/users, DELETE /:id, after [authenticateToken],
    [authorizeRoles('admin')] and [idValidation]. *)
Definition deleteUser (caller : req_user) (target : Z)
  : M (reply delete_json) :=
  if (target =? id caller)%Z
  then ret (Refused (mkFailure 400 "Cannot delete your own account" ""))
  else
    found <- query (fun db =>
      filter (fun u => (u_id u =? target)%Z) (users db)) ;;
    match found with
    | [] => throw (NotFoundError "User")
    | _ :: _ =>
      execute (cascade target) ;;;
      ret (Sent 200 (mkDeleteJson "User deleted successfully" target))
    end.

(** validation, [idValidation]: param('id').isInt({ min: 1 }); [None] is a
    parameter that is not an integer. *)
Definition idValidation (param_id : option Z) : step Z :=
  handleValidationErrors
    (check "id" (match param_id with
                 | Some n => (1 <=? n)%Z
                 | None => false
                 end) "Valid ID is required")
    (or_default param_id 0).

(** router.put('/:id/status', authenticateToken, authorizeRoles('admin'),
    idValidation, ...) *)
Definition PUT_users_status (e : env) (authHeader : option (list Jwt.token))
           (param_id : option Z) (isActive : option bool)
  : M (reply status_json) :=
  fun db =>
    match authenticateToken e db authHeader with
    | Answer f => (Ok (Refused f), db)
    | Next caller =>
      match authorizeRoles ["admin"] (Some caller) with
      | Answer f => (Ok (Refused f), db)
      | Next _ =>
        match idValidation param_id with
        | Answer f => (Ok (Refused f), db)
        | Next target => updateUserStatus caller target isActive db
        end
      end
    end.

(** router.delete('/:id', authenticateToken, authorizeRoles('admin'),
    idValidation, ...) *)
Definition DELETE_users (e : env) (authHeader : option (list Jwt.token))
           (param_id : option Z) : M (reply delete_json) :=
  fun db =>
    match authenticateToken e db authHeader with
    | Answer f => (Ok (Refused f), db)
    | Next caller =>
      match authorizeRoles ["admin"] (Some caller) with
      | Answer f => (Ok (Refused f), db)
      | Next _ =>
        match idValidation param_id with
        | Answer f => (Ok (Refused f), db)
        | Next target => deleteUser caller target db
        end
      end
    end.

(** router.put('/availability', authenticateToken, authorizeRoles('doctor'),
    ...) *)
Definition PUT_doctors_availability (e : env)
           (authHeader : option (list Jwt.token))
           (availability : option (list window)) : M (reply string) :=
  fun db =>
    match authenticateToken e db authHeader with
    | Answer f => (Ok (Refused f), db)
    | Next caller =>
      match authorizeRoles ["doctor"] (Some caller) with
      | Answer f => (Ok (Refused f), db)
      | Next _ => setAvailability caller availability db
      end
    end.

End MoreRoutes.
Export MoreRoutes.

(* ------------------------------------------------------------------ *)
(** ** Invariants of the tables *)

Module Invariants.

(** UNIQUE KEY unique_doctor_datetime: rows that agree on doctor, date and
    time are one row. *)
Definition slots_unique (table : list appointments_row) : Prop :=
  forall a b,
    In a table -> In b table ->
    a_doctor_id a = a_doctor_id b ->
    a_appointment_date a = a_appointment_date b ->
    a_appointment_time a = a_appointment_time b ->
    a_id a = a_id b.

(** A stored record that would let [t] be redeemed at the clock of [e]:
    of the account, not expired, not revoked, and computed from a token with
    the key bytes of [t]. *)
Definition redeemable (e : env) (t : Jwt.token) (uid : Z)
           (r : refresh_tokens_row) : Prop :=
  rt_user_id r = uid /\ (now e < rt_expires_at r)%Z
  /\ rt_is_revoked r = false
  /\ Bcrypt.key_of_token (Bcrypt.d_of (rt_token_hash r))
     = Bcrypt.key_of_token t.

(** No NUL among the bytes. *)
Definition nul_free (s : string) : Prop :=
  forall n, String.get n s <> Some zero.

(** The records of an account that are not revoked. *)
Definition live (uid : Z) (rows : list refresh_tokens_row)
  : list refresh_tokens_row :=
  filter (fun r => (rt_user_id r =? uid)%Z && negb (rt_is_revoked r)) rows.

(** UNIQUE on users.email. *)
Definition emails_unique (db : Db) : Prop := NoDup (map u_email (users db)).

(** Some appointment, in whatever status, holds the doctor's (date, time). *)
Definition slot_held (doctorId date time : Z) (db : Db) : Prop :=
  exists a,
    In a (appointments db) /\ a_doctor_id a = doctorId
    /\ a_appointment_date a = date /\ a_appointment_time a = time.

(** The foreign keys among the five tables. *)
Definition references_hold (db : Db) : Prop :=
  (forall d, In d (doctors db) ->
             exists u, In u (users db) /\ u_id u = d_user_id d)
  /\ (forall da, In da (doctor_availability db) ->
                 exists d, In d (doctors db) /\ d_id d = da_doctor_id da)
  /\ (forall a, In a (appointments db) ->
                (exists u, In u (users db) /\ u_id u = a_patient_id a)
                /\ exists d, In d (doctors db) /\ d_id d = a_doctor_id a)
  /\ (forall r, In r (refresh_tokens db) ->
                exists u, In u (users db) /\ u_id u = rt_user_id r).


End Invariants.
Export Invariants.

(* ------------------------------------------------------------------ *)
(** ** More of the clinic, for closed examples *)

Module Ward.

(** A server five hours behind UTC, on Monday 2024-01-15 at 09:00 local
    time. *)
Definition new_york : env :=
  mkEnv ((monday_15 * 86400 + 14 * 3600) * 1000) (- 5 * 3600000) None None 3
        "r4t5y6u7i8o9".

(** The same server the evening before: Sunday 2024-01-14, 20:00 local
    time. *)
Definition new_york_on_sunday : env :=
  mkEnv ((monday_15 * 86400 + 1 * 3600) * 1000) (- 5 * 3600000) None None 3
        "r4t5y6u7i8o9".

(** Ten seconds after [morning]: within the same hundred seconds. *)
Definition ten_seconds_later : env :=
  mkEnv (now morning + 10000) 0 None None 9 "b7n8m9q1w2e3".

(** 72 letters, and a registration whose password begins with them. *)
Definition seventy_two : string :=
  "correcthorsebatterystaplecorrecthorsebatterystaplecorrecthorsebatterysta".

Definition long_patient : register_body :=
  mkRegisterBody "lee@example.com" (seventy_two ++ "A1") "Lee" "Ann"
                 (Some "patient") None None None None None None.

(** John signed in this morning. *)
Definition signed_in : Db :=
  snd (login morning "patient@demo.com" "Demo1234" opening).

(** The checkup cancelled, the exam as it was. *)
Definition after_cancel : Db :=
  set_appointments [with_status cancelled checkup; wellness] booked.

(** A lunch break between two windows on Friday. *)
Definition friday_windows : list window :=
  [mkWindow (Some "Friday") (Some nine) (Some (12 * 3600)) None;
   mkWindow (Some "friday") (Some (13 * 3600)) (Some seventeen) (Some true);
   mkWindow (Some "saturday") (Some nine) (Some (12 * 3600)) (Some false)].

End Ward.
Export Ward.

(* ------------------------------------------------------------------ *)
(** * Properties *)

(** The handler's last steps in one tactic: the conflict query, the field
    list, the UPDATE under the unique key, the final SELECT. *)
Ltac step_update :=
  repeat match goal with
    | |- context [is_some ?a || is_some ?b] =>
        destruct (is_some a || is_some b)
    | |- context [conflictsOnUpdate ?d ?x ?y ?i ?db] =>
        destruct (conflictsOnUpdate d x y i db)
    | |- context [updateFields ?u] => destruct (updateFields u)
    | |- context [updateAppointmentRow ?i ?u ?db] =>
        unfold updateAppointmentRow
    | |- context [existsb ?f ?l] => destruct (existsb f l)
    | |- context [filter ?f ?l] => destruct (filter f l)
    | _ => progress cbn [appointments set_appointments fst snd]
    end.

(** ** Slot generation *)

Lemma slotLoop_more_fuel (n k : nat) (bookedSlots : list (Z * Z))
      (endTime : option Z) :
  forall currentTime slots result,
    slotLoop n bookedSlots endTime currentTime slots = Some result ->
    slotLoop (n + k) bookedSlots endTime currentTime slots = Some result.
Proof.
  induction n as [|n IH]; intros currentTime slots result H.
  - cbn [slotLoop] in H.
    destruct (negb (date_lt (Some currentTime) endTime)) eqn:E;
      [|discriminate H].
    destruct k; cbn [slotLoop Nat.add]; now rewrite E.
  - cbn [slotLoop Nat.add] in *.
    destruct (negb (date_lt (Some currentTime) endTime)); [exact H|].
    now apply IH.
Qed.

(** The loop leaves within 48 iterations whatever the window: the clock of
    a valid end time lies within one day. *)
Lemma slotLoop_exits (bookedSlots : list (Z * Z)) (endTime : option Z) :
  forall (fuel : nat) currentTime slots,
    (forall limit, endTime = Some limit ->
                   limit - currentTime <= Z.of_nat fuel * 1800000) ->
    exists result,
      slotLoop fuel bookedSlots endTime currentTime slots = Some result.
Proof.
  induction fuel as [|fuel IH]; intros currentTime slots Hfuel.
  - cbn [slotLoop]. destruct endTime as [limit|]; cbn.
    + specialize (Hfuel limit eq_refl).
      destruct (currentTime <? limit)%Z eqn:E; cbn; eauto.
      apply Z.ltb_lt in E. lia.
    + eauto.
  - cbn [slotLoop].
    destruct (negb (date_lt (Some currentTime) endTime)); eauto.
    apply IH. intros limit ->. specialize (Hfuel limit eq_refl). lia.
Qed.

(** A time the Date constructor accepts lies within the day, its end
    included. *)
Lemma clock_some (time t : Z) :
  clock time = Some t -> (0 <= time <= 86400)%Z /\ t = (time * 1000)%Z.
Proof.
  unfold clock.
  destruct (Z.leb_spec 0 time); cbn [andb]; [|discriminate].
  destruct (Z.leb_spec time 86400); [|discriminate].
  intros [= <-]. lia.
Qed.

Lemma getAvailability_answers (e : env) (doctorId date : Z) (db : Db) :
  exists answer, getAvailability 48 e doctorId date db = Some answer.
Proof.
  unfold getAvailability.
  destruct (Date_of_day date <? today e)%Z; eauto.
  destruct (availabilityOn doctorId _ db) as [|[start_time end_time] rest];
    eauto.
  destruct (clock start_time) as [startTime|] eqn:Hs; eauto.
  destruct (slotLoop_exits (bookedOn doctorId date db) (clock end_time) 48
                           startTime []) as [slots Hslots].
  - intros limit Hl. apply clock_some in Hs, Hl. lia.
  - rewrite Hslots. cbn. eauto.
Qed.

(** With nothing booked the loop lists the starts [start + k * 30 min]
    below the window's end, in order. *)
Lemma free_window_slots (n : nat) (limit : Z) :
  forall (fuel : nat) (start : Z) (slots : list slot),
    (n <= fuel)%nat ->
    (start + (Z.of_nat n - 1) * 1800000 < limit)%Z ->
    (limit <= start + Z.of_nat n * 1800000)%Z ->
    slotLoop fuel [] (Some limit) start slots =
    Some (slots ++
          map (fun k => mkSlot (timeString (start + Z.of_nat k * 1800000))
                               true) (seq 0 n))%list.
Proof.
  induction n as [|n IH]; intros fuel start slots Hfuel Hlow Hhigh.
  - cbn [seq map]. rewrite app_nil_r.
    destruct fuel; cbn [slotLoop date_lt];
      destruct (Z.ltb_spec start limit); try lia; reflexivity.
  - destruct fuel as [|fuel]; [lia|]. cbn [slotLoop date_lt].
    destruct (Z.ltb_spec start limit) as [_|Hge]; [|lia]. cbn [negb isBooked existsb].
    rewrite (IH fuel (start + 30 * 60000)%Z) by lia.
    rewrite <- app_assoc. cbn [seq map app]. do 3 f_equal.
    + do 2 f_equal. lia.
    + rewrite <- seq_shift, map_map. apply map_ext. intros k.
      do 2 f_equal. lia.
Qed.

(** Where the claim holds.  On a server at or east of Greenwich (by less
    than a day), for a date that is not before the local date of the clock
    and a doctor whose one window on the date's weekday is 09:00-17:00, with
    nothing booked on the date, the listing answers the sixteen start times
    09:00, 09:30, ..., 16:30. *)
Lemma nine_to_five_gives_sixteen_slots
      (fuel : nat) (e : env) (doctorId date : Z) (db : Db) :
  let weekday := nth (Z.to_nat ((date + 4) mod 7)) dayNames "" in
  (16 <= fuel)%nat ->
  (0 <= tz e < msPerDay)%Z ->
  ((now e + tz e) / msPerDay <= date)%Z ->
  availabilityOn doctorId weekday db = [(nine, seventeen)] ->
  bookedOn doctorId date db = [] ->
  getAvailability fuel e doctorId date db =
  Some (Sent 200
          (mkAvailabilityJson date weekday (Some (nine, seventeen))
             (open_slots half_hours) (Some 16) None))
  /\ List.length half_hours = 16%nat.
Proof.
  intros weekday Hfuel Htz Hdate Hwindow Hfree. split; [|reflexivity].
  assert (Hday : getDay e (Date_of_day date) = ((date + 4) mod 7)%Z).
  { unfold getDay, Date_of_day, msPerDay in *.
    rewrite Z.div_add_l by lia. rewrite (Z.div_small (tz e)) by lia.
    f_equal. lia. }
  unfold getAvailability. rewrite Hday. fold weekday.
  destruct (Z.ltb_spec (Date_of_day date) (today e)) as [Hpast|_].
  { unfold today, Date_of_day, msPerDay in *. nia. }
  cbv zeta. rewrite Hwindow, Hfree.
  change (clock nine) with (Some 32400000%Z).
  replace fuel with (16 + (fuel - 16))%nat by lia.
  assert (Hloop : slotLoop (16 + (fuel - 16)) [] (clock seventeen) 32400000 []
                  = Some (open_slots half_hours))
    by (apply slotLoop_more_fuel; vm_compute; reflexivity).
  rewrite Hloop. reflexivity.
Qed.

Lemma nine_to_five_at_opening :
  getAvailability 16 morning 1 monday_15 opening =
  Some (Sent 200
          (mkAvailabilityJson monday_15 "monday" (Some (nine, seventeen))
             (open_slots half_hours) (Some 16) None)).
Proof.
  apply (nine_to_five_gives_sixteen_slots 16 morning 1 monday_15 opening).
  - lia.
  - vm_compute. split; [discriminate|reflexivity].
  - vm_compute. discriminate.
  - reflexivity.
  - reflexivity.
Qed.

(** C3.  The claim: for a doctor whose window on the requested day is
    09:00-17:00 and who has nothing booked on the requested date, which is
    not past, the listing answers the sixteen start times 09:00, ...,
    16:30.  The handler reads the requested date as midnight UTC, takes its
    weekday with the local [getDay] and compares it with the local midnight
    of today.  On a server five hours behind UTC, with the Monday window
    09:00-17:00 and nothing booked: asked on Sunday evening for Monday
    2024-01-15, it looks up Sunday's windows and lists no slot; asked on
    Monday morning for that Monday, it refuses the date as past. *)
Theorem nine_to_five_west_of_greenwich :
  nth (Z.to_nat ((monday_15 + 4) mod 7)) dayNames "" = "monday"
  /\ availabilityOn 1 "monday" opening = [(nine, seventeen)]
  /\ bookedOn 1 monday_15 opening = []
  /\ ((now new_york_on_sunday + tz new_york_on_sunday) / msPerDay
      = monday_15 - 1)%Z
  /\ getAvailability 48 new_york_on_sunday 1 monday_15 opening
     = Some (Sent 200
               (mkAvailabilityJson monday_15 "sunday" None [] None
                  (Some "Doctor is not available on this day")))
  /\ ((now new_york + tz new_york) / msPerDay = monday_15)%Z
  /\ getAvailability 48 new_york 1 monday_15 opening
     = Some (Refused (mkFailure 400
                        "Cannot check availability for past dates" "")).
Proof. repeat apply conj; vm_compute; reflexivity. Qed.

(** ** The overlap test of the slot loop *)

(** Whatever the test excludes does intersect a booked span. *)
Lemma overlaps_intersect (currentTime time minutes : Z) :
  overlaps currentTime (time, minutes) = true ->
  exists slotStart,
    clock time = Some slotStart /\
    spans_intersect currentTime (30 * 60000) slotStart (minutes * 60000).
Proof.
  unfold overlaps, spans_intersect. cbn [fst snd].
  destruct (clock time) as [slotStart|]; cbn; [|discriminate].
  intros H. exists slotStart. split; [reflexivity|].
  apply orb_true_iff in H. destruct H as [H|H];
    apply andb_true_iff in H; destruct H as [H1 H2];
    first [apply Z.leb_le in H1 | apply Z.ltb_lt in H1];
    first [apply Z.leb_le in H2 | apply Z.ltb_lt in H2]; lia.
Qed.


(** Booking 10:00 for thirty minutes removes the 10:00 slot and no other:
    09:30 and 10:30 stay. *)
Lemma booking_ten_removes_ten :
  getAvailability 16 morning 1 monday_15 booked =
  Some (Sent 200
          (mkAvailabilityJson monday_15 "monday" (Some (nine, seventeen))
             (open_slots
                ["09:00"; "09:30"; "10:30"; "11:00"; "11:30"; "12:00";
                 "12:30"; "13:00"; "13:30"; "14:00"; "14:30"; "15:00";
                 "15:30"; "16:00"; "16:30"])
             (Some 15) None)).
Proof. vm_compute. reflexivity. Qed.

(** C4.  The claim: a candidate start is left out of the available slots if
    and only if its span of thirty minutes intersects the span of some
    booked appointment.  The handler's test looks only at the two ends of
    the candidate's span: with the visit of 10:05 lasting fifteen minutes,
    the candidate 10:00 intersects the visit, is not found booked, and is
    offered among the sixteen slots. *)
Theorem booking_inside_a_slot_is_missed :
  bookedOn 1 monday_15 squeezed = [(ten + 300, 15)]
  /\ spans_intersect (ten * 1000) (30 * 60000)
                     ((ten + 300) * 1000) (15 * 60000)
  /\ isBooked (bookedOn 1 monday_15 squeezed) (ten * 1000) = false
  /\ getAvailability 16 morning 1 monday_15 squeezed =
     Some (Sent 200
             (mkAvailabilityJson monday_15 "monday" (Some (nine, seventeen))
                (open_slots half_hours) (Some 16) None))
  /\ In (mkSlot "10:00" true) (open_slots half_hours).
Proof.
  split; [reflexivity|].
  split; [unfold spans_intersect, ten; lia|].
  split; [vm_compute; reflexivity|].
  split; [vm_compute; reflexivity|].
  cbn. tauto.
Qed.

(** ** Refresh-token rotation *)

(** *** The key bytes of bcrypt *)

Lemma string_app_assoc (a b c : string) : (a ++ b) ++ c = a ++ (b ++ c).
Proof. induction a as [|x a IH]; [reflexivity|]. cbn. now rewrite IH. Qed.

Lemma string_length_app (a b : string) :
  String.length (a ++ b) = (String.length a + String.length b)%nat.
Proof. induction a as [|x a IH]; [reflexivity|]. cbn. now rewrite IH. Qed.

(** The stream begins with what is left of the key. *)
Lemma key_stream_prefix (n : nat) (key : string) :
  forall rest, (String.length rest <= n)%nat ->
               exists tail, Bcrypt.key_stream n key rest = rest ++ tail.
Proof.
  induction n as [|n IH]; intros rest Hlen.
  - destruct rest; [now exists ""|cbn in Hlen; lia].
  - destruct rest as [|c rest].
    + eexists. reflexivity.
    + cbn in Hlen. destruct (IH rest) as [tail Htail]; [lia|].
      exists tail. cbn. now rewrite Htail.
Qed.

(** Beyond its length the stream reads nothing. *)
Lemma key_stream_long (n : nat) (key key' : string) :
  forall p x y, (n <= String.length p)%nat ->
                Bcrypt.key_stream n key (p ++ x)
                = Bcrypt.key_stream n key' (p ++ y).
Proof.
  induction n as [|n IH]; intros p x y Hlen; [reflexivity|].
  destruct p as [|c p]; [cbn in Hlen; lia|]. cbn in Hlen. cbn.
  f_equal. apply IH. lia.
Qed.

Lemma nul_free_cons (c : ascii) (s : string) :
  nul_free (String c s) -> c <> zero /\ nul_free s.
Proof.
  intros Hfree. split.
  - intros ->. now apply (Hfree O).
  - intros n. apply (Hfree (S n)).
Qed.

Lemma nul_free_prefix (s1 : string) :
  forall s2 t1 t2,
    nul_free s1 -> nul_free s2 ->
    s1 ++ String zero t1 = s2 ++ String zero t2 -> s1 = s2.
Proof.
  induction s1 as [|c s1 IH]; intros s2 t1 t2 H1 H2 Heq.
  - destruct s2 as [|d s2]; [reflexivity|]. cbn in Heq.
    injection Heq as <- _. apply nul_free_cons in H2. now destruct H2.
  - apply nul_free_cons in H1. destruct H1 as [Hc H1].
    destruct s2 as [|d s2]; cbn in Heq.
    + injection Heq as -> _. now contradiction Hc.
    + injection Heq as <- Heq. apply nul_free_cons in H2.
      destruct H2 as [_ H2]. f_equal. now apply (IH s2 t1 t2).
Qed.

(** Values of at most 71 bytes without a NUL have their own key bytes. *)
Lemma key72_short (s1 s2 : string) :
  nul_free s1 -> nul_free s2 ->
  (String.length s1 <= 71)%nat -> (String.length s2 <= 71)%nat ->
  Bcrypt.key72 s1 = Bcrypt.key72 s2 -> s1 = s2.
Proof.
  intros H1 H2 L1 L2. unfold Bcrypt.key72.
  destruct (key_stream_prefix 72 (s1 ++ String zero "") (s1 ++ String zero ""))
    as [t1 ->]; [rewrite string_length_app; cbn; lia|].
  destruct (key_stream_prefix 72 (s2 ++ String zero "") (s2 ++ String zero ""))
    as [t2 ->]; [rewrite string_length_app; cbn; lia|].
  rewrite !string_app_assoc. cbn [append]. now apply nul_free_prefix.
Qed.

(** Of a value of 72 bytes or more, what follows them is not read. *)
Lemma key72_beyond (p a b : string) :
  (72 <= String.length p)%nat ->
  Bcrypt.key72 (p ++ a) = Bcrypt.key72 (p ++ b).
Proof.
  intros Hlen. unfold Bcrypt.key72. rewrite !string_app_assoc.
  now apply key_stream_long.
Qed.

Lemma base64url_length (n : nat) :
  forall s, (String.length s <= n)%nat ->
            (4 * String.length s <= 3 * String.length (Jwt.base64url s))%nat.
Proof.
  induction n as [|n IH]; intros s Hlen.
  - destruct s; [cbn; lia|cbn in Hlen; lia].
  - destruct s as [|a [|b [|c rest]]]; cbn [Jwt.base64url String.length];
      try lia.
    cbn [String.length] in Hlen.
    assert (H := IH rest ltac:(lia)). lia.
Qed.

Lemma decimal_length (n : Z) : (1 <= String.length (Jwt.decimal n))%nat.
Proof.
  unfold Jwt.decimal.
  assert (Huint : forall d, (1 <= String.length (NilZero.string_of_uint d))%nat)
    by (intros d; destruct d; cbn; lia).
  destruct (Z.to_int n) as [d|d]; cbn [NilZero.string_of_int String.length].
  - apply Huint.
  - lia.
Qed.

(** The text before the signature is longer than the key bytes. *)
Lemma signing_input_long (p : Jwt.payload) :
  (72 <= String.length (Jwt.signing_input p))%nat.
Proof.
  unfold Jwt.signing_input. rewrite !string_length_app.
  change (String.length Jwt.header) with 36%nat.
  change (String.length ".") with 1%nat.
  pose proof (base64url_length _ (Jwt.json p) (le_n _)) as Hb.
  assert (Hj : (28 <= String.length (Jwt.json p))%nat).
  { unfold Jwt.json. rewrite !string_length_app.
    pose proof (decimal_length (Jwt.userId p)).
    pose proof (decimal_length (Jwt.iat p)).
    pose proof (decimal_length (Jwt.exp p)).
    cbn [String.length Jwt.quoted append]. 
    change (String.length (Jwt.quoted "userId")) with 8%nat.
    change (String.length (Jwt.quoted "iat")) with 5%nat.
    change (String.length (Jwt.quoted "exp")) with 5%nat.
    lia. }
  lia.
Qed.

(** Two refresh tokens of one account signed ten seconds apart are
    different tokens with the same key bytes: the 72 characters end within
    the digits of [iat]. *)
Lemma neighbouring_tokens_share_their_key :
  refreshToken (generateTokens morning 2)
  <> refreshToken (generateTokens ten_seconds_later 2)
  /\ Bcrypt.key_of_token (refreshToken (generateTokens morning 2))
     = Bcrypt.key_of_token (refreshToken (generateTokens ten_seconds_later 2))
  /\ Bcrypt.key_of_token (refreshToken (generateTokens morning 2))
     = "eyJhbGciOiJIUzI1NiIsInR5cCI6IkpXVCJ9.eyJ1c2VySWQiOjIsImlhdCI6MTcwNDk0OTY".
Proof.
  split; [discriminate|]. split; vm_compute; reflexivity.
Qed.

(** What [bcrypt.compare] answers on a token and on a password. *)
Lemma compare_token (t : Jwt.token) (h : Bcrypt.digest Jwt.token) :
  Bcrypt.compare Bcrypt.key_of_token t h = true
  <-> Bcrypt.key_of_token (Bcrypt.d_of h) = Bcrypt.key_of_token t.
Proof.
  unfold Bcrypt.compare. rewrite String.eqb_eq. split; congruence.
Qed.

Lemma compare_password (s : string) (h : Bcrypt.digest string) :
  Bcrypt.compare Bcrypt.key72 s h = true
  <-> Bcrypt.key72 (Bcrypt.d_of h) = Bcrypt.key72 s.
Proof.
  unfold Bcrypt.compare. rewrite String.eqb_eq. split; congruence.
Qed.

Lemma validToken_found (t : Jwt.token) (rows : list refresh_tokens_row)
      (row : refresh_tokens_row) :
  validToken t rows = Some row ->
  In row rows
  /\ Bcrypt.key_of_token (Bcrypt.d_of (rt_token_hash row))
     = Bcrypt.key_of_token t.
Proof.
  induction rows as [|r rows IH]; [discriminate|]. cbn.
  destruct (Bcrypt.compare Bcrypt.key_of_token t (rt_token_hash r)) eqn:E.
  - intros [= <-]. split; [now left|]. now apply compare_token.
  - intros H. destruct (IH H). split; [now right|assumption].
Qed.

Lemma validToken_none (t : Jwt.token) (rows : list refresh_tokens_row) :
  (forall row, In row rows ->
               Bcrypt.key_of_token (Bcrypt.d_of (rt_token_hash row))
               <> Bcrypt.key_of_token t) ->
  validToken t rows = None.
Proof.
  induction rows as [|r rows IH]; intros Hnone; [reflexivity|]. cbn.
  destruct (Bcrypt.compare Bcrypt.key_of_token t (rt_token_hash r)) eqn:E.
  - apply compare_token in E. exfalso. apply (Hnone r); [now left|exact E].
  - apply IH. intros row Hrow. apply Hnone. now right.
Qed.

(** Rotation as intended: when the key bytes of the token presented are
    those of one stored record only and the token issued in exchange has
    other key bytes, presenting it again is refused. *)
Lemma rotation_of_a_unique_token (e e' : env) (t : Jwt.token) (db db' : Db)
      (r : auth_json) :
  refresh_tokens_keyed db ->
  (forall r1 r2,
      In r1 (refresh_tokens db) -> In r2 (refresh_tokens db) ->
      Bcrypt.key_of_token (Bcrypt.d_of (rt_token_hash r1))
      = Bcrypt.key_of_token t ->
      Bcrypt.key_of_token (Bcrypt.d_of (rt_token_hash r2))
      = Bcrypt.key_of_token t -> r1 = r2) ->
  refresh e (Some t) db = (Ok (Sent 200 r), db') ->
  Bcrypt.key_of_token (refreshToken (issued r)) <> Bcrypt.key_of_token t ->
  refresh e' (Some t) db' =
  (Throw (UnauthorizedError "Invalid or expired refresh token"), db')
  \/ refresh e' (Some t) db' = (Throw TokenExpiredError, db').
Proof.
  intros Hkeyed Hunique Hfirst Hfresh. revert Hfirst.
  unfold refresh, bind, lift, query, throw, ret, storeRefreshToken, execute.
  destruct (Jwt.falsy t) eqn:Hfalsy; [discriminate|].
  destruct (Jwt.verify t Jwt.JWT_REFRESH_SECRET (now e)) as [decoded|err]
    eqn:Hverify; [|discriminate].
  destruct (validToken t _) as [valid|] eqn:Hvalid; [|discriminate].
  intros [= <- <-]. cbn [issued refreshToken] in Hfresh.
  apply validToken_found in Hvalid. destruct Hvalid as [Hvalid Hmatch].
  apply filter_In in Hvalid. destruct Hvalid as [Hvalid _].
  destruct (Jwt.verify t Jwt.JWT_REFRESH_SECRET (now e')) as [decoded'|err]
    eqn:Hverify'.
  - left. rewrite validToken_none; [reflexivity|].
    intros row Hrow Hrowmatch. apply filter_In in Hrow.
    destruct Hrow as [Hrow Hlive].
    apply andb_true_iff in Hlive. destruct Hlive as [_ Hlive].
    apply negb_true_iff in Hlive.
    cbn [refresh_tokens set_refresh_tokens] in Hrow.
    apply in_app_or in Hrow. destruct Hrow as [Hrow|[<-|[]]].
    + unfold revoke in Hrow. apply in_map_iff in Hrow.
      destruct Hrow as [r0 [Hr0 Hin0]].
      destruct (rt_id r0 =? rt_id valid)%Z eqn:E.
      * subst row. discriminate.
      * subst row. apply Z.eqb_neq in E. apply E.
        now rewrite (Hunique r0 valid Hin0 Hvalid Hrowmatch Hmatch).
    + cbn in Hrowmatch. contradiction.
  - right. destruct t as [k p|s]; [|discriminate]. cbn in Hverify, Hverify'.
    destruct (Jwt.secret_eqb k _); [|discriminate].
    destruct (Jwt.exp p <=? now e' / 1000)%Z; [|discriminate].
    now injection Hverify' as <-.
Qed.

(** C2.  The claim: once [refresh(tokenA)] has succeeded and produced
    [tokenB], a second [refresh(tokenA)] fails with UnauthorizedError.
    [generateTokens] signs nothing but the account id and the clock second.
    (1) John logs in and redeems his refresh token within the same clock
    second: the pair issued is the pair he already holds, the record stored
    for [tokenB] matches [tokenA], and redeeming [tokenA] once more an hour
    later succeeds.  (2) John logs in twice within one second: both
    sessions hold the same refresh token under two records; an hour later
    the token is redeemed and only the first record is revoked, so redeeming
    the same token again succeeds, although the token issued in between
    differs from it. *)
Theorem refresh_token_redeemed_twice :
  let tokenA := refreshToken johns_tokens in
  let signed_in := login morning "patient@demo.com" "Demo1234" opening in
  let first := refresh a_moment_later (Some tokenA) (snd signed_in) in
  let second := refresh an_hour_later (Some tokenA) (snd first) in
  let signed_in_twice :=
    login a_moment_later "patient@demo.com" "Demo1234" (snd signed_in) in
  let redeemed := refresh an_hour_later (Some tokenA) (snd signed_in_twice) in
  let redeemed_again :=
    refresh two_hours_later (Some tokenA) (snd redeemed) in
  (fst signed_in =
     Ok (Sent 200 (mkAuthJson "Login successful"
                     (Some (mkUserJson 2 "patient@demo.com" "patient" "John"
                                       "Doe"))
                     johns_tokens))
   /\ fst first =
      Ok (Sent 200 (mkAuthJson "Tokens refreshed successfully" None
                               johns_tokens))
   /\ map rt_is_revoked (refresh_tokens (snd first)) = [true; false]
   /\ fst second =
      Ok (Sent 200 (mkAuthJson "Tokens refreshed successfully" None
                               (generateTokens an_hour_later 2))))
  /\ (fst signed_in_twice = fst signed_in
      /\ fst redeemed =
         Ok (Sent 200 (mkAuthJson "Tokens refreshed successfully" None
                                  (generateTokens an_hour_later 2)))
      /\ refreshToken (generateTokens an_hour_later 2) <> tokenA
      /\ map rt_is_revoked (refresh_tokens (snd redeemed))
         = [true; false; false]
      /\ fst redeemed_again =
         Ok (Sent 200 (mkAuthJson "Tokens refreshed successfully" None
                                  (generateTokens two_hours_later 2)))).
Proof.
  cbv zeta. split.
  - repeat apply conj; vm_compute; reflexivity.
  - repeat apply conj; try (vm_compute; reflexivity). discriminate.
Qed.

(** ** Authentication re-reads the account *)

Lemma verified_token_is_truthy (t : Jwt.token) (key : Jwt.secret) (clock : Z)
      (decoded : Jwt.payload) :
  Jwt.verify t key clock = Ok decoded -> Jwt.falsy t = false.
Proof. destruct t; [reflexivity|discriminate]. Qed.

(** A verified token whose account has no active row is turned away. *)
Lemma authenticate_requires_active (e : env) (db : Db)
      (scheme t : Jwt.token) (decoded : Jwt.payload) :
  Jwt.verify t Jwt.JWT_SECRET (now e) = Ok decoded ->
  (forall u, In u (users db) -> u_id u = Jwt.userId decoded ->
             u_is_active u = false) ->
  authenticateToken e db (Some [scheme; t]) =
  Answer (mkFailure 401 "Invalid token - user not found or inactive"
                    "INVALID_TOKEN").
Proof.
  intros Hverify Hinactive. unfold authenticateToken. cbn [nth_error].
  rewrite (verified_token_is_truthy _ _ _ _ Hverify), Hverify.
  destruct (filter _ (users db)) as [|u rest] eqn:Hrows; [reflexivity|].
  assert (Hu : In u (filter
                       (fun u => (u_id u =? Jwt.userId decoded)%Z
                                 && u_is_active u) (users db)))
    by (rewrite Hrows; now left).
  apply filter_In in Hu. destruct Hu as [Hin Hu].
  apply andb_true_iff in Hu. destruct Hu as [Hid Hactive].
  apply Z.eqb_eq in Hid. rewrite (Hinactive u Hin Hid) in Hactive.
  discriminate.
Qed.

(** C5.  For an account holding a valid, unexpired access token: once the
    account has been deactivated, the next [authenticateToken] with that
    token answers 401, because the middleware re-reads the account and
    requires it to be active; the token's own expiry plays no part. *)
Theorem deactivation_is_immediate
        (e : env) (db db' : Db) (caller : req_user) (scheme t : Jwt.token)
        (decoded : Jwt.payload) (answer : status_json) :
  Jwt.verify t Jwt.JWT_SECRET (now e) = Ok decoded ->
  updateUserStatus caller (Jwt.userId decoded) (Some false) db
  = (Ok (Sent 200 answer), db') ->
  authenticateToken e db' (Some [scheme; t]) =
  Answer (mkFailure 401 "Invalid token - user not found or inactive"
                    "INVALID_TOKEN").
Proof.
  intros Hverify Hoff.
  apply (authenticate_requires_active e db' scheme t decoded Hverify).
  revert Hoff. unfold updateUserStatus, bind, ret, throw, execute. cbn [negb].
  rewrite andb_true_r.
  destruct (Jwt.userId decoded =? id caller)%Z; [discriminate|].
  destruct (Z.of_nat _ =? 0)%Z; [discriminate|].
  intros Hoff u Hin Hid. injection Hoff as _ <-. cbn in Hin.
  apply in_map_iff in Hin. destruct Hin as [v [Hv _]].
  destruct (u_id v =? Jwt.userId decoded)%Z eqn:E.
  - now subst u.
  - subst u. apply Z.eqb_neq in E. contradiction.
Qed.

Lemma deactivating_john :
  Jwt.verify (accessToken johns_tokens) Jwt.JWT_SECRET (now an_hour_later)
  = Ok (Jwt.mkPayload 2 1704949600 1705036000)
  /\ authenticateToken an_hour_later opening
       (Some [Jwt.Opaque "Bearer"; accessToken johns_tokens])
     = Next (as_user john)
  /\ authenticateToken an_hour_later
       (snd (updateUserStatus (as_user administrator) 2 (Some false) opening))
       (Some [Jwt.Opaque "Bearer"; accessToken johns_tokens])
     = Answer (mkFailure 401 "Invalid token - user not found or inactive"
                         "INVALID_TOKEN").
Proof.
  assert (H1 : Jwt.verify (accessToken johns_tokens) Jwt.JWT_SECRET
                          (now an_hour_later)
               = Ok (Jwt.mkPayload 2 1704949600 1705036000))
    by reflexivity.
  refine (conj H1 (conj eq_refl _)).
  refine (deactivation_is_immediate an_hour_later opening _
            (as_user administrator) (Jwt.Opaque "Bearer")
            (accessToken johns_tokens) _
            (mkStatusJson "User deactivated successfully" 2 false) H1 _).
  reflexivity.
Defined.

(** ** The conflict check at write time *)

Lemma nonempty_In {A : Type} (l : list A) : l <> [] <-> exists x, In x l.
Proof.
  destruct l as [|x l]; split.
  - congruence.
  - intros [x []].
  - intros _. exists x. now left.
  - discriminate.
Qed.

Lemma availableDoctors_bookable (doctorId : Z) (db : Db) :
  availableDoctors doctorId db <> [] <-> doctor_bookable doctorId db.
Proof.
  rewrite nonempty_In. unfold availableDoctors, doctor_bookable. split.
  - intros [x Hx]. apply in_flat_map in Hx. destruct Hx as [d [Hd Hx]].
    apply in_map_iff in Hx. destruct Hx as [u [_ Hu]].
    apply filter_In in Hu. destruct Hu as [Hu Hc].
    repeat (apply andb_true_iff in Hc; destruct Hc as [Hc ?]).
    apply Z.eqb_eq in Hc. exists d, u.
    repeat split; try assumption. now apply Z.eqb_eq.
  - intros [d [u [Hd [Hu [Hid [Hav [Hjoin Hact]]]]]]]. exists d.
    apply in_flat_map. exists d. split; [assumption|].
    apply in_map_iff. exists u. split; [reflexivity|].
    apply filter_In. split; [assumption|].
    rewrite Hav, Hact, Hjoin, Hid, !Z.eqb_refl. reflexivity.
Qed.

Lemma blocks_spec (s : status) :
  blocks s = true <-> s = scheduled \/ s = confirmed.
Proof.
  destruct s; cbn; split; intros H; try discriminate; auto;
    destruct H; discriminate.
Qed.

Lemma conflictsOnCreate_checkConflict (doctorId date time : Z) (db : Db) :
  conflictsOnCreate doctorId date time db <> [] <->
  checkConflict doctorId date time None db.
Proof.
  rewrite nonempty_In. unfold conflictsOnCreate, checkConflict. split.
  - intros [a Ha]. apply filter_In in Ha. destruct Ha as [Ha Hc].
    repeat (apply andb_true_iff in Hc; destruct Hc as [Hc ?]).
    exists a. repeat split; try (now apply Z.eqb_eq); try assumption.
    + now apply blocks_spec.
    + discriminate.
  - intros [a [Ha [Hd [Hdate [Htime [Hs _]]]]]]. exists a.
    apply filter_In. split; [assumption|].
    apply blocks_spec in Hs. rewrite Hd, Hdate, Htime, Hs, !Z.eqb_refl.
    reflexivity.
Qed.

Lemma conflictsOnUpdate_checkConflict
      (doctorId date time appointmentId : Z) (db : Db) :
  conflictsOnUpdate doctorId date time appointmentId db <> [] <->
  checkConflict doctorId date time (Some appointmentId) db.
Proof.
  rewrite nonempty_In. unfold conflictsOnUpdate, checkConflict. split.
  - intros [a Ha]. apply filter_In in Ha. destruct Ha as [Ha Hc].
    repeat (apply andb_true_iff in Hc; destruct Hc as [Hc ?]).
    exists a. repeat split; try (now apply Z.eqb_eq); try assumption.
    + now apply blocks_spec.
    + intros x [= <-]. now apply Z.eqb_neq, negb_true_iff.
  - intros [a [Ha [Hd [Hdate [Htime [Hs Hx]]]]]]. exists a.
    apply filter_In. split; [assumption|].
    apply blocks_spec in Hs. specialize (Hx appointmentId eq_refl).
    apply Z.eqb_neq in Hx.
    rewrite Hd, Hdate, Htime, Hs, Hx, !Z.eqb_refl. reflexivity.
Qed.

(** What the handlers do once the conflict check has passed never throws
    a ConflictError. *)
Lemma insertAppointment_no_conflict (row : appointments_row) (db : Db)
      (m : string) :
  fst (insertAppointment row db) <> Throw (ConflictError m).
Proof.
  unfold insertAppointment.
  destruct (_ || _); [discriminate|].
  destruct (duplicates_key _ _); discriminate.
Qed.

Lemma updateAppointmentRow_no_conflict (appointmentId : Z) (u : update_body)
      (db : Db) (m : string) :
  fst (updateAppointmentRow appointmentId u db) <> Throw (ConflictError m).
Proof.
  unfold updateAppointmentRow.
  destruct (existsb is_inherited _); [discriminate|].
  destruct (existsb _ _); discriminate.
Qed.

Lemma createAppointment_conflict (e : env) (caller : req_user)
      (b : create_body) (db : Db) :
  doctor_bookable (cb_doctorId b) db ->
  (exists m, fst (createAppointment e caller b db) = Throw (ConflictError m))
  <-> checkConflict (cb_doctorId b) (cb_appointmentDate b)
                    (cb_appointmentTime b) None db.
Proof.
  intros Hdoctor. apply availableDoctors_bookable in Hdoctor.
  rewrite <- conflictsOnCreate_checkConflict.
  unfold createAppointment, transaction, bind, query, throw, ret.
  destruct (availableDoctors (cb_doctorId b) db) as [|doc others];
    [congruence|].
  destruct (conflictsOnCreate _ _ _ db) as [|c cs].
  - split; [|congruence]. intros [m Hm]. exfalso. revert Hm.
    destruct (type_of_string (cb_type b)); [|discriminate].
    match goal with
    | |- context [insertAppointment ?row db] =>
        pose proof (insertAppointment_no_conflict row db m) as Hno;
        destruct (insertAppointment row db) as [[inserted|err] db']
    end; cbn in *; congruence.
  - split; [discriminate|]. intros _. eexists. reflexivity.
Qed.

Lemma createAppointment_not_found (e : env) (caller : req_user)
      (b : create_body) (db : Db) :
  ~ doctor_bookable (cb_doctorId b) db ->
  createAppointment e caller b db =
  (Throw (NotFoundError "Doctor not found or not available"), db).
Proof.
  intros Hdoctor. rewrite <- availableDoctors_bookable in Hdoctor.
  unfold createAppointment, transaction, bind, query, throw.
  destruct (availableDoctors (cb_doctorId b) db) as [|doc others];
    [reflexivity|].
  exfalso. apply Hdoctor. discriminate.
Qed.

(** The update handler up to its conflict check, for a caller whom the
    permission and field checks let through. *)
Lemma updateAppointment_conflict (actor : req_user) (appointmentId : Z)
      (updates : update_body) (store : Db) (appointment : appointments_row)
      (doctor_user_id : Z) (rest : list (appointments_row * Z)) :
  appointmentWithDoctor appointmentId store
  = (appointment, doctor_user_id) :: rest ->
  canUpdate actor appointment doctor_user_id = true ->
  (role_of actor = patient ->
   a_status appointment = scheduled /\ hasDisallowedFields updates = false) ->
  (exists m, fst (updateAppointment actor appointmentId updates store)
             = Throw (ConflictError m))
  <-> (is_some (ub_appointmentDate updates)
       || is_some (ub_appointmentTime updates) = true
       /\ conflictsOnUpdate (a_doctor_id appointment)
            (or_default (ub_appointmentDate updates)
                        (a_appointment_date appointment))
            (or_default (ub_appointmentTime updates)
                        (a_appointment_time appointment))
            appointmentId store <> []).
Proof.
  intros Hfound Hcan Hpatient.
  unfold updateAppointment, transaction, bind, query, throw, ret.
  rewrite Hfound, Hcan. cbn [negb].
  assert (Hgate1 : role_eqb (role_of actor) patient
                   && negb (status_eqb (a_status appointment) scheduled)
                   = false).
  { destruct (role_of actor); cbn; try reflexivity.
    destruct (Hpatient eq_refl) as [-> _]. reflexivity. }
  assert (Hgate2 : role_eqb (role_of actor) patient
                   && hasDisallowedFields updates = false).
  { destruct (role_of actor); cbn; try reflexivity.
    now destruct (Hpatient eq_refl) as [_ ->]. }
  rewrite Hgate1, Hgate2.
  destruct (is_some (ub_appointmentDate updates)
            || is_some (ub_appointmentTime updates)).
  - destruct (conflictsOnUpdate _ _ _ appointmentId store) as [|c cs].
    + split; [|intros [_ H]; congruence]. intros [m Hm]. exfalso. revert Hm.
      destruct (updateFields updates); [discriminate|].
      pose proof (updateAppointmentRow_no_conflict appointmentId updates
                                                   store m) as Hno.
      destruct (updateAppointmentRow appointmentId updates store)
        as [[u|err] db']; cbn in *; [|congruence].
      destruct (filter _ (appointments db')); discriminate.
    + split; [intros _; split; [reflexivity|discriminate]|].
      intros _. eexists. reflexivity.
  - split; [|intros [H _]; discriminate]. intros [m Hm]. exfalso. revert Hm.
    destruct (updateFields updates); [discriminate|].
    pose proof (updateAppointmentRow_no_conflict appointmentId updates
                                                 store m) as Hno.
    destruct (updateAppointmentRow appointmentId updates store)
      as [[u|err] db']; cbn in *; [|congruence].
    destruct (filter _ (appointments db')); discriminate.
Qed.

(** C1.  A create call for a doctor who exists, is available and belongs to
    an active account fails with ConflictError if and only if an existing
    appointment of that doctor with status scheduled or confirmed occupies
    the exact same (date, time); when the doctor is missing or unavailable
    it fails with NotFoundError.  On update, for a caller whom the
    permission checks let through, the same exact-match check, leaving out
    the appointment being updated, decides the ConflictError whenever the
    changes carry a date or a time, and is not run otherwise. *)
Theorem conflict_check_at_write_time
        (e : env) (caller : req_user) (b : create_body) (db : Db)
        (actor : req_user) (appointmentId : Z) (updates : update_body)
        (store : Db) (appointment : appointments_row) (doctor_user_id : Z)
        (rest : list (appointments_row * Z)) :
  (doctor_bookable (cb_doctorId b) db ->
   ((exists m, fst (createAppointment e caller b db)
               = Throw (ConflictError m))
    <-> checkConflict (cb_doctorId b) (cb_appointmentDate b)
                      (cb_appointmentTime b) None db))
  /\ (~ doctor_bookable (cb_doctorId b) db ->
      createAppointment e caller b db =
      (Throw (NotFoundError "Doctor not found or not available"), db))
  /\ (appointmentWithDoctor appointmentId store
      = (appointment, doctor_user_id) :: rest ->
      canUpdate actor appointment doctor_user_id = true ->
      (role_of actor = patient ->
       a_status appointment = scheduled
       /\ hasDisallowedFields updates = false) ->
      (ub_appointmentDate updates <> None
       \/ ub_appointmentTime updates <> None ->
       ((exists m, fst (updateAppointment actor appointmentId updates store)
                   = Throw (ConflictError m))
        <-> checkConflict (a_doctor_id appointment)
              (or_default (ub_appointmentDate updates)
                          (a_appointment_date appointment))
              (or_default (ub_appointmentTime updates)
                          (a_appointment_time appointment))
              (Some appointmentId) store))
      /\ (ub_appointmentDate updates = None ->
          ub_appointmentTime updates = None ->
          forall m, fst (updateAppointment actor appointmentId updates store)
                    <> Throw (ConflictError m))).
Proof.
  split; [apply createAppointment_conflict|].
  split; [apply createAppointment_not_found|].
  intros Hfound Hcan Hpatient.
  pose proof (updateAppointment_conflict actor appointmentId updates store
                appointment doctor_user_id rest Hfound Hcan Hpatient) as H.
  split.
  - intros Hchanged. rewrite H, conflictsOnUpdate_checkConflict.
    split; [tauto|]. intros Hc. split; [|assumption].
    destruct (ub_appointmentDate updates), (ub_appointmentTime updates);
      try reflexivity.
    destruct Hchanged; congruence.
  - intros Hd Ht m Hm. assert (Hex : exists m, fst (updateAppointment actor
      appointmentId updates store) = Throw (ConflictError m)) by eauto.
    apply H in Hex. rewrite Hd, Ht in Hex. destruct Hex. discriminate.
Qed.

Lemma conflict_check_on_the_checkup :
  (exists m, fst (createAppointment morning (as_user jane) same_slot booked)
             = Throw (ConflictError m))
  /\ createAppointment morning (as_user jane)
       (mkCreateBody 9 monday_15 ten None "in-person"
                     "Follow-up on blood pressure" []) booked
     = (Throw (NotFoundError "Doctor not found or not available"), booked)
  /\ ~ (exists m, fst (updateAppointment (as_user john) 1 to_half_past_ten
                                         booked)
                  = Throw (ConflictError m)).
Proof.
  pose proof (conflict_check_at_write_time morning (as_user jane) same_slot
                booked (as_user john) 1 to_half_past_ten booked checkup 5 [])
    as [Hcreate [_ Hupdate]].
  pose proof (conflict_check_at_write_time morning (as_user jane)
                (mkCreateBody 9 monday_15 ten None "in-person"
                              "Follow-up on blood pressure" [])
                booked (as_user john) 1 to_half_past_ten booked checkup 5 [])
    as [_ [Hmissing _]].
  split; [|split].
  - apply Hcreate.
    + exists cardiology, sarah. cbn. tauto.
    + exists checkup. cbn. repeat split; try tauto. discriminate.
  - apply Hmissing. intros [d [u [Hd [_ [Hid _]]]]]. cbn in Hd, Hid.
    destruct Hd as [<-|[]]. discriminate.
  - destruct (Hupdate eq_refl eq_refl (fun _ => conj eq_refl eq_refl))
      as [Hiff _].
    rewrite Hiff by (right; discriminate).
    intros [a [Ha [_ [_ [Htime [_ Hother]]]]]]. cbn in Ha.
    destruct Ha as [<-|[<-|[]]]; [|discriminate].
    now apply (Hother 1).
Defined.

(** A slot held by a cancelled appointment passes the conflict check; the
    INSERT then meets the unique key of the table. *)
Lemma cancelled_slot_meets_the_unique_key :
  createAppointment morning (as_user jane) same_slot
    (set_appointments [with_status cancelled checkup] booked) =
  (Throw (MysqlError "ER_DUP_ENTRY"),
   set_appointments [with_status cancelled checkup] booked).
Proof. vm_compute. reflexivity. Qed.

(** ** Who may update an appointment, and what *)

Lemma includes_In (l : list string) (s : string) :
  includes l s = true <-> In s l.
Proof.
  unfold includes. rewrite existsb_exists. split.
  - intros [x [Hx Heq]]. apply String.eqb_eq in Heq. now subst.
  - intros H. exists s. split; [assumption|apply String.eqb_refl].
Qed.

Lemma hasDisallowedFields_Forall (u : update_body) :
  hasDisallowedFields u = false <->
  Forall (fun key => In key allowedFields) (Object_keys u).
Proof.
  unfold hasDisallowedFields. rewrite Forall_forall. split.
  - intros H key Hkey. apply includes_In.
    destruct (includes allowedFields key) eqn:E; [reflexivity|].
    assert (Hex : existsb (fun key => negb (includes allowedFields key))
                          (Object_keys u) = true)
      by (apply existsb_exists; exists key; now rewrite E).
    congruence.
  - intros H.
    destruct (existsb _ (Object_keys u)) eqn:E; [|reflexivity].
    apply existsb_exists in E. destruct E as [key [Hkey Hbad]].
    apply H, includes_In in Hkey. now rewrite Hkey in Hbad.
Qed.

Lemma appointmentWithDoctor_head (appointmentId : Z) (db : Db)
      (appointment : appointments_row) (doctor_user_id : Z)
      (rest : list (appointments_row * Z)) :
  appointmentWithDoctor appointmentId db
  = (appointment, doctor_user_id) :: rest ->
  In appointment (appointments db) /\ a_id appointment = appointmentId.
Proof.
  intros H.
  assert (Hin : In (appointment, doctor_user_id)
                   (appointmentWithDoctor appointmentId db))
    by (rewrite H; now left).
  unfold appointmentWithDoctor in Hin. apply in_flat_map in Hin.
  destruct Hin as [a [Ha Hin]]. apply in_map_iff in Hin.
  destruct Hin as [d [Heq Hd]]. injection Heq as -> _.
  apply filter_In in Hd. destruct Hd as [_ Hd].
  apply andb_true_iff in Hd. destruct Hd as [_ Hid].
  apply Z.eqb_eq in Hid. now split.
Qed.

(** A patient's call that breaks one of the three conditions is refused,
    and nothing is written. *)
Lemma patient_violation_forbidden (actor : req_user) (appointmentId : Z)
      (updates : update_body) (db : Db) (appointment : appointments_row)
      (doctor_user_id : Z) (rest : list (appointments_row * Z)) :
  appointmentWithDoctor appointmentId db
  = (appointment, doctor_user_id) :: rest ->
  role_of actor = patient ->
  ~ (a_patient_id appointment = id actor
     /\ a_status appointment = scheduled
     /\ Forall (fun key => In key allowedFields) (Object_keys updates)) ->
  exists m, updateAppointment actor appointmentId updates db
            = (Throw (ForbiddenError m), db).
Proof.
  intros Hfound Hrole Hbad.
  unfold updateAppointment, transaction, bind, query, throw, ret, canUpdate.
  rewrite Hfound, Hrole. cbn [role_eqb orb andb negb].
  destruct (a_patient_id appointment =? id actor)%Z eqn:Hown;
    cbn [negb]; [|eexists; reflexivity].
  destruct (status_eqb (a_status appointment) scheduled) eqn:Hst;
    cbn [negb]; [|eexists; reflexivity].
  destruct (hasDisallowedFields updates) eqn:Hkeys; [eexists; reflexivity|].
  exfalso. apply Hbad. apply Z.eqb_eq in Hown.
  apply hasDisallowedFields_Forall in Hkeys.
  repeat split; try assumption.
  destruct (a_status appointment); (reflexivity || discriminate).
Qed.

(** What a successful update went through. *)
Lemma updateAppointment_success (actor : req_user) (appointmentId : Z)
      (updates : update_body) (db db' : Db) (r : reply appointment_json) :
  updateAppointment actor appointmentId updates db = (Ok r, db') ->
  exists appointment doctor_user_id rest row,
    appointmentWithDoctor appointmentId db
    = (appointment, doctor_user_id) :: rest
    /\ canUpdate actor appointment doctor_user_id = true
    /\ (role_of actor = patient ->
        a_status appointment = scheduled
        /\ hasDisallowedFields updates = false)
    /\ appointments db' =
       map (fun a => if (a_id a =? appointmentId)%Z then assign updates a
                     else a) (appointments db)
    /\ r = Sent 200 (mkAppointmentJson "Appointment updated successfully"
                                       row)
    /\ In row (filter (fun a => (a_id a =? appointmentId)%Z)
                      (appointments db')).
Proof.
  unfold updateAppointment, transaction, bind, query, throw, ret.
  destruct (appointmentWithDoctor appointmentId db)
    as [|[appointment doctor_user_id] rest] eqn:Hfound; [discriminate|].
  destruct (canUpdate actor appointment doctor_user_id) eqn:Hcan;
    cbn [negb]; [|discriminate].
  destruct (role_eqb (role_of actor) patient
            && negb (status_eqb (a_status appointment) scheduled)) eqn:G1;
    [discriminate|].
  destruct (role_eqb (role_of actor) patient && hasDisallowedFields updates)
    eqn:G2; [discriminate|].
  assert (Hpatient : role_of actor = patient ->
                     a_status appointment = scheduled
                     /\ hasDisallowedFields updates = false).
  { intros Hrole. rewrite Hrole in G1, G2. cbn in G1, G2. split; [|exact G2].
    destruct (a_status appointment); (reflexivity || discriminate). }
  assert (Hgo :
    forall row others,
      filter (fun a => (a_id a =? appointmentId)%Z)
             (map (fun a => if (a_id a =? appointmentId)%Z
                            then assign updates a else a) (appointments db))
      = row :: others ->
      (Ok (Sent 200 (mkAppointmentJson "Appointment updated successfully"
                                       row)),
       set_appointments
         (map (fun a => if (a_id a =? appointmentId)%Z
                        then assign updates a else a) (appointments db)) db)
      = (Ok r, db') ->
      exists appointment0 doctor_user_id0 rest0 row0,
        (appointment, doctor_user_id) :: rest
        = (appointment0, doctor_user_id0) :: rest0
        /\ canUpdate actor appointment0 doctor_user_id0 = true
        /\ (role_of actor = patient ->
            a_status appointment0 = scheduled
            /\ hasDisallowedFields updates = false)
        /\ appointments db' =
           map (fun a => if (a_id a =? appointmentId)%Z
                         then assign updates a else a) (appointments db)
        /\ r = Sent 200 (mkAppointmentJson
                           "Appointment updated successfully" row0)
        /\ In row0 (filter (fun a => (a_id a =? appointmentId)%Z)
                           (appointments db'))).
  { intros row others Hrow [= <- <-].
    exists appointment, doctor_user_id, rest, row.
    cbn [appointments set_appointments]. rewrite Hrow.
    repeat split; try assumption; try (now apply Hpatient). now left. }
  destruct (is_some (ub_appointmentDate updates)
            || is_some (ub_appointmentTime updates));
    [destruct (conflictsOnUpdate _ _ _ appointmentId db); [|discriminate]|];
    (destruct (updateFields updates); [discriminate|]);
    unfold updateAppointmentRow;
    (destruct (existsb is_inherited _); [discriminate|]);
    (destruct (existsb _ _); [discriminate|]);
    cbn [appointments set_appointments];
    (destruct (filter _ _) as [|row others] eqn:Hrow; [discriminate|]);
    apply (Hgo row others eq_refl).
Qed.

Lemma admin_never_forbidden (actor : req_user) (appointmentId : Z)
      (updates : update_body) (db : Db) (m : string) :
  role_of actor = admin ->
  fst (updateAppointment actor appointmentId updates db)
  <> Throw (ForbiddenError m).
Proof.
  intros Hrole.
  unfold updateAppointment, transaction, bind, query, throw, ret, canUpdate.
  destruct (appointmentWithDoctor appointmentId db)
    as [|[appointment doctor_user_id] rest]; [discriminate|].
  rewrite Hrole. cbn [role_eqb orb andb negb].
  step_update; discriminate.
Qed.

Lemma keyed_rows_equal {A : Type} (key : A -> Z) (l : list A) (a b : A) :
  NoDup (map key l) -> In a l -> In b l -> key a = key b -> a = b.
Proof.
  induction l as [|x l IH]; intros Hnodup Ha Hb Hkey; [contradiction|].
  cbn in Hnodup. inversion Hnodup as [|k ks Hnotin Hrest]; subst.
  destruct Ha as [->|Ha], Hb as [->|Hb]; try reflexivity.
  - exfalso. apply Hnotin. rewrite Hkey. now apply in_map.
  - exfalso. apply Hnotin. rewrite <- Hkey. now apply in_map.
  - now apply IH.
Qed.

Lemma keyed_filter_single {A : Type} (key : A -> Z) (l : list A) (a : A) :
  NoDup (map key l) -> In a l ->
  filter (fun b => (key b =? key a)%Z) l = [a].
Proof.
  induction l as [|x l IH]; intros Hnodup Ha; [contradiction|].
  cbn in Hnodup. inversion Hnodup as [|k ks Hnotin Hrest]; subst. cbn.
  destruct Ha as [->|Ha].
  - rewrite Z.eqb_refl. f_equal.
    destruct (filter (fun b => (key b =? key a)%Z) l) as [|y ys] eqn:E;
      [reflexivity|].
    assert (Hy : In y (filter (fun b => (key b =? key a)%Z) l))
      by (rewrite E; now left).
    apply filter_In in Hy. destruct Hy as [Hy Hk]. apply Z.eqb_eq in Hk.
    exfalso. apply Hnotin. rewrite <- Hk. now apply in_map.
  - destruct (key x =? key a)%Z eqn:E; [|now apply IH].
    apply Z.eqb_eq in E. exfalso. apply Hnotin. rewrite E. now apply in_map.
Qed.

Lemma assign_keeps_id (u : update_body) (a : appointments_row) :
  a_id (assign u a) = a_id a.
Proof. reflexivity. Qed.

Lemma filter_assigned (appointmentId : Z) (u : update_body)
      (table : list appointments_row) :
  filter (fun a => (a_id a =? appointmentId)%Z)
         (map (fun a => if (a_id a =? appointmentId)%Z then assign u a else a)
              table)
  = map (assign u) (filter (fun a => (a_id a =? appointmentId)%Z) table).
Proof.
  induction table as [|a table IH]; [reflexivity|]. cbn.
  destruct (a_id a =? appointmentId)%Z eqn:E.
  - cbn. rewrite E. cbn. now f_equal.
  - rewrite E. exact IH.
Qed.

(** Typed keys map to columns; further keys unknown to [fieldMapping]
    collect nothing. *)
Lemma updateFields_columns (u : update_body) :
  (forall key, In key (ub_other u) -> fieldMapping key = None) ->
  existsb is_inherited (updateFields u) = false.
Proof.
  intros Hknown.
  destruct (existsb is_inherited (updateFields u)) eqn:E; [|reflexivity].
  exfalso. apply existsb_exists in E. destruct E as [found [Hfound Hinh]].
  unfold updateFields in Hfound. apply in_flat_map in Hfound.
  destruct Hfound as [key [Hkey Hfound]]. unfold Object_keys in Hkey.
  repeat (apply in_app_or in Hkey; destruct Hkey as [Hkey|Hkey]);
    try (match type of Hkey with
         | In _ (key_if _ ?v) => destruct v; cbn in Hkey
         end;
         [destruct Hkey as [<-|[]]; cbn in Hfound;
          destruct Hfound as [<-|[]]; discriminate
         |contradiction]).
  apply filter_In in Hkey. destruct Hkey as [Hkey _].
  rewrite (Hknown key Hkey) in Hfound. contradiction.
Qed.

(** With the new slot free for that doctor, an admin's update goes
    through. *)
Lemma admin_update_succeeds (actor : req_user) (appointmentId : Z)
      (updates : update_body) (db : Db) (appointment : appointments_row)
      (doctor_user_id : Z) (rest : list (appointments_row * Z)) :
  role_of actor = admin ->
  appointments_keyed db ->
  appointmentWithDoctor appointmentId db
  = (appointment, doctor_user_id) :: rest ->
  updateFields updates <> [] ->
  (forall key, In key (ub_other updates) -> fieldMapping key = None) ->
  (forall other,
      In other (appointments db) -> a_id other <> appointmentId ->
      ~ (a_doctor_id other = a_doctor_id appointment
         /\ a_appointment_date other
            = or_default (ub_appointmentDate updates)
                         (a_appointment_date appointment)
         /\ a_appointment_time other
            = or_default (ub_appointmentTime updates)
                         (a_appointment_time appointment))) ->
  updateAppointment actor appointmentId updates db =
  (Ok (Sent 200 (mkAppointmentJson "Appointment updated successfully"
                                   (assign updates appointment))),
   set_appointments
     (map (fun a => if (a_id a =? appointmentId)%Z then assign updates a
                    else a) (appointments db)) db).
Proof.
  intros Hrole Hkeyed Hfound Hfields Hknown Hfree.
  destruct (appointmentWithDoctor_head _ _ _ _ _ Hfound) as [Hin Hid].
  assert (Hnone : conflictsOnUpdate (a_doctor_id appointment)
            (or_default (ub_appointmentDate updates)
                        (a_appointment_date appointment))
            (or_default (ub_appointmentTime updates)
                        (a_appointment_time appointment))
            appointmentId db = []).
  { destruct (conflictsOnUpdate _ _ _ _ db) as [|c cs] eqn:E; [reflexivity|].
    assert (Hc : In c (conflictsOnUpdate (a_doctor_id appointment)
            (or_default (ub_appointmentDate updates)
                        (a_appointment_date appointment))
            (or_default (ub_appointmentTime updates)
                        (a_appointment_time appointment))
            appointmentId db)) by (rewrite E; now left).
    unfold conflictsOnUpdate in Hc. apply filter_In in Hc.
    destruct Hc as [Hc Hcond].
    repeat (apply andb_true_iff in Hcond; destruct Hcond as [Hcond ?]).
    exfalso. apply (Hfree c Hc).
    - now apply Z.eqb_neq, negb_true_iff.
    - repeat split; now apply Z.eqb_eq. }
  assert (Hrow : updateAppointmentRow appointmentId updates db =
                 (Ok tt,
                  set_appointments
                    (map (fun a => if (a_id a =? appointmentId)%Z
                                   then assign updates a else a)
                         (appointments db)) db)).
  { unfold updateAppointmentRow. rewrite (updateFields_columns _ Hknown).
    destruct (existsb _ _) eqn:E; [|reflexivity]. exfalso.
    apply existsb_exists in E. destruct E as [a' [Ha' Hdup]].
    apply andb_true_iff in Hdup. destruct Hdup as [Hida' Hdup].
    apply Z.eqb_eq in Hida'.
    apply in_map_iff in Ha'. destruct Ha' as [a0 [Ha0 Hin0]].
    assert (Hida0 : a_id a0 = appointmentId).
    { destruct (a_id a0 =? appointmentId)%Z eqn:E0.
      - now apply Z.eqb_eq.
      - now subst a'. }
    assert (a0 = appointment)
      by (apply (keyed_rows_equal a_id (appointments db));
          [exact Hkeyed|exact Hin0|exact Hin|congruence]).
    subst a0. rewrite Hida0, Z.eqb_refl in Ha0. subst a'.
    unfold duplicates_key in Hdup. apply existsb_exists in Hdup.
    destruct Hdup as [b' [Hb' Hsame]].
    repeat (apply andb_true_iff in Hsame; destruct Hsame as [Hsame ?]).
    apply negb_true_iff, Z.eqb_neq in Hsame. rewrite assign_keeps_id in Hsame.
    apply in_map_iff in Hb'. destruct Hb' as [b0 [Hb0 Hinb]].
    destruct (a_id b0 =? appointmentId)%Z eqn:Eb.
    - subst b'. rewrite assign_keeps_id in Hsame. apply Z.eqb_eq in Eb.
      congruence.
    - subst b'. apply Z.eqb_neq in Eb. apply (Hfree b0 Hinb Eb).
      repeat split; now apply Z.eqb_eq. }
  assert (Hsel : filter (fun a => (a_id a =? appointmentId)%Z)
                   (map (fun a => if (a_id a =? appointmentId)%Z
                                  then assign updates a else a)
                        (appointments db))
                 = [assign updates appointment]).
  { rewrite filter_assigned. rewrite <- Hid.
    now rewrite (keyed_filter_single a_id (appointments db) appointment). }
  unfold updateAppointment, transaction, bind, query, throw, ret, canUpdate.
  rewrite Hfound, Hrole. cbn [role_eqb orb andb negb]. cbv zeta.
  destruct (updateFields updates) as [|column columns]; [congruence|].
  destruct (is_some (ub_appointmentDate updates)
            || is_some (ub_appointmentTime updates));
    cbv beta iota; try rewrite Hnone; cbv beta iota; rewrite Hrow;
    cbn [appointments set_appointments]; rewrite Hsel; reflexivity.
Qed.

(** A key that names a member of Object.prototype is looked up as truthy
    and ends in the SET list; the statement is refused. *)
Lemma inherited_key_breaks_the_statement :
  updateAppointment (as_user administrator) 1
    (mkUpdateBody None None None None (Some confirmed) None None
                  ["constructor"]) booked
  = (Throw (MysqlError "ER_PARSE_ERROR"), booked).
Proof. vm_compute. reflexivity. Qed.

(** C6, as the handler has it.  For an update call by an actor with role
    patient on an existing appointment: the call succeeds only if the actor
    is the appointment's patient, the status is scheduled, and every key of
    the changes is one of appointmentDate, appointmentTime, reasonForVisit;
    a call that breaks one of these fails with ForbiddenError and writes
    nothing, so a patient's update of another patient's appointment does.
    The same call by an admin is never refused with ForbiddenError; it
    succeeds when the changes name at least one updatable field, their
    further keys are unknown to the field mapping, and no other appointment
    of that doctor holds the new (date, time). *)
Theorem update_permissions
        (actor : req_user) (appointmentId : Z) (updates : update_body)
        (db : Db) (appointment : appointments_row) (doctor_user_id : Z)
        (rest : list (appointments_row * Z)) :
  appointmentWithDoctor appointmentId db
  = (appointment, doctor_user_id) :: rest ->
  (role_of actor = patient ->
   (forall r db',
       updateAppointment actor appointmentId updates db = (Ok r, db') ->
       a_patient_id appointment = id actor
       /\ a_status appointment = scheduled
       /\ Forall (fun key => In key allowedFields) (Object_keys updates))
   /\ (~ (a_patient_id appointment = id actor
          /\ a_status appointment = scheduled
          /\ Forall (fun key => In key allowedFields) (Object_keys updates)) ->
       exists m, updateAppointment actor appointmentId updates db
                 = (Throw (ForbiddenError m), db))
   /\ (a_patient_id appointment <> id actor ->
       exists m, updateAppointment actor appointmentId updates db
                 = (Throw (ForbiddenError m), db)))
  /\ (role_of actor = admin ->
      (forall m, fst (updateAppointment actor appointmentId updates db)
                 <> Throw (ForbiddenError m))
      /\ (appointments_keyed db ->
          updateFields updates <> [] ->
          (forall key, In key (ub_other updates) -> fieldMapping key = None) ->
          (forall other,
              In other (appointments db) -> a_id other <> appointmentId ->
              ~ (a_doctor_id other = a_doctor_id appointment
                 /\ a_appointment_date other
                    = or_default (ub_appointmentDate updates)
                                 (a_appointment_date appointment)
                 /\ a_appointment_time other
                    = or_default (ub_appointmentTime updates)
                                 (a_appointment_time appointment))) ->
          updateAppointment actor appointmentId updates db =
          (Ok (Sent 200 (mkAppointmentJson "Appointment updated successfully"
                                           (assign updates appointment))),
           set_appointments
             (map (fun a => if (a_id a =? appointmentId)%Z
                            then assign updates a else a)
                  (appointments db)) db))).
Proof.
  intros Hfound. split.
  - intros Hrole. split; [|split].
    + intros r db' Hok.
      destruct (updateAppointment_success _ _ _ _ _ _ Hok)
        as [a0 [du0 [rest0 [row [Hf [Hcan [Hpat _]]]]]]].
      rewrite Hfound in Hf. injection Hf as <- <- <-.
      destruct (Hpat Hrole) as [Hst Hkeys].
      unfold canUpdate in Hcan. rewrite Hrole in Hcan.
      cbn [role_eqb orb andb] in Hcan. rewrite orb_false_r in Hcan.
      apply Z.eqb_eq in Hcan.
      repeat split; try assumption. now apply hasDisallowedFields_Forall.
    + now apply (patient_violation_forbidden actor appointmentId updates db
                   appointment doctor_user_id rest).
    + intros Hother.
      apply (patient_violation_forbidden actor appointmentId updates db
               appointment doctor_user_id rest); try assumption.
      intros [Hown _]. contradiction.
  - intros Hrole. split.
    + intros m. now apply admin_never_forbidden.
    + intros Hkeyed Hfields Hknown Hfree.
      now apply (admin_update_succeeds actor appointmentId updates db
                   appointment doctor_user_id rest).
Qed.

(** The specification adds that a call a patient is refused succeeds when
    an admin makes it.  Jane may not move John's checkup to 10:30; the
    admin making the same call is stopped by the conflict check, since Jane's
    own visit holds 10:30. *)
Lemma admin_same_call_conflicts :
  a_patient_id checkup <> id (as_user jane)
  /\ updateAppointment (as_user jane) 1 to_half_past_ten busy
     = (Throw (ForbiddenError "Access denied to update this appointment"),
        busy)
  /\ updateAppointment (as_user administrator) 1 to_half_past_ten busy
     = (Throw (ConflictError "Time slot is already booked"), busy).
Proof.
  split; [discriminate|]. split; vm_compute; reflexivity.
Qed.

Lemma update_permissions_on_the_checkup :
  (exists m, updateAppointment (as_user jane) 1 to_half_past_ten booked
             = (Throw (ForbiddenError m), booked))
  /\ updateAppointment (as_user administrator) 1 to_half_past_ten booked
     = (Ok (Sent 200 (mkAppointmentJson "Appointment updated successfully"
                        (assign to_half_past_ten checkup))),
        set_appointments [assign to_half_past_ten checkup; wellness] booked).
Proof.
  split.
  - destruct (update_permissions (as_user jane) 1 to_half_past_ten booked
                checkup 5 [] eq_refl) as [[_ [_ Hother]] _];
      [reflexivity|].
    apply Hother. discriminate.
  - destruct (update_permissions (as_user administrator) 1 to_half_past_ten
                booked checkup 5 [] eq_refl) as [_ [_ Hadmin]];
      [reflexivity|].
    apply Hadmin.
    + repeat constructor; cbn; intuition discriminate.
    + discriminate.
    + intros key [].
    + intros other Hin Hid [_ [_ Htime]]. cbn in Hin.
      destruct Hin as [<-|[<-|[]]]; [now apply Hid|discriminate].
Defined.

(** ** Terminal states *)

Lemma assigned_status (appointmentId : Z) (updates : update_body)
      (s : status) (table : list appointments_row) (a : appointments_row) :
  ub_status updates = Some s ->
  In a (map (fun a => if (a_id a =? appointmentId)%Z then assign updates a
                      else a) table) ->
  a_id a = appointmentId -> a_status a = s.
Proof.
  intros Hs Hin Hid. apply in_map_iff in Hin. destruct Hin as [a0 [Ha0 _]].
  destruct (a_id a0 =? appointmentId)%Z eqn:E.
  - subst a. cbn. now rewrite Hs.
  - subst a. apply Z.eqb_neq in E. contradiction.
Qed.

(** C7, as the handlers have it.  For an appointment whose status is
    terminal (completed, cancelled or no-show): an update by an actor with
    role patient is refused with ForbiddenError and writes nothing.  The
    handlers hold no transition table beyond that: an update that is
    accepted writes the status its changes carry, and a cancel by the
    appointment's patient, its doctor or an admin sets the status to
    cancelled. *)
Theorem terminal_status_unguarded
        (actor : req_user) (appointmentId : Z) (updates : update_body)
        (db : Db) (appointment : appointments_row) (doctor_user_id : Z)
        (rest : list (appointments_row * Z)) :
  appointmentWithDoctor appointmentId db
  = (appointment, doctor_user_id) :: rest ->
  terminal (a_status appointment) ->
  (role_of actor = patient ->
   exists m, updateAppointment actor appointmentId updates db
             = (Throw (ForbiddenError m), db))
  /\ (forall s r db',
        ub_status updates = Some s ->
        updateAppointment actor appointmentId updates db = (Ok r, db') ->
        (exists row,
            r = Sent 200 (mkAppointmentJson "Appointment updated successfully"
                                            row)
            /\ a_status row = s)
        /\ (forall a, In a (appointments db') -> a_id a = appointmentId ->
                      a_status a = s))
  /\ (canCancel actor appointment doctor_user_id = true ->
      exists db',
        cancelAppointment actor appointmentId db =
        (Ok (Sent 200 (mkCancelJson "Appointment cancelled successfully"
                                    appointmentId)), db')
        /\ (forall a, In a (appointments db') -> a_id a = appointmentId ->
                      a_status a = cancelled)).
Proof.
  intros Hfound Hterminal. split; [|split].
  - intros Hrole.
    apply (patient_violation_forbidden actor appointmentId updates db
             appointment doctor_user_id rest Hfound Hrole).
    intros [_ [Hst _]]. rewrite Hst in Hterminal.
    destruct Hterminal as [H|[H|H]]; discriminate.
  - intros s r db' Hs Hok.
    destruct (updateAppointment_success _ _ _ _ _ _ Hok)
      as [a0 [du0 [rest0 [row [_ [_ [_ [Htable [Hr Hrow]]]]]]]]].
    split.
    + exists row. split; [assumption|].
      apply filter_In in Hrow. destruct Hrow as [Hrow Hid].
      apply Z.eqb_eq in Hid. rewrite Htable in Hrow.
      now apply (assigned_status appointmentId updates s (appointments db)).
    + intros a Ha Hid. rewrite Htable in Ha.
      now apply (assigned_status appointmentId updates s (appointments db)).
  - intros Hcan.
    unfold cancelAppointment, bind, query, throw, ret, execute.
    rewrite Hfound, Hcan. cbn [negb]. eexists. split; [reflexivity|].
    cbn [appointments set_appointments]. intros a Ha Hid.
    apply in_map_iff in Ha. destruct Ha as [a0 [Ha0 _]].
    destruct (a_id a0 =? appointmentId)%Z eqn:E.
    + now subst a.
    + subst a. apply Z.eqb_neq in E. contradiction.
Qed.

(** The specification has terminal states accept no further transition.
    The exam of Jane is completed; her cancel call turns it to
    cancelled, and an admin's update turns it back to scheduled. *)
Lemma completed_exam_changes_status :
  terminal (a_status wellness)
  /\ cancelAppointment (as_user jane) 3 busy =
     (Ok (Sent 200 (mkCancelJson "Appointment cancelled successfully" 3)),
      set_appointments [checkup; follow_up; with_status cancelled wellness]
                       busy)
  /\ updateAppointment (as_user administrator) 3 reopen busy =
     (Ok (Sent 200 (mkAppointmentJson "Appointment updated successfully"
                      (with_status scheduled wellness))),
      set_appointments [checkup; follow_up; with_status scheduled wellness]
                       busy).
Proof.
  split; [left; reflexivity|]. split; vm_compute; reflexivity.
Qed.

Lemma terminal_status_on_the_exam :
  (exists m, updateAppointment (as_user jane) 3 reopen busy
             = (Throw (ForbiddenError m), busy))
  /\ (exists db',
        cancelAppointment (as_user jane) 3 busy =
        (Ok (Sent 200 (mkCancelJson "Appointment cancelled successfully" 3)),
         db')
        /\ (forall a, In a (appointments db') -> a_id a = 3%Z ->
                      a_status a = cancelled)).
Proof.
  destruct (terminal_status_unguarded (as_user jane) 3 reopen busy wellness 5
              [] eq_refl (or_introl eq_refl)) as [Hpatient [_ Hcancel]].
  split; [apply Hpatient; reflexivity|apply Hcancel; reflexivity].
Defined.

(** ** Replacing the availability windows *)

Lemma set_doctor_availability_twice (l l' : list doctor_availability_row)
      (db : Db) :
  set_doctor_availability l (set_doctor_availability l' db)
  = set_doctor_availability l db.
Proof. reflexivity. Qed.

Lemma insertWindows_accepted (doctorId : Z) (windows : list window) :
  forall db,
    forallb accepted windows = true ->
    insertWindows doctorId windows db =
    (Ok tt,
     set_doctor_availability
       (doctor_availability db ++ map (row_of doctorId) windows) db).
Proof.
  induction windows as [|w windows IH]; intros db Hall.
  - cbn. rewrite app_nil_r. now destruct db.
  - cbn [forallb] in Hall. apply andb_true_iff in Hall.
    destruct Hall as [Hw Hall]. cbn [insertWindows map].
    unfold accepted in Hw. unfold row_of at 1.
    destruct (w_dayOfWeek w) as [day|]; [|discriminate].
    destruct (w_startTime w) as [startTime|]; [|discriminate].
    destruct (w_endTime w) as [endTime|]; [|discriminate].
    apply andb_true_iff in Hw. destruct Hw as [Hday Henum].
    apply negb_true_iff in Hday. rewrite Hday, Henum. cbn [negb].
    unfold bind, execute. rewrite (IH _ Hall).
    cbn [doctor_availability set_doctor_availability or_default].
    rewrite set_doctor_availability_twice, <- app_assoc. reflexivity.
Qed.

Lemma insertWindows_rejected (doctorId : Z) (windows : list window) :
  forall db,
    forallb accepted windows = false ->
    exists err db', insertWindows doctorId windows db = (Throw err, db').
Proof.
  induction windows as [|w windows IH]; intros db Hsome; [discriminate|].
  cbn [forallb] in Hsome. cbn [insertWindows].
  destruct (accepted w) eqn:Hw.
  - cbn in Hsome. unfold accepted in Hw.
    destruct (w_dayOfWeek w) as [day|]; [|discriminate].
    destruct (w_startTime w) as [startTime|]; [|discriminate].
    destruct (w_endTime w) as [endTime|]; [|discriminate].
    apply andb_true_iff in Hw. destruct Hw as [Hday Henum].
    apply negb_true_iff in Hday. rewrite Hday, Henum. cbn [negb].
    unfold bind, execute.
    match goal with
    | |- context [insertWindows doctorId windows ?db1] =>
        destruct (IH db1 Hsome) as [err [db' Hthrow]]
    end.
    rewrite Hthrow. eauto.
  - unfold accepted in Hw.
    destruct (w_dayOfWeek w) as [day|]; [|unfold throw; eauto].
    destruct (w_startTime w) as [startTime|]; [|unfold throw; eauto].
    destruct (w_endTime w) as [endTime|]; [|unfold throw; eauto].
    destruct (day =? "")%string; [unfold throw; eauto|].
    cbn [negb andb] in Hw. rewrite Hw. cbn [negb]. unfold throw. eauto.
Qed.

(** C8, as the handler has it.  Of each submitted window the handler checks
    only that dayOfWeek, startTime and endTime are present (the column
    takes one of the seven day names); start and end are not compared.  The
    doctor's windows are replaced as a whole: when every window passes, the
    stored set is the other doctors' rows followed by the submitted windows;
    when one does not, the call throws and the table is as before. *)
Theorem availability_replaced_as_a_whole
        (caller : req_user) (windows : list window) (db : Db)
        (doc : doctors_row) (others : list doctors_row) :
  filter (fun d => (d_user_id d =? id caller)%Z) (doctors db) = doc :: others ->
  (forallb accepted windows = true ->
   setAvailability caller (Some windows) db =
   (Ok (Sent 200 "Doctor availability updated successfully"),
    set_doctor_availability
      (filter (fun da => negb (da_doctor_id da =? d_id doc)%Z)
              (doctor_availability db)
       ++ map (row_of (d_id doc)) windows) db))
  /\ (forallb accepted windows = false ->
      exists err, setAvailability caller (Some windows) db = (Throw err, db))
  /\ (forall day startTime endTime isActive,
        day <> "" -> In (toLowerCase day) day_of_week_enum ->
        accepted (mkWindow (Some day) (Some startTime) (Some endTime)
                           isActive) = true).
Proof.
  intros Hdoctor. split; [|split].
  - intros Hall. unfold setAvailability, bind, query, transaction, ret, execute.
    rewrite Hdoctor, (insertWindows_accepted _ _ _ Hall).
    cbn [doctor_availability set_doctor_availability].
    now rewrite set_doctor_availability_twice.
  - intros Hsome.
    unfold setAvailability, bind, query, transaction, ret, execute.
    rewrite Hdoctor.
    match goal with
    | |- context [insertWindows (d_id doc) windows ?db1] =>
        destruct (insertWindows_rejected (d_id doc) windows db1 Hsome)
          as [err [db' Hthrow]]
    end.
    rewrite Hthrow. eauto.
  - intros day startTime endTime isActive Hday Henum. unfold accepted.
    cbn [w_dayOfWeek w_startTime w_endTime].
    apply String.eqb_neq in Hday. rewrite Hday.
    apply includes_In in Henum. now rewrite Henum.
Qed.

(** The specification requires start < end of every window, with a
    ValidationError otherwise.  Sarah submits a Monday window from 17:00
    to 09:00; it is accepted and becomes her stored availability. *)
Lemma backwards_window_is_stored :
  ~ (seventeen < nine)%Z
  /\ setAvailability (as_user sarah) (Some [backwards]) opening =
     (Ok (Sent 200 "Doctor availability updated successfully"),
      set_doctor_availability [mkAvailability 1 "monday" seventeen nine true]
                              opening).
Proof.
  split; [unfold seventeen, nine; lia|]. vm_compute. reflexivity.
Qed.

Lemma availability_replaced_for_sarah :
  setAvailability (as_user sarah) (Some [backwards]) opening =
  (Ok (Sent 200 "Doctor availability updated successfully"),
   set_doctor_availability [mkAvailability 1 "monday" seventeen nine true]
                           opening)
  /\ (exists err, setAvailability (as_user sarah)
                    (Some [backwards; open_ended]) opening
                  = (Throw err, opening)).
Proof.
  destruct (availability_replaced_as_a_whole (as_user sarah) [backwards]
              opening cardiology [] eq_refl) as [Hgood _].
  destruct (availability_replaced_as_a_whole (as_user sarah)
              [backwards; open_ended] opening cardiology [] eq_refl)
    as [_ [Hbad _]].
  split; [exact (Hgood eq_refl)|exact (Hbad eq_refl)].
Defined.

(** ** Who books, and for whom *)

Lemma createAppointment_success (e : env) (caller : req_user)
      (b : create_body) (db db' : Db) (r : reply appointment_json) :
  createAppointment e caller b db = (Ok r, db') ->
  exists row,
    r = Sent 201 (mkAppointmentJson "Appointment created successfully" row)
    /\ a_patient_id row = id caller
    /\ a_status row = scheduled
    /\ appointments db' = (appointments db ++ [row])%list.
Proof.
  unfold createAppointment, transaction, bind, query, throw, ret.
  destruct (availableDoctors _ db) as [|doc others]; [discriminate|].
  destruct (conflictsOnCreate _ _ _ db); [|discriminate].
  destruct (type_of_string (cb_type b)) as [ty|]; [|discriminate].
  unfold insertAppointment.
  destruct (_ || _); [discriminate|].
  destruct (duplicates_key _ _); [discriminate|].
  intros [= <- <-]. eexists. repeat split.
Qed.

Lemma authorize_patient_only (caller : req_user) :
  authorizeRoles ["patient"] (Some caller) = Next tt ->
  role_of caller = patient.
Proof.
  unfold authorizeRoles, includes.
  destruct (role_of caller); cbn; (reflexivity || discriminate).
Qed.

(** C9.  Only an actor with role patient gets past the create route's
    role check (anyone else is answered 403 and nothing is written), and
    every appointment the route creates has the authenticated caller's
    account id as its patient: the keys of the request body, whatever they
    are, play no part in it. *)
Theorem create_books_for_the_caller
        {V : Validators} (e : env) (authHeader : option (list Jwt.token))
        (b : create_body) (db : Db) :
  (forall caller,
      authenticateToken e db authHeader = Next caller ->
      role_of caller <> patient ->
      POST_appointments e authHeader b db =
      (Ok (Refused (mkFailure 403 "Insufficient permissions"
                              "INSUFFICIENT_PERMISSIONS")), db))
  /\ (forall status r db',
        POST_appointments e authHeader b db = (Ok (Sent status r), db') ->
        exists caller,
          authenticateToken e db authHeader = Next caller
          /\ role_of caller = patient
          /\ a_patient_id (aj_appointment r) = id caller
          /\ appointments db' = (appointments db ++ [aj_appointment r])%list)
  /\ (forall extra,
        POST_appointments e authHeader
          (mkCreateBody (cb_doctorId b) (cb_appointmentDate b)
                        (cb_appointmentTime b) (cb_durationMinutes b)
                        (cb_type b) (cb_reasonForVisit b) extra) db
        = POST_appointments e authHeader b db).
Proof.
  split; [|split].
  - intros caller Hauth Hrole. unfold POST_appointments. rewrite Hauth.
    unfold authorizeRoles, includes.
    destruct (role_of caller); cbn; (reflexivity || contradiction).
  - intros status r db'. unfold POST_appointments.
    destruct (authenticateToken e db authHeader) as [caller|f];
      [|discriminate].
    destruct (authorizeRoles ["patient"] (Some caller)) as [[]|f] eqn:Hrole;
      [|discriminate].
    apply authorize_patient_only in Hrole.
    destruct (createAppointmentValidation e b) as [b'|f]; [|discriminate].
    intros Hok. apply createAppointment_success in Hok.
    destruct Hok as [row [[= -> ->] [Hpatient [_ Htable]]]].
    exists caller. now repeat split.
  - intros extra. unfold POST_appointments.
    destruct (authenticateToken e db authHeader) as [caller|f];
      [|reflexivity].
    destruct (authorizeRoles ["patient"] (Some caller)); [|reflexivity].
    unfold createAppointmentValidation. cbn [cb_doctorId cb_appointmentDate
      cb_appointmentTime cb_durationMinutes cb_type cb_reasonForVisit
      cb_other].
    match goal with
    | |- context [handleValidationErrors ?errors _] => destruct errors
    end; reflexivity.
Qed.

Lemma booking_as_sarah_and_as_john :
  POST_appointments morning (bearer sarahs_access) five_past_ten opening =
  (Ok (Refused (mkFailure 403 "Insufficient permissions"
                          "INSUFFICIENT_PERMISSIONS")), opening)
  /\ POST_appointments morning (bearer (accessToken johns_tokens))
       five_past_ten opening =
     (Ok (Sent 201 (mkAppointmentJson "Appointment created successfully"
                                      short_visit)), squeezed)
  /\ a_patient_id short_visit = id (as_user john).
Proof.
  destruct (create_books_for_the_caller morning (bearer sarahs_access)
              five_past_ten opening) as [Hrole _].
  destruct (create_books_for_the_caller morning
              (bearer (accessToken johns_tokens)) five_past_ten opening)
    as [_ [Hcreated _]].
  assert (Hjohn : POST_appointments morning (bearer (accessToken johns_tokens))
                    five_past_ten opening =
                  (Ok (Sent 201 (mkAppointmentJson
                                   "Appointment created successfully"
                                   short_visit)), squeezed))
    by (vm_compute; reflexivity).
  split; [|split].
  - apply (Hrole (as_user sarah)); [reflexivity|discriminate].
  - exact Hjohn.
  - destruct (Hcreated _ _ _ Hjohn) as [caller [Hauth [_ [Hpatient _]]]].
    injection Hauth as <-. exact Hpatient.
Defined.

(** ** Which roles registration hands out *)

Lemma handleValidationErrors_refuses {A : Type}
      (errors : list (string * string)) (req : A) (entry : string * string) :
  In entry errors ->
  handleValidationErrors errors req =
  Answer (mkFailureWith 400 "Validation failed" "" errors).
Proof. destruct errors; [contradiction|reflexivity]. Qed.

Lemma isIn_patient_doctor (v : option string) :
  isIn ["patient"; "doctor"] v = true <->
  v = Some "patient" \/ v = Some "doctor".
Proof.
  unfold isIn. rewrite includes_In. split.
  - destruct v as [s|]; cbn.
    + intros [<-|[<-|[]]]; auto.
    + intros [H|[H|[]]]; discriminate.
  - intros [->| ->]; cbn; auto.
Qed.

Lemma registerValidation_passes {V : Validators} (b b' : register_body) :
  registerValidation b = Next b' ->
  rb_role b' = rb_role b /\ isIn ["patient"; "doctor"] (rb_role b) = true.
Proof.
  unfold registerValidation.
  match goal with
  | |- handleValidationErrors ?errors _ = _ -> _ =>
      destruct errors as [|entry entries] eqn:Herrors
  end; [|discriminate].
  intros [= <-]. split; [reflexivity|].
  repeat (apply app_eq_nil in Herrors; destruct Herrors as [? Herrors]).
  match goal with
  | H : check "role" ?ok _ = [] |- _ => destruct ok; [reflexivity|discriminate]
  end.
Qed.

(** The handler adds at most one account, with the role of the body. *)
Lemma register_accounts (e : env) (b : register_body) (db db' : Db)
      (outcome : result (reply auth_json)) :
  register e b db = (outcome, db') ->
  users db' = users db
  \/ exists u r,
       users db' = (users db ++ [u])%list
       /\ u_role u = r
       /\ role_of_string (or_default (rb_role b) "") = Some r.
Proof.
  unfold register, transaction, bind, query, throw, ret, storeRefreshToken,
    execute.
  destruct (filter _ (users db)); [|intros [= _ <-]; now left].
  destruct (role_of_string (or_default (rb_role b) "")) as [r|];
    [|intros [= _ <-]; now left].
  destruct (or_default (rb_role b) "" =? "doctor")%string.
  - destruct (negb (truthy (rb_specialization b))
              || negb (truthy (rb_licenseNumber b)));
      [intros [= _ <-]; now left|].
    cbn [doctors set_users].
    destruct (filter _ (doctors db)); [|intros [= _ <-]; now left].
    intros [= _ <-]. right. eexists. exists r. cbn. repeat split.
  - intros [= _ <-]. right. eexists. exists r. cbn. repeat split.
Qed.

(** C10.  Registration only ever creates accounts with role patient or
    doctor: a request whose role is neither of the two (admin in
    particular) is answered 400 by the validation chain, with the role
    entry among the details, and no account is created; and whatever the
    request, the route leaves the accounts as they were or adds one account
    whose role is patient or doctor. *)
Theorem registration_roles
        {V : Validators} (e : env) (b : register_body) (db : Db) :
  (rb_role b <> Some "patient" -> rb_role b <> Some "doctor" ->
   exists details,
     POST_register e b db =
     (Ok (Refused (mkFailureWith 400 "Validation failed" "" details)), db)
     /\ In ("role", "Role must be either patient or doctor") details)
  /\ (forall outcome db',
         POST_register e b db = (outcome, db') ->
         users db' = users db
         \/ exists u,
              users db' = (users db ++ [u])%list
              /\ (u_role u = patient \/ u_role u = doctor)).
Proof.
  split.
  - intros Hpatient Hdoctor.
    assert (Hrole : isIn ["patient"; "doctor"] (rb_role b) = false).
    { destruct (isIn ["patient"; "doctor"] (rb_role b)) eqn:E;
        [|reflexivity].
      apply isIn_patient_doctor in E. tauto. }
    unfold POST_register, registerValidation. rewrite Hrole.
    match goal with
    | |- context [handleValidationErrors ?errors ?req] =>
        exists errors;
        assert (Hin : In ("role", "Role must be either patient or doctor")
                         errors)
    end.
    { do 5 (apply in_or_app; right). apply in_or_app. left. now left. }
    rewrite (handleValidationErrors_refuses _ _ _ Hin). now split.
  - intros outcome db'. unfold POST_register.
    destruct (registerValidation b) as [b'|f] eqn:Hvalid.
    + apply registerValidation_passes in Hvalid.
      destruct Hvalid as [Hsame Hrole]. rewrite <- Hsame in Hrole.
      apply isIn_patient_doctor in Hrole.
      intros Hreg. apply register_accounts in Hreg.
      destruct Hreg as [Hnone|[u [r [Hadd [Hur Hparse]]]]]; [now left|].
      right. exists u. split; [assumption|]. rewrite Hur.
      destruct Hrole as [Hr|Hr]; rewrite Hr in Hparse; cbn in Hparse;
        injection Hparse as <-; auto.
    + intros [= _ <-]. now left.
Qed.

Lemma registration_of_mallory_and_ann :
  (exists details,
      POST_register morning would_be_admin opening =
      (Ok (Refused (mkFailureWith 400 "Validation failed" "" details)),
       opening)
      /\ In ("role", "Role must be either patient or doctor") details)
  /\ users (snd (POST_register morning new_patient opening)) =
     (staff ++ [mkUser 6 "ann@example.com" (Bcrypt.hash "Sesame1234" 7)
                       patient "Ann" "Lee" true false])%list.
Proof.
  destruct (registration_roles morning would_be_admin opening) as [Hrole _].
  split.
  - apply Hrole; discriminate.
  - reflexivity.
Defined.

(* ------------------------------------------------------------------ *)
(** * Further properties of the handlers *)

(** ** The authentication middlewares *)

(** X1.  [authenticateToken] lets a request through exactly when the second
    part of the Authorization header is a token signed with the access
    secret, not yet expired, that names an account with an active row; the
    user it attaches is the first such row.  Every refusal is a 401 with
    code TOKEN_MISSING, INVALID_TOKEN or TOKEN_EXPIRED. *)
Theorem authenticate_lets_through
        (e : env) (db : Db) (authHeader : option (list Jwt.token)) :
  (forall u,
      authenticateToken e db authHeader = Next u <->
      exists parts p row rest,
        authHeader = Some parts
        /\ nth_error parts 1 = Some (Jwt.Signed Jwt.JWT_SECRET p)
        /\ (now e / 1000 < Jwt.exp p)%Z
        /\ filter (fun u => (u_id u =? Jwt.userId p)%Z && u_is_active u)
                  (users db) = row :: rest
        /\ u = mkReqUser (u_id row) (u_email row) (u_role row)
                         (u_first_name row) (u_last_name row))
  /\ (forall f,
         authenticateToken e db authHeader = Answer f ->
         f_status f = 401%Z
         /\ (f_code f = "TOKEN_MISSING" \/ f_code f = "INVALID_TOKEN"
             \/ f_code f = "TOKEN_EXPIRED")).
Proof.
  unfold authenticateToken. split.
  - intros u. split.
    + destruct authHeader as [parts|]; [|discriminate].
      destruct (nth_error parts 1) as [t|] eqn:Hnth; [|discriminate].
      destruct (Jwt.falsy t); [discriminate|].
      destruct t as [k p|s]; cbn [Jwt.verify]; [|discriminate].
      destruct k; cbn [Jwt.secret_eqb]; [|discriminate].
      destruct (Z.leb_spec (Jwt.exp p) (now e / 1000)); [discriminate|].
      destruct (filter _ (users db)) as [|row rest] eqn:Hrows; [discriminate|].
      intros [= <-]. exists parts, p, row, rest. repeat split; assumption.
    + intros [parts [p [row [rest [-> [-> [Hexp [Hrows ->]]]]]]]].
      cbn [Jwt.falsy Jwt.verify Jwt.secret_eqb].
      destruct (Z.leb_spec (Jwt.exp p) (now e / 1000)); [lia|].
      now rewrite Hrows.
  - intros f.
    destruct authHeader as [parts|]; [|intros [= <-]; cbn; auto].
    destruct (nth_error parts 1) as [t|]; [|intros [= <-]; cbn; auto].
    destruct (Jwt.falsy t); [intros [= <-]; cbn; auto|].
    destruct (Jwt.verify t Jwt.JWT_SECRET (now e)) as [decoded|err] eqn:Hv.
    + destruct (filter _ (users db)); [intros [= <-]; cbn; auto|discriminate].
    + destruct t as [k p|s]; cbn in Hv.
      * destruct (Jwt.secret_eqb k Jwt.JWT_SECRET).
        -- destruct (Jwt.exp p <=? now e / 1000)%Z; [|discriminate].
           injection Hv as <-. intros [= <-]. cbn. auto.
        -- injection Hv as <-. intros [= <-]. cbn. auto.
      * injection Hv as <-. intros [= <-]. cbn. auto.
Qed.

(** X2.  [optionalAuth] attaches a user exactly when [authenticateToken]
    would let the request through, and the same user; in every other case
    it attaches none. *)
Theorem optionalAuth_agrees
        (e : env) (db : Db) (authHeader : option (list Jwt.token))
        (u : req_user) :
  optionalAuth e db authHeader = Some u <->
  authenticateToken e db authHeader = Next u.
Proof.
  unfold optionalAuth, authenticateToken.
  destruct authHeader as [parts|]; [|split; discriminate].
  destruct (nth_error parts 1) as [t|]; [|split; discriminate].
  destruct (Jwt.falsy t); [split; discriminate|].
  destruct (Jwt.verify t Jwt.JWT_SECRET (now e)) as [decoded|err].
  - destruct (filter _ (users db)) as [|row rest]; [split; discriminate|].
    split; intros [= <-]; reflexivity.
  - destruct err; split; discriminate.
Qed.

(** ** Sessions: login, refresh, logout *)

Lemma validToken_some (t : Jwt.token) (rows : list refresh_tokens_row)
      (r : refresh_tokens_row) :
  In r rows ->
  Bcrypt.key_of_token (Bcrypt.d_of (rt_token_hash r))
  = Bcrypt.key_of_token t ->
  exists row, validToken t rows = Some row.
Proof.
  induction rows as [|x rows IH]; intros Hin Hmatch; [contradiction|]. cbn.
  destruct (Bcrypt.compare Bcrypt.key_of_token t (rt_token_hash x)) eqn:E;
    [eauto|].
  destruct Hin as [->|Hin]; [|now apply IH].
  apply compare_token in Hmatch. congruence.
Qed.

Lemma login_inversion (e : env) (email password : string) (db db' : Db)
      (r : reply auth_json) :
  login e email password db = (Ok r, db') ->
  exists u rest,
    filter (fun u => (u_email u =? email)%string) (users db) = u :: rest
    /\ u_is_active u = true
    /\ Bcrypt.key72 (Bcrypt.d_of (u_password_hash u)) = Bcrypt.key72 password
    /\ r = Sent 200
             (mkAuthJson "Login successful"
                (Some (mkUserJson (u_id u) (u_email u) (role_name (u_role u))
                                  (u_first_name u) (u_last_name u)))
                (generateTokens e (u_id u)))
    /\ db' = set_refresh_tokens
               (refresh_tokens db ++
                [mkRefreshToken (insertId rt_id (refresh_tokens db)) (u_id u)
                   (Bcrypt.hash (refreshToken (generateTokens e (u_id u)))
                                (salt e))
                   (now e + 7 * 24 * 60 * 60 * 1000) false]) db.
Proof.
  unfold login, bind, query, throw, ret, storeRefreshToken, execute.
  destruct (filter _ (users db)) as [|u rest]; [discriminate|].
  destruct (u_is_active u) eqn:Hactive; cbn [negb]; [|discriminate].
  destruct (Bcrypt.compare Bcrypt.key72 password (u_password_hash u)) eqn:Hpw;
    cbn [negb]; [|discriminate].
  intros [= <- <-]. exists u, rest. apply compare_password in Hpw.
  split; [reflexivity|]. split; [exact Hactive|]. split; [exact Hpw|].
  split; reflexivity.
Qed.

(** Other key bytes than those of the stored hash are refused. *)
Lemma login_wrong_password (e : env) (email password : string) (db : Db)
      (u : users_row) (rest : list users_row) :
  filter (fun u => (u_email u =? email)%string) (users db) = u :: rest ->
  u_is_active u = true ->
  Bcrypt.key72 (Bcrypt.d_of (u_password_hash u)) <> Bcrypt.key72 password ->
  login e email password db
  = (Throw (UnauthorizedError "Invalid email or password"), db).
Proof.
  intros Hfound Hactive Hwrong.
  unfold login, bind, query, throw, ret, storeRefreshToken, execute.
  rewrite Hfound, Hactive. cbn [negb].
  destruct (Bcrypt.compare Bcrypt.key72 password (u_password_hash u)) eqn:E;
    [|reflexivity].
  apply compare_password in E. contradiction.
Qed.

(** X3.  A login that is refused writes nothing and throws one of two
    UnauthorizedErrors.  An unknown email and, on an active account, a
    password whose 72 key bytes are not those of the stored hash are
    answered alike ("Invalid email or password"); among passwords of at
    most 71 bytes without a NUL that is every password but the stored one.
    A deactivated account is reported as such whatever the password. *)
Theorem login_refusals
        (e : env) (email password : string) (db : Db) :
  (forall err db',
      login e email password db = (Throw err, db') ->
      db' = db
      /\ (err = UnauthorizedError "Invalid email or password"
          \/ err = UnauthorizedError "Account is deactivated"))
  /\ ((forall u, In u (users db) -> u_email u <> email) ->
      login e email password db
      = (Throw (UnauthorizedError "Invalid email or password"), db))
  /\ (forall u rest,
         filter (fun u => (u_email u =? email)%string) (users db) = u :: rest ->
         (u_is_active u = true ->
          Bcrypt.key72 (Bcrypt.d_of (u_password_hash u))
          <> Bcrypt.key72 password ->
          login e email password db
          = (Throw (UnauthorizedError "Invalid email or password"), db))
         /\ (u_is_active u = true ->
             nul_free (Bcrypt.d_of (u_password_hash u)) ->
             nul_free password ->
             (String.length (Bcrypt.d_of (u_password_hash u)) <= 71)%nat ->
             (String.length password <= 71)%nat ->
             Bcrypt.d_of (u_password_hash u) <> password ->
             login e email password db
             = (Throw (UnauthorizedError "Invalid email or password"), db))
         /\ (u_is_active u = false ->
             login e email password db
             = (Throw (UnauthorizedError "Account is deactivated"), db))).
Proof.
  split; [|split].
  - unfold login, bind, query, throw, ret, storeRefreshToken, execute.
    intros err db'.
    destruct (filter _ (users db)) as [|u rest]; [intros [= <- <-]; auto|].
    destruct (u_is_active u); cbn [negb]; [|intros [= <- <-]; auto].
    destruct (Bcrypt.compare _ _ _); cbn [negb];
      [discriminate|intros [= <- <-]; auto].
  - unfold login, bind, query, throw, ret, storeRefreshToken, execute.
    intros Hnone.
    destruct (filter _ (users db)) as [|u rest] eqn:Hrows; [reflexivity|].
    assert (Hu : In u (filter (fun u => (u_email u =? email)%string)
                              (users db))) by (rewrite Hrows; now left).
    apply filter_In in Hu. destruct Hu as [Hu Hemail].
    apply String.eqb_eq in Hemail. now destruct (Hnone u Hu).
  - intros u rest Hfound. split; [|split].
    + now apply login_wrong_password with (rest := rest).
    + intros Hactive Hfree Hfree' Hlen Hlen' Hother.
      apply login_wrong_password with (u := u) (rest := rest);
        [assumption|assumption|].
      intros Hkey. apply Hother. now apply key72_short.
    + intros Hinactive.
      unfold login, bind, query, throw, ret, storeRefreshToken, execute.
      now rewrite Hfound, Hinactive.
Qed.

Lemma login_refusals_at_opening :
  login morning "nobody@example.com" "Demo1234" opening
  = (Throw (UnauthorizedError "Invalid email or password"), opening)
  /\ login morning "patient@demo.com" "demo1234" opening
     = (Throw (UnauthorizedError "Invalid email or password"), opening).
Proof.
  destruct (login_refusals morning "nobody@example.com" "Demo1234" opening)
    as [_ [Hunknown _]].
  destruct (login_refusals morning "patient@demo.com" "demo1234" opening)
    as [_ [_ Hknown]].
  split.
  - apply Hunknown. intros u Hu. cbn in Hu.
    destruct Hu as [<-|[<-|[<-|[<-|[]]]]]; discriminate.
  - destruct (Hknown john [] eq_refl) as [Hwrong _].
    apply Hwrong; [reflexivity|]. vm_compute. discriminate.
Defined.

(** What a successful refresh went through, and what it wrote. *)
Lemma refresh_inversion (e : env) (t : Jwt.token) (db db' : Db)
      (r : reply auth_json) :
  refresh e (Some t) db = (Ok r, db') ->
  exists p valid,
    t = Jwt.Signed Jwt.JWT_REFRESH_SECRET p
    /\ (now e / 1000 < Jwt.exp p)%Z
    /\ In valid (refresh_tokens db)
    /\ redeemable e t (Jwt.userId p) valid
    /\ r = Sent 200 (mkAuthJson "Tokens refreshed successfully" None
                                (generateTokens e (Jwt.userId p)))
    /\ db' = set_refresh_tokens
               (revoke (rt_id valid) (refresh_tokens db) ++
                [mkRefreshToken
                   (insertId rt_id (revoke (rt_id valid) (refresh_tokens db)))
                   (Jwt.userId p)
                   (Bcrypt.hash
                      (refreshToken (generateTokens e (Jwt.userId p)))
                      (salt e))
                   (now e + 7 * 24 * 60 * 60 * 1000) false]) db.
Proof.
  unfold refresh, bind, lift, query, throw, ret, storeRefreshToken, execute.
  destruct (Jwt.falsy t); [discriminate|].
  destruct t as [k p|s]; cbn [Jwt.verify]; [|discriminate].
  destruct k; cbn [Jwt.secret_eqb]; [discriminate|].
  destruct (Z.leb_spec (Jwt.exp p) (now e / 1000)); [discriminate|].
  destruct (validToken _ _) as [valid|] eqn:Hvalid; [|discriminate].
  intros [= <- <-]. apply validToken_found in Hvalid.
  destruct Hvalid as [Hin Hmatch]. apply filter_In in Hin.
  destruct Hin as [Hin Hlive].
  apply andb_true_iff in Hlive. destruct Hlive as [Hlive Hrev].
  apply andb_true_iff in Hlive. destruct Hlive as [Huser Hexp].
  apply Z.eqb_eq in Huser. apply Z.ltb_lt in Hexp.
  apply negb_true_iff in Hrev.
  exists p, valid. cbn [refresh_tokens set_refresh_tokens].
  repeat split; assumption.
Qed.

Lemma refresh_progress (e : env) (p : Jwt.payload) (db : Db)
      (row : refresh_tokens_row) :
  (now e / 1000 < Jwt.exp p)%Z ->
  In row (refresh_tokens db) ->
  redeemable e (Jwt.Signed Jwt.JWT_REFRESH_SECRET p) (Jwt.userId p) row ->
  exists db',
    refresh e (Some (Jwt.Signed Jwt.JWT_REFRESH_SECRET p)) db =
    (Ok (Sent 200 (mkAuthJson "Tokens refreshed successfully" None
                              (generateTokens e (Jwt.userId p)))), db').
Proof.
  intros Hexp Hin [Huser [Hlive [Hrev Hmatch]]].
  unfold refresh, bind, lift, query, throw, ret, storeRefreshToken, execute.
  cbn [Jwt.falsy Jwt.verify Jwt.secret_eqb].
  destruct (Z.leb_spec (Jwt.exp p) (now e / 1000)); [lia|].
  destruct (validToken_some (Jwt.Signed Jwt.JWT_REFRESH_SECRET p)
              (filter (fun r => (rt_user_id r =? Jwt.userId p)%Z
                                && (now e <? rt_expires_at r)%Z
                                && negb (rt_is_revoked r))
                      (refresh_tokens db)) row) as [valid Hvalid].
  - apply filter_In. split; [assumption|].
    rewrite Huser, Hrev, Z.eqb_refl. cbn.
    rewrite andb_true_r. now apply Z.ltb_lt.
  - assumption.
  - rewrite Hvalid. eauto.
Qed.

(** X4.  A refresh token is redeemed exactly when it is signed with the
    refresh secret, not yet expired, and some stored record of the account
    it names is not revoked, has not reached its own expiry and holds the
    digest of a token with the same key bytes: [bcrypt.compare] reads the
    first 72 bytes of the token, which end within the digits of [iat], so
    the record need not have been stored for this very token.  A token
    signed with the access secret is never redeemed. *)
Theorem refresh_redeems_exactly
        (e : env) (t : Jwt.token) (db : Db) :
  ((exists r db', refresh e (Some t) db = (Ok r, db')) <->
   (exists p row,
       t = Jwt.Signed Jwt.JWT_REFRESH_SECRET p
       /\ (now e / 1000 < Jwt.exp p)%Z
       /\ In row (refresh_tokens db)
       /\ redeemable e t (Jwt.userId p) row))
  /\ (forall p, t = Jwt.Signed Jwt.JWT_SECRET p ->
                refresh e (Some t) db = (Throw JsonWebTokenError, db)).
Proof.
  split; [split|].
  - intros [r [db' Hok]]. apply refresh_inversion in Hok.
    destruct Hok as [p [valid [Ht [Hexp [Hin [Hred _]]]]]].
    exists p, valid. tauto.
  - intros [p [row [-> [Hexp [Hin Hred]]]]].
    destruct (refresh_progress e p db row Hexp Hin Hred) as [db' Hok]. eauto.
  - intros p ->. reflexivity.
Qed.

(** X5.  Round trip: the refresh token a login issues is redeemed by
    [refresh] at any later clock that lies within the token's lifetime and
    within seven days of the login. *)
Theorem login_then_refresh
        (e e' : env) (email password : string) (db db' : Db)
        (user_json : option user_json) (issued : tokens) :
  login e email password db
  = (Ok (Sent 200 (mkAuthJson "Login successful" user_json issued)), db') ->
  (now e' < now e + 7 * 24 * 60 * 60 * 1000)%Z ->
  (now e' / 1000
   < now e / 1000
     + or_default (JWT_REFRESH_EXPIRES_IN e) default_JWT_REFRESH_EXPIRES_IN)%Z ->
  exists fresh db'',
    refresh e' (Some (refreshToken issued)) db'
    = (Ok (Sent 200 (mkAuthJson "Tokens refreshed successfully" None fresh)),
       db'').
Proof.
  intros Hlogin Hrecord Htoken. apply login_inversion in Hlogin.
  destruct Hlogin as [u [rest [_ [_ [_ [Hr ->]]]]]].
  injection Hr as _ ->. cbn [generateTokens refreshToken].
  unfold Jwt.sign. cbv zeta.
  match goal with
  | |- context [Jwt.Signed Jwt.JWT_REFRESH_SECRET ?p] =>
      destruct (refresh_progress e' p
                  (set_refresh_tokens
                     (refresh_tokens db ++
                      [mkRefreshToken (insertId rt_id (refresh_tokens db))
                         (u_id u)
                         (Bcrypt.hash (Jwt.Signed Jwt.JWT_REFRESH_SECRET p)
                                      (salt e))
                         (now e + 7 * 24 * 60 * 60 * 1000) false]) db)
                  (mkRefreshToken (insertId rt_id (refresh_tokens db))
                     (u_id u)
                     (Bcrypt.hash (Jwt.Signed Jwt.JWT_REFRESH_SECRET p)
                                  (salt e))
                     (now e + 7 * 24 * 60 * 60 * 1000) false))
        as [db'' Hok]
  end.
  - cbn [Jwt.exp]. lia.
  - cbn [refresh_tokens set_refresh_tokens]. apply in_or_app. right. now left.
  - repeat split. exact Hrecord.
  - eauto.
Qed.

Lemma john_refreshes_after_an_hour :
  exists fresh db'',
    refresh an_hour_later (Some (refreshToken johns_tokens)) signed_in
    = (Ok (Sent 200 (mkAuthJson "Tokens refreshed successfully" None fresh)),
       db'').
Proof.
  apply (login_then_refresh morning an_hour_later "patient@demo.com"
           "Demo1234" opening signed_in
           (Some (mkUserJson 2 "patient@demo.com" "patient" "John" "Doe"))
           johns_tokens).
  - reflexivity.
  - vm_compute. reflexivity.
  - vm_compute. reflexivity.
Defined.

Lemma insertId_above {A : Type} (key : A -> Z) (l : list A) (a : A) :
  In a l -> (key a < insertId key l)%Z.
Proof.
  unfold insertId. induction l as [|x l IH]; [contradiction|].
  cbn [fold_right]. intros [->|Hin]; [lia|]. specialize (IH Hin). lia.
Qed.

Lemma keyed_after_insert {A : Type} (key : A -> Z) (l : list A) (x : A) :
  NoDup (map key l) -> key x = insertId key l ->
  NoDup (map key (l ++ [x])).
Proof.
  intros Hkeyed Hfresh. rewrite map_app. apply NoDup_app.
  - assumption.
  - repeat constructor. intros [].
  - intros k Hk [<-|[]]. apply in_map_iff in Hk.
    destruct Hk as [a [Hka Ha]]. pose proof (insertId_above key l a Ha). lia.
Qed.

Lemma revoke_ids (rid : Z) (rows : list refresh_tokens_row) :
  map rt_id (revoke rid rows) = map rt_id rows.
Proof.
  unfold revoke. rewrite map_map. apply map_ext. intros r.
  now destruct (rt_id r =? rid)%Z.
Qed.

Lemma revoke_elsewhere (rid : Z) (rows : list refresh_tokens_row) :
  (forall r, In r rows -> rt_id r <> rid) -> revoke rid rows = rows.
Proof.
  intros Hnone. unfold revoke. rewrite <- (map_id rows) at 2.
  apply map_ext_in. intros r Hr. specialize (Hnone r Hr).
  apply Z.eqb_neq in Hnone. now rewrite Hnone.
Qed.

(** Revoking the record of one account leaves the live records of every
    other account as they were. *)
Lemma revoke_live_other (uid : Z) (valid : refresh_tokens_row)
      (rows : list refresh_tokens_row) :
  NoDup (map rt_id rows) -> In valid rows -> rt_user_id valid <> uid ->
  live uid (revoke (rt_id valid) rows) = live uid rows.
Proof.
  intros Hkeyed Hvalid Hother. unfold live, revoke.
  rewrite filter_map_swap.
  assert (Hsame : forall r, In r rows ->
            ((rt_user_id
                (if (rt_id r =? rt_id valid)%Z
                 then mkRefreshToken (rt_id r) (rt_user_id r)
                        (rt_token_hash r) (rt_expires_at r) true
                 else r) =? uid)%Z
             && negb (rt_is_revoked
                        (if (rt_id r =? rt_id valid)%Z
                         then mkRefreshToken (rt_id r) (rt_user_id r)
                                (rt_token_hash r) (rt_expires_at r) true
                         else r)))
            = ((rt_user_id r =? uid)%Z && negb (rt_is_revoked r))).
  { intros r Hr. destruct (rt_id r =? rt_id valid)%Z eqn:E; [|reflexivity].
    apply Z.eqb_eq in E.
    assert (r = valid) by now apply (keyed_rows_equal rt_id rows).
    subst r. cbn. apply Z.eqb_neq in Hother. now rewrite Hother. }
  rewrite (filter_ext_in _ _ _ Hsame).
  rewrite <- (map_id (filter _ rows)) at 2. apply map_ext_in.
  intros r Hr. apply filter_In in Hr. destruct Hr as [Hr Hlive].
  destruct (rt_id r =? rt_id valid)%Z eqn:E; [|reflexivity].
  apply Z.eqb_eq in E.
  assert (r = valid) by now apply (keyed_rows_equal rt_id rows).
  subst r. apply andb_true_iff in Hlive. destruct Hlive as [Hu _].
  apply Z.eqb_eq in Hu. contradiction.
Qed.

(** Revoking a live record takes exactly one off the account's live
    records. *)
Lemma revoke_live_count (valid : refresh_tokens_row)
      (rows : list refresh_tokens_row) :
  NoDup (map rt_id rows) -> In valid rows -> rt_is_revoked valid = false ->
  S (List.length (live (rt_user_id valid) (revoke (rt_id valid) rows)))
  = List.length (live (rt_user_id valid) rows).
Proof.
  induction rows as [|x rows IH]; intros Hkeyed Hvalid Hlive; [contradiction|].
  cbn [map] in Hkeyed. inversion Hkeyed as [|k ks Hnotin Hrest]; subst.
  destruct Hvalid as [->|Hvalid].
  - unfold revoke. cbn [map]. rewrite Z.eqb_refl. fold (revoke (rt_id valid) rows).
    rewrite revoke_elsewhere.
    + unfold live. cbn [filter rt_user_id rt_is_revoked].
      rewrite Z.eqb_refl, Hlive. cbn [negb andb List.length].
      reflexivity.
    + intros r Hr Heq. apply Hnotin. rewrite <- Heq. now apply in_map.
  - assert (Hx : (rt_id x =? rt_id valid)%Z = false).
    { apply Z.eqb_neq. intros Heq. apply Hnotin. rewrite Heq.
      now apply in_map. }
    unfold revoke. cbn [map]. rewrite Hx. fold (revoke (rt_id valid) rows).
    unfold live. cbn [filter]. fold (live (rt_user_id valid)).
    specialize (IH Hrest Hvalid Hlive).
    destruct ((rt_user_id x =? rt_user_id valid)%Z && negb (rt_is_revoked x));
      cbn [List.length]; unfold live in *; lia.
Qed.

(** A refresh that is refused writes nothing. *)
Lemma refresh_refused_unchanged (e : env) (presented : option Jwt.token)
      (db db' : Db) (err : thrown) :
  refresh e presented db = (Throw err, db') -> db' = db.
Proof.
  unfold refresh, bind, lift, query, throw, ret, storeRefreshToken, execute.
  destruct presented as [t|]; [|now intros [= _ <-]].
  destruct (Jwt.falsy t); [now intros [= _ <-]|].
  destruct (Jwt.verify t Jwt.JWT_REFRESH_SECRET (now e));
    [|now intros [= _ <-]].
  destruct (validToken _ _); [discriminate|now intros [= _ <-]].
Qed.

(** With every record of an account revoked, no token of that account is
    redeemed. *)
Lemma refresh_refused_when_revoked (e : env) (p : Jwt.payload) (db : Db) :
  (forall row, In row (refresh_tokens db) ->
               rt_user_id row = Jwt.userId p -> rt_is_revoked row = true) ->
  exists err,
    refresh e (Some (Jwt.Signed Jwt.JWT_REFRESH_SECRET p)) db
    = (Throw err, db).
Proof.
  intros Hrevoked.
  destruct (refresh e (Some (Jwt.Signed Jwt.JWT_REFRESH_SECRET p)) db)
    as [[r|err] db'] eqn:Hrefresh.
  - exfalso. apply refresh_inversion in Hrefresh.
    destruct Hrefresh as [p' [valid [Hp [_ [Hin [Hred _]]]]]].
    injection Hp as <-. destruct Hred as [Huser [_ [Hlive _]]].
    rewrite (Hrevoked valid Hin Huser) in Hlive. discriminate.
  - exists err. now rewrite (refresh_refused_unchanged _ _ _ _ _ Hrefresh).
Qed.

Lemma revokeAll_revoked (uid : Z) (rows : list refresh_tokens_row)
      (row : refresh_tokens_row) :
  In row (revokeAll uid rows) -> rt_user_id row = uid ->
  rt_is_revoked row = true.
Proof.
  unfold revokeAll. intros Hin Huser. apply in_map_iff in Hin.
  destruct Hin as [r [Hr _]].
  destruct (rt_user_id r =? uid)%Z eqn:E.
  - now subst row.
  - subst row. apply Z.eqb_neq in E. contradiction.
Qed.

Lemma revokeAll_others (uid : Z) (rows : list refresh_tokens_row)
      (row : refresh_tokens_row) :
  rt_user_id row <> uid ->
  In row (revokeAll uid rows) <-> In row rows.
Proof.
  intros Hother. unfold revokeAll. rewrite in_map_iff. split.
  - intros [r [Hr Hin]]. destruct (rt_user_id r =? uid)%Z eqn:E.
    + subst row. apply Z.eqb_eq in E. cbn in Hother. contradiction.
    + now subst row.
  - intros Hin. exists row. split; [|assumption].
    apply Z.eqb_neq in Hother. now rewrite Hother.
Qed.

(** X6.  A successful refresh trades one stored record for another: the
    account's number of records that are not revoked is what it was, the
    records of every other account and all other tables are untouched, and
    the ids of the table stay distinct.  A refused refresh writes
    nothing. *)
Theorem refresh_trades_one_record
        (e : env) (t : Jwt.token) (db db' : Db) :
  refresh_tokens_keyed db ->
  (forall r,
      refresh e (Some t) db = (Ok r, db') ->
      exists p,
        t = Jwt.Signed Jwt.JWT_REFRESH_SECRET p
        /\ List.length (live (Jwt.userId p) (refresh_tokens db'))
           = List.length (live (Jwt.userId p) (refresh_tokens db))
        /\ (forall uid, uid <> Jwt.userId p ->
                        live uid (refresh_tokens db')
                        = live uid (refresh_tokens db))
        /\ refresh_tokens_keyed db'
        /\ users db' = users db /\ doctors db' = doctors db
        /\ doctor_availability db' = doctor_availability db
        /\ appointments db' = appointments db)
  /\ (forall err, refresh e (Some t) db = (Throw err, db') -> db' = db).
Proof.
  intros Hkeyed. split; [|intros err; apply refresh_refused_unchanged].
  intros r Hok. apply refresh_inversion in Hok.
  destruct Hok as [p [valid [Ht [_ [Hin [Hred [_ ->]]]]]]].
  destruct Hred as [Huser [_ [Hlive _]]].
  exists p. cbn [refresh_tokens set_refresh_tokens users doctors
                 doctor_availability appointments].
  split; [assumption|]. split; [|split; [|split]].
  - unfold live at 1. rewrite filter_app. cbn [filter rt_user_id rt_is_revoked].
    rewrite Z.eqb_refl. cbn [negb andb]. rewrite length_app. cbn [List.length].
    fold (live (Jwt.userId p) (revoke (rt_id valid) (refresh_tokens db))).
    rewrite <- Huser.
    rewrite <- (revoke_live_count valid (refresh_tokens db) Hkeyed Hin Hlive).
    lia.
  - intros uid Hother. unfold live at 1. rewrite filter_app.
    cbn [filter rt_user_id rt_is_revoked].
    assert (Hneq : (Jwt.userId p =? uid)%Z = false)
      by (apply Z.eqb_neq; congruence).
    rewrite Hneq. cbn [andb]. rewrite app_nil_r.
    fold (live uid (revoke (rt_id valid) (refresh_tokens db))).
    apply revoke_live_other; [assumption|assumption|congruence].
  - unfold refresh_tokens_keyed. cbn [refresh_tokens set_refresh_tokens].
    apply keyed_after_insert; [now rewrite revoke_ids|reflexivity].
  - repeat split.
Qed.

Lemma john_trades_one_record :
  List.length (live 2 (refresh_tokens
                         (snd (refresh an_hour_later
                                 (Some (refreshToken johns_tokens))
                                 signed_in))))
  = 1%nat.
Proof.
  destruct (refresh an_hour_later (Some (refreshToken johns_tokens))
                    signed_in) as [[r|err] db'] eqn:Hrefresh;
    [|vm_compute in Hrefresh; discriminate].
  assert (Hkeyed : refresh_tokens_keyed signed_in)
    by (repeat constructor; intros []).
  destruct (refresh_trades_one_record an_hour_later
              (refreshToken johns_tokens) signed_in db' Hkeyed) as [Hok _].
  destruct (Hok r Hrefresh) as [p [Hp [Hcount _]]].
  injection Hp as <-. cbn [snd]. etransitivity; [exact Hcount|]. reflexivity.
Defined.

(** X7.  Logout without a token (or with an empty one) revokes every
    record of the caller: afterwards no refresh token of that account is
    redeemed, whatever the clock; the records of other accounts are as they
    were. *)
Theorem logout_everywhere
        (caller : req_user) (db : Db) :
  logout caller None db = logout caller (Some (Jwt.Opaque "")) db
  /\ exists db',
      logout caller None db = (Ok (Sent 200 "Logout successful"), db')
      /\ (forall e p,
             Jwt.userId p = id caller ->
             exists err,
               refresh e (Some (Jwt.Signed Jwt.JWT_REFRESH_SECRET p)) db'
               = (Throw err, db'))
      /\ (forall row,
             rt_user_id row <> id caller ->
             In row (refresh_tokens db') <-> In row (refresh_tokens db)).
Proof.
  split; [reflexivity|]. eexists. split; [reflexivity|]. split.
  - intros e p Huser. apply refresh_refused_when_revoked.
    cbn [refresh_tokens set_refresh_tokens]. intros row Hrow Hu.
    apply (revokeAll_revoked (id caller) (refresh_tokens db)); congruence.
  - intros row Hother. cbn [refresh_tokens set_refresh_tokens].
    now apply revokeAll_others.
Qed.

Lemma john_logs_out_everywhere :
  exists err,
    refresh an_hour_later (Some (refreshToken johns_tokens))
            (snd (logout (as_user john) None signed_in))
    = (Throw err, snd (logout (as_user john) None signed_in)).
Proof.
  destruct (logout_everywhere (as_user john) signed_in)
    as [_ [db' [Hout [Hrefused _]]]].
  rewrite Hout. cbn [snd].
  apply (Hrefused an_hour_later (Jwt.mkPayload 2 1704949600 1705554400)).
  reflexivity.
Defined.

Lemma revoke_keeps (rid : Z) (rows : list refresh_tokens_row)
      (r : refresh_tokens_row) :
  In r rows -> rt_id r <> rid -> In r (revoke rid rows).
Proof.
  intros Hin Hother. unfold revoke. apply in_map_iff. exists r.
  split; [|assumption]. apply Z.eqb_neq in Hother. now rewrite Hother.
Qed.

(** X8.  Logout with a token always answers 200 and revokes at most one
    record: the first record of the caller that is not revoked and was
    computed from a token with the 72 key bytes of the one presented, which
    need not be the record of that token.  When the caller has no such
    record (the token is another account's, say) nothing changes; records
    of other accounts and records with other key bytes stay as they are. *)
Theorem logout_one_session
        (caller : req_user) (t : Jwt.token) (db : Db) :
  Jwt.falsy t = false ->
  refresh_tokens_keyed db ->
  exists db',
    logout caller (Some t) db = (Ok (Sent 200 "Logout successful"), db')
    /\ ((forall r, In r (live (id caller) (refresh_tokens db)) ->
                   Bcrypt.key_of_token (Bcrypt.d_of (rt_token_hash r))
                   <> Bcrypt.key_of_token t) ->
        db' = db)
    /\ ((exists r, In r (live (id caller) (refresh_tokens db))
                   /\ Bcrypt.key_of_token (Bcrypt.d_of (rt_token_hash r))
                      = Bcrypt.key_of_token t) ->
        S (List.length (live (id caller) (refresh_tokens db')))
        = List.length (live (id caller) (refresh_tokens db)))
    /\ (forall r,
           In r (refresh_tokens db) ->
           rt_user_id r <> id caller
           \/ Bcrypt.key_of_token (Bcrypt.d_of (rt_token_hash r))
              <> Bcrypt.key_of_token t ->
           In r (refresh_tokens db')).
Proof.
  intros Htruthy Hkeyed.
  unfold logout, bind, query, execute, ret. rewrite Htruthy.
  fold (live (id caller) (refresh_tokens db)).
  destruct (validToken t (live (id caller) (refresh_tokens db)))
    as [row|] eqn:Hloop.
  - eexists. split; [reflexivity|].
    apply validToken_found in Hloop. destruct Hloop as [Hrow Hmatch].
    unfold live in Hrow. apply filter_In in Hrow.
    destruct Hrow as [Hin Hlive]. apply andb_true_iff in Hlive.
    destruct Hlive as [Huser Hrev]. apply Z.eqb_eq in Huser.
    apply negb_true_iff in Hrev.
    cbn [refresh_tokens set_refresh_tokens]. split; [|split].
    + intros Hnone. exfalso. apply (Hnone row); [|assumption].
      unfold live. apply filter_In. split; [assumption|].
      apply andb_true_iff. split; [now apply Z.eqb_eq|now rewrite Hrev].
    + intros _. rewrite <- Huser. now apply revoke_live_count.
    + intros r Hr Hother. apply revoke_keeps; [assumption|].
      intros Hid.
      assert (r = row)
        by now apply (keyed_rows_equal rt_id (refresh_tokens db)).
      subst r. destruct Hother as [Hother|Hother]; contradiction.
  - exists db. split; [reflexivity|]. split; [reflexivity|]. split.
    + intros [r [Hr Hmatch]].
      destruct (validToken_some t _ r Hr Hmatch) as [row Hrow]. congruence.
    + intros r Hr _. assumption.
Qed.

Lemma john_logs_out_one_session :
  refresh_tokens (snd (logout (as_user john)
                              (Some (refreshToken johns_tokens)) signed_in))
  = revoke 1 (refresh_tokens signed_in)
  /\ map rt_is_revoked
       (refresh_tokens
          (snd (logout (as_user john)
                  (Some (refreshToken (generateTokens ten_seconds_later 2)))
                  (snd (login ten_seconds_later "patient@demo.com" "Demo1234"
                              signed_in)))))
     = [true; false]
  /\ snd (logout (as_user sarah) (Some (refreshToken johns_tokens)) signed_in)
     = signed_in.
Proof.
  assert (Hkeyed : refresh_tokens_keyed signed_in)
    by (repeat constructor; intros []).
  split; [reflexivity|]. split; [vm_compute; reflexivity|].
  destruct (logout_one_session (as_user sarah) (refreshToken johns_tokens)
              signed_in eq_refl Hkeyed) as [db' [Hout [Hnone _]]].
  rewrite Hout. cbn [snd]. apply Hnone. intros r [].
Defined.

Lemma changePassword_users_ids (uid : Z) (h : Bcrypt.digest string)
      (rows : list users_row) (u : users_row) :
  In u (map (fun u =>
               if (u_id u =? uid)%Z
               then mkUser (u_id u) (u_email u) h (u_role u)
                           (u_first_name u) (u_last_name u)
                           (u_is_active u) (u_email_verified u)
               else u) rows) ->
  u_id u = uid -> u_password_hash u = h.
Proof.
  intros Hin Hid. apply in_map_iff in Hin. destruct Hin as [x [Hx _]].
  destruct (u_id x =? uid)%Z eqn:E.
  - now subst u.
  - subst u. apply Z.eqb_neq in E. contradiction.
Qed.

(** X9.  A password change is accepted exactly when both passwords are
    non-empty, the new one has a length of eight or more (in UTF-16 code
    units), and the current one has the 72 key bytes of the stored hash of
    the caller's row; nothing else is asked of the new password.  Once accepted, the caller's row holds the hash of
    the new password and no refresh token of the account is redeemed any
    more; appointments and the ids of the accounts are as they were. *)
Theorem changePassword_accepts
        (e : env) (caller : req_user) (current new : string) (db : Db) :
  ((exists db',
       changePassword e caller (Some current) (Some new) db
       = (Ok (Sent 200 "Password updated successfully"), db'))
   <-> (current <> "" /\ (8 <= Js.length new)%nat
        /\ exists u rest,
            filter (fun u => (u_id u =? id caller)%Z) (users db) = u :: rest
            /\ Bcrypt.key72 (Bcrypt.d_of (u_password_hash u))
               = Bcrypt.key72 current))
  /\ (forall db',
         changePassword e caller (Some current) (Some new) db
         = (Ok (Sent 200 "Password updated successfully"), db') ->
         (forall u, In u (users db') -> u_id u = id caller ->
                    u_password_hash u = Bcrypt.hash new (salt e))
         /\ (forall e' p,
                Jwt.userId p = id caller ->
                exists err,
                  refresh e' (Some (Jwt.Signed Jwt.JWT_REFRESH_SECRET p)) db'
                  = (Throw err, db'))
         /\ appointments db' = appointments db
         /\ map u_id (users db') = map u_id (users db)).
Proof.
  unfold changePassword, bind, query, execute, ret, throw, truthy.
  cbn [or_default].
  destruct (current =? "")%string eqn:Hcur.
  { apply String.eqb_eq in Hcur. subst current. cbn [negb orb].
    split; [split|].
    - intros [db' H]. discriminate.
    - intros [H _]. now contradiction H.
    - intros db' H. discriminate. }
  apply String.eqb_neq in Hcur.
  destruct (new =? "")%string eqn:Hnew.
  { apply String.eqb_eq in Hnew. subst new. cbn [negb orb].
    split; [split|].
    - intros [db' H]. discriminate.
    - intros [_ [H _]]. cbn in H. lia.
    - intros db' H. discriminate. }
  cbn [negb orb].
  destruct (Z.of_nat (Js.length new) <? 8)%Z eqn:Hlen.
  { apply Z.ltb_lt in Hlen. split; [split|].
    - intros [db' H]. discriminate.
    - intros [_ [H _]]. lia.
    - intros db' H. discriminate. }
  apply Z.ltb_ge in Hlen.
  destruct (filter (fun u => (u_id u =? id caller)%Z) (users db))
    as [|u rest] eqn:Hrows.
  { split; [split|].
    - intros [db' H]. discriminate.
    - intros [_ [_ [u [rest [H _]]]]]. discriminate.
    - intros db' H. discriminate. }
  pose proof (compare_password current (u_password_hash u)) as Hcompare.
  destruct (Bcrypt.compare Bcrypt.key72 current (u_password_hash u)).
  - assert (Hmatch : Bcrypt.key72 (Bcrypt.d_of (u_password_hash u))
                     = Bcrypt.key72 current) by now apply Hcompare.
    cbn [negb]. split; [split|].
    + intros _. split; [assumption|]. split; [lia|].
      exists u, rest. split; [reflexivity|exact Hmatch].
    + intros _. eexists. reflexivity.
    + intros db' [= <-].
      cbn [users refresh_tokens appointments set_users set_refresh_tokens].
      split; [|split; [|split]].
      * intros u' Hu' Hid.
        now apply (changePassword_users_ids (id caller) _ (users db)).
      * intros e' p Huser. apply refresh_refused_when_revoked.
        cbn [refresh_tokens set_refresh_tokens]. intros row Hrow Hu.
        apply (revokeAll_revoked (id caller) (refresh_tokens db));
          congruence.
      * reflexivity.
      * rewrite map_map. apply map_ext. intros x.
        now destruct (u_id x =? id caller)%Z.
  - cbn [negb]. split; [split|].
    + intros [db' H]. discriminate.
    + intros [_ [_ [u' [rest' [[= <- <-] H]]]]].
      apply Hcompare in H. discriminate.
    + intros db' H. discriminate.
Qed.

Lemma john_changes_password :
  exists err,
    refresh an_hour_later (Some (refreshToken johns_tokens))
            (snd (changePassword morning (as_user john) (Some "Demo1234")
                                 (Some "aaaaaaaa") signed_in))
    = (Throw err,
       snd (changePassword morning (as_user john) (Some "Demo1234")
                           (Some "aaaaaaaa") signed_in)).
Proof.
  destruct (changePassword_accepts morning (as_user john) "Demo1234"
              "aaaaaaaa" signed_in) as [[_ Haccepted] Heffect].
  destruct Haccepted as [db' Hok].
  { split; [discriminate|]. split; [vm_compute; lia|].
    eexists _, _. split; reflexivity. }
  rewrite Hok. cbn [snd]. destruct (Heffect db' Hok) as [_ [Hrefused _]].
  apply (Hrefused an_hour_later (Jwt.mkPayload 2 1704949600 1705554400)).
  reflexivity.
Defined.

Lemma updateUserStatus_inversion (caller : req_user) (target : Z)
      (active : bool) (db db' : Db) (body : status_json) :
  updateUserStatus caller target (Some active) db = (Ok (Sent 200 body), db') ->
  (target = id caller -> active = true)
  /\ (exists u, In u (users db) /\ u_id u = target)
  /\ users db'
     = map (fun u =>
              if (u_id u =? target)%Z
              then mkUser (u_id u) (u_email u) (u_password_hash u)
                          (u_role u) (u_first_name u) (u_last_name u)
                          active (u_email_verified u)
              else u) (users db)
  /\ refresh_tokens db'
     = (if active then refresh_tokens db
        else revokeAll target (refresh_tokens db))
  /\ doctors db' = doctors db
  /\ doctor_availability db' = doctor_availability db
  /\ appointments db' = appointments db
  /\ body = mkStatusJson (if active then "User activated successfully"
                          else "User deactivated successfully") target active.
Proof.
  unfold updateUserStatus, bind, ret, throw, execute.
  destruct ((target =? id caller)%Z && negb active) eqn:Hself;
    [discriminate|].
  destruct (filter (fun u => (u_id u =? target)%Z) (users db))
    as [|u rest] eqn:Hrows; [discriminate|].
  assert (Hu : In u (filter (fun u => (u_id u =? target)%Z) (users db)))
    by (rewrite Hrows; now left).
  apply filter_In in Hu. destruct Hu as [Hin Hid]. apply Z.eqb_eq in Hid.
  cbn [List.length]. rewrite Nat2Z.inj_succ.
  destruct (Z.succ (Z.of_nat (List.length rest)) =? 0)%Z eqn:Hcount;
    [apply Z.eqb_eq in Hcount; lia|].
  destruct active; cbn [negb]; intros [= <- <-];
    cbn [users refresh_tokens doctors doctor_availability appointments
         set_users set_refresh_tokens].
  - split; [reflexivity|]. split; [now exists u|]. repeat split.
  - split.
    + intros ->. rewrite Z.eqb_refl in Hself. discriminate.
    + split; [now exists u|]. repeat split.
Qed.

(** X10.  An administrator cannot deactivate the account the call is made
    with: the call is answered 400 and nothing is written.  Deactivating
    another account makes every row of that id inactive and revokes all its
    refresh records, so that no refresh token of the account is redeemed
    afterwards, whatever the clock. *)
Theorem deactivation_ends_sessions
        (caller : req_user) (target : Z) (db : Db) :
  updateUserStatus caller (id caller) (Some false) db
  = (Ok (Refused (mkFailure 400 "Cannot deactivate your own account" "")), db)
  /\ (forall db' body,
         updateUserStatus caller target (Some false) db
         = (Ok (Sent 200 body), db') ->
         target <> id caller
         /\ (forall u, In u (users db') -> u_id u = target ->
                       u_is_active u = false)
         /\ (forall e p,
                Jwt.userId p = target ->
                exists err,
                  refresh e (Some (Jwt.Signed Jwt.JWT_REFRESH_SECRET p)) db'
                  = (Throw err, db'))
         /\ (forall row,
                rt_user_id row <> target ->
                In row (refresh_tokens db') <-> In row (refresh_tokens db))).
Proof.
  split.
  - unfold updateUserStatus. now rewrite Z.eqb_refl.
  - intros db' body Hok. apply updateUserStatus_inversion in Hok.
    destruct Hok as [Hself [_ [Husers [Htokens _]]]].
    split; [intros ->; now specialize (Hself eq_refl)|]. split; [|split].
    + intros u Hu Hid. rewrite Husers in Hu. apply in_map_iff in Hu.
      destruct Hu as [x [Hx _]]. destruct (u_id x =? target)%Z eqn:E.
      * now subst u.
      * subst u. apply Z.eqb_neq in E. contradiction.
    + intros e p Huser. apply refresh_refused_when_revoked.
      rewrite Htokens. intros row Hrow Hu.
      apply (revokeAll_revoked target (refresh_tokens db)); congruence.
    + intros row Hother. rewrite Htokens. now apply revokeAll_others.
Qed.

Lemma deactivating_john_ends_his_session :
  exists err,
    refresh an_hour_later (Some (refreshToken johns_tokens))
            (snd (updateUserStatus (as_user administrator) 2 (Some false)
                                   signed_in))
    = (Throw err,
       snd (updateUserStatus (as_user administrator) 2 (Some false)
                             signed_in)).
Proof.
  destruct (deactivation_ends_sessions (as_user administrator) 2 signed_in)
    as [_ Heffect].
  destruct (updateUserStatus (as_user administrator) 2 (Some false) signed_in)
    as [r db'] eqn:Hcall.
  assert (Hr : r = Ok (Sent 200 (mkStatusJson "User deactivated successfully"
                                              2 false)))
    by (vm_compute in Hcall; now injection Hcall as <- _).
  subst r. destruct (Heffect db' _ eq_refl) as [_ [_ [Hrefused _]]].
  cbn [snd].
  apply (Hrefused an_hour_later (Jwt.mkPayload 2 1704949600 1705554400)).
  reflexivity.
Defined.

(** X11.  Reactivating an account leaves the refresh records as they are
    (those revoked at deactivation stay revoked), while an access token of
    the account that verifies is let through again at once. *)
Theorem reactivation_restores_access
        (caller : req_user) (target : Z) (db db' : Db) (body : status_json) :
  updateUserStatus caller target (Some true) db = (Ok (Sent 200 body), db') ->
  refresh_tokens db' = refresh_tokens db
  /\ (forall u, In u (users db') -> u_id u = target -> u_is_active u = true)
  /\ (forall e scheme t decoded,
         Jwt.verify t Jwt.JWT_SECRET (now e) = Ok decoded ->
         Jwt.userId decoded = target ->
         exists u, authenticateToken e db' (Some [scheme; t]) = Next u
                   /\ id u = target).
Proof.
  intros Hok. apply updateUserStatus_inversion in Hok.
  destruct Hok as [_ [[x [Hx Hxid]] [Husers [Htokens _]]]].
  split; [assumption|].
  assert (Hactive : forall u, In u (users db') -> u_id u = target ->
                              u_is_active u = true).
  { intros u Hu Hid. rewrite Husers in Hu. apply in_map_iff in Hu.
    destruct Hu as [y [Hy _]]. destruct (u_id y =? target)%Z eqn:E.
    - now subst u.
    - subst u. apply Z.eqb_neq in E. contradiction. }
  split; [assumption|].
  intros e scheme t decoded Hverify Huser.
  unfold authenticateToken. cbn [nth_error].
  rewrite (verified_token_is_truthy _ _ _ _ Hverify), Hverify.
  destruct (filter (fun u => (u_id u =? Jwt.userId decoded)%Z && u_is_active u)
                   (users db')) as [|u rest] eqn:Hrows.
  - exfalso.
    assert (Hin : In (mkUser (u_id x) (u_email x) (u_password_hash x)
                             (u_role x) (u_first_name x) (u_last_name x)
                             true (u_email_verified x)) (users db')).
    { rewrite Husers. apply in_map_iff. exists x. split; [|assumption].
      apply Z.eqb_eq in Hxid. now rewrite Hxid. }
    assert (Hfil : In (mkUser (u_id x) (u_email x) (u_password_hash x)
                              (u_role x) (u_first_name x) (u_last_name x)
                              true (u_email_verified x))
                      (filter (fun u => (u_id u =? Jwt.userId decoded)%Z
                                        && u_is_active u) (users db'))).
    { apply filter_In. split; [assumption|]. cbn [u_id u_is_active].
      rewrite Huser. apply Z.eqb_eq in Hxid. now rewrite Hxid. }
    rewrite Hrows in Hfil. contradiction.
  - eexists. split; [reflexivity|]. cbn [id].
    assert (Hu : In u (filter (fun u => (u_id u =? Jwt.userId decoded)%Z
                                        && u_is_active u) (users db')))
      by (rewrite Hrows; now left).
    apply filter_In in Hu. destruct Hu as [_ Hu].
    apply andb_true_iff in Hu. destruct Hu as [Hu _].
    apply Z.eqb_eq in Hu. congruence.
Qed.

Lemma reactivating_john :
  refresh_tokens
    (snd (updateUserStatus (as_user administrator) 2 (Some true)
            (snd (updateUserStatus (as_user administrator) 2 (Some false)
                                   signed_in))))
  = revokeAll 2 (refresh_tokens signed_in)
  /\ exists u,
      authenticateToken an_hour_later
        (snd (updateUserStatus (as_user administrator) 2 (Some true)
                (snd (updateUserStatus (as_user administrator) 2 (Some false)
                                       signed_in))))
        (bearer (accessToken johns_tokens)) = Next u
      /\ id u = 2%Z.
Proof.
  destruct (updateUserStatus (as_user administrator) 2 (Some true)
              (snd (updateUserStatus (as_user administrator) 2 (Some false)
                                     signed_in))) as [r db'] eqn:Hcall.
  assert (Hr : r = Ok (Sent 200 (mkStatusJson "User activated successfully"
                                              2 true)))
    by (vm_compute in Hcall; now injection Hcall as <- _).
  subst r.
  destruct (reactivation_restores_access _ _ _ _ _ Hcall)
    as [Htokens [_ Haccess]].
  cbn [snd]. split; [rewrite Htokens; reflexivity|].
  apply (Haccess an_hour_later (Jwt.Opaque "Bearer")
                 (accessToken johns_tokens)
                 (Jwt.mkPayload 2 1704949600 1705036000));
    reflexivity.
Defined.

(** ** Appointments *)

Lemma existsb_false_forall {A : Type} (f : A -> bool) (l : list A) :
  existsb f l = false <-> forall x, In x l -> f x = false.
Proof.
  split.
  - intros Hnone x Hx. destruct (f x) eqn:E; [|reflexivity].
    assert (existsb f l = true) by (apply existsb_exists; eauto).
    congruence.
  - intros Hall. destruct (existsb f l) eqn:E; [|reflexivity].
    apply existsb_exists in E. destruct E as [x [Hx Hfx]].
    rewrite (Hall x Hx) in Hfx. discriminate.
Qed.

(** Under the unique key a row with a fresh id is refused exactly when the
    doctor's (date, time) is held already. *)
Lemma duplicates_key_fresh (row : appointments_row) (db : Db) :
  a_id row = insertId a_id (appointments db) ->
  duplicates_key row (appointments db) = true
  <-> slot_held (a_doctor_id row) (a_appointment_date row)
                (a_appointment_time row) db.
Proof.
  intros Hfresh. unfold duplicates_key, slot_held.
  rewrite existsb_exists. split.
  - intros [a [Ha Hsame]]. exists a. rewrite !andb_true_iff in Hsame.
    destruct Hsame as [[[_ Hd] Hdate] Htime].
    apply Z.eqb_eq in Hd, Hdate, Htime. auto.
  - intros [a [Ha [Hd [Hdate Htime]]]]. exists a. split; [assumption|].
    rewrite !andb_true_iff, negb_true_iff, !Z.eqb_eq, Z.eqb_neq.
    pose proof (insertId_above a_id (appointments db) a Ha).
    repeat split; try assumption. lia.
Qed.

Lemma type_of_string_some (s : string) :
  (exists ty, type_of_string s = Some ty) <-> s = "in-person" \/ s = "virtual".
Proof.
  unfold type_of_string.
  destruct (s =? "in-person")%string eqn:E1.
  - apply String.eqb_eq in E1. split; eauto.
  - destruct (s =? "virtual")%string eqn:E2.
    + apply String.eqb_eq in E2. split; eauto.
    + apply String.eqb_neq in E1, E2. split.
      * intros [ty H]. discriminate.
      * intros [H|H]; contradiction.
Qed.

(** X12.  A booking succeeds exactly when the doctor is bookable, no
    appointment in any status holds the doctor's (date, time), the type is
    one of the two of the column, and the caller has an account row.  The
    appointment then stored is the one row added: scheduled, payment
    pending, under a fresh id, for the caller, thirty minutes long unless
    the body says otherwise, with a meeting link exactly for a virtual
    visit.  A booking that fails writes nothing. *)
Theorem createAppointment_books
        (e : env) (caller : req_user) (b : create_body) (db : Db) :
  ((exists r db', createAppointment e caller b db = (Ok r, db'))
   <-> (doctor_bookable (cb_doctorId b) db
        /\ ~ slot_held (cb_doctorId b) (cb_appointmentDate b)
                       (cb_appointmentTime b) db
        /\ (cb_type b = "in-person" \/ cb_type b = "virtual")
        /\ exists u, In u (users db) /\ u_id u = id caller))
  /\ (forall r db',
         createAppointment e caller b db = (Ok r, db') ->
         exists row,
           r = Sent 201 (mkAppointmentJson "Appointment created successfully"
                                           row)
           /\ db' = set_appointments (appointments db ++ [row])%list db
           /\ ~ In (a_id row) (map a_id (appointments db))
           /\ a_patient_id row = id caller
           /\ a_doctor_id row = cb_doctorId b
           /\ a_appointment_date row = cb_appointmentDate b
           /\ a_appointment_time row = cb_appointmentTime b
           /\ a_duration_minutes row = or_default (cb_durationMinutes b) 30
           /\ a_status row = scheduled
           /\ a_payment_status row = pending
           /\ (a_virtual_meeting_url row <> None <-> cb_type b = "virtual"))
  /\ (forall err db',
         createAppointment e caller b db = (Throw err, db') -> db' = db).
Proof.
  unfold createAppointment, transaction, bind, query, throw, ret.
  pose proof (availableDoctors_bookable (cb_doctorId b) db) as Hbookable.
  destruct (availableDoctors (cb_doctorId b) db) as [|doc others].
  { split; [split|split].
    - intros [r [db' H]]. discriminate.
    - intros [H _]. apply Hbookable in H. now contradiction H.
    - intros r db' H. discriminate.
    - now intros err db' [= _ <-]. }
  assert (Hdoc : doctor_bookable (cb_doctorId b) db)
    by (apply Hbookable; discriminate).
  destruct (conflictsOnCreate (cb_doctorId b) (cb_appointmentDate b)
              (cb_appointmentTime b) db) as [|c cs] eqn:Hconf.
  2:{ assert (Hc : In c (conflictsOnCreate (cb_doctorId b)
                           (cb_appointmentDate b) (cb_appointmentTime b) db))
        by (rewrite Hconf; now left).
      unfold conflictsOnCreate in Hc. apply filter_In in Hc.
      destruct Hc as [Hin Hc]. rewrite !andb_true_iff, !Z.eqb_eq in Hc.
      destruct Hc as [[[Hd Hdate] Htime] _].
      split; [split|split].
      - intros [r [db' H]]. discriminate.
      - intros [_ [H _]]. exfalso. apply H. exists c. auto.
      - intros r db' H. discriminate.
      - now intros err db' [= _ <-]. }
  pose proof (type_of_string_some (cb_type b)) as Htype.
  destruct (type_of_string (cb_type b)) as [ty|].
  2:{ split; [split|split].
      - intros [r [db' H]]. discriminate.
      - intros [_ [_ [H _]]]. apply Htype in H. destruct H. discriminate.
      - intros r db' H. discriminate.
      - now intros err db' [= _ <-]. }
  assert (Hty : cb_type b = "in-person" \/ cb_type b = "virtual")
    by (apply Htype; eauto).
  unfold insertAppointment. cbn [a_patient_id a_doctor_id a_id].
  destruct (existsb (fun u => (u_id u =? id caller)%Z) (users db)) eqn:Hpatient.
  2:{ cbn [negb orb]. split; [split|split].
      - intros [r [db' H]]. discriminate.
      - intros [_ [_ [_ [u [Hu Hid]]]]].
        rewrite existsb_false_forall in Hpatient.
        specialize (Hpatient u Hu). apply Z.eqb_neq in Hpatient.
        contradiction.
      - intros r db' H. discriminate.
      - now intros err db' [= _ <-]. }
  apply existsb_exists in Hpatient. destruct Hpatient as [u [Hu Huid]].
  apply Z.eqb_eq in Huid.
  assert (Hfk : existsb (fun d => (d_id d =? cb_doctorId b)%Z) (doctors db)
                = true).
  { destruct Hdoc as [d [_ [Hd [_ [Hid _]]]]]. apply existsb_exists.
    exists d. split; [assumption|now apply Z.eqb_eq]. }
  rewrite Hfk. cbn [negb orb].
  match goal with
  | |- context [duplicates_key ?row (appointments db)] =>
      pose proof (duplicates_key_fresh row db eq_refl) as Hdup;
      cbn [a_doctor_id a_appointment_date a_appointment_time] in Hdup;
      destruct (duplicates_key row (appointments db))
  end.
  - split; [split|split].
    + intros [r [db' H]]. discriminate.
    + intros [_ [H _]]. exfalso. apply H. now apply Hdup.
    + intros r db' H. discriminate.
    + now intros err db' [= _ <-].
  - split; [split|split].
    + intros _. split; [assumption|]. split.
      * intros H. apply Hdup in H. discriminate.
      * split; [assumption|now exists u].
    + intros _. eexists _, _. reflexivity.
    + intros r db' [= <- <-]. eexists. split; [reflexivity|].
      split; [reflexivity|]. cbn [a_id a_patient_id a_doctor_id
        a_appointment_date a_appointment_time a_duration_minutes a_status
        a_payment_status a_virtual_meeting_url].
      split.
      { intros Hin. apply in_map_iff in Hin. destruct Hin as [a [Ha Hin]].
        pose proof (insertId_above a_id (appointments db) a Hin). lia. }
      repeat (split; [reflexivity|]).
      destruct (cb_type b =? "virtual")%string eqn:Ev.
      * apply String.eqb_eq in Ev. split; [now intros _|discriminate].
      * apply String.eqb_neq in Ev. split; [congruence|contradiction].
    + intros err db' H. discriminate.
Qed.

Lemma john_books_the_first_slot :
  exists r db', createAppointment morning (as_user john) same_slot opening
                = (Ok r, db').
Proof.
  apply (createAppointment_books morning (as_user john) same_slot opening).
  split; [|split; [|split]].
  - exists cardiology, sarah. cbn. repeat split; auto.
  - intros [a [[] _]].
  - now left.
  - exists john. cbn. auto.
Defined.

(** A slot held by any appointment is never booked again. *)
Lemma createAppointment_held_refused (e : env) (caller : req_user)
      (b : create_body) (db db' : Db) (r : reply appointment_json) :
  slot_held (cb_doctorId b) (cb_appointmentDate b) (cb_appointmentTime b) db ->
  createAppointment e caller b db <> (Ok r, db').
Proof.
  intros Hheld.
  unfold createAppointment, transaction, bind, query, throw, ret.
  destruct (availableDoctors _ db) as [|doc others]; [discriminate|].
  destruct (conflictsOnCreate _ _ _ db); [|discriminate].
  destruct (type_of_string (cb_type b)) as [ty|]; [|discriminate].
  unfold insertAppointment.
  destruct (_ || _); [discriminate|].
  match goal with
  | |- context [duplicates_key ?row (appointments db)] =>
      pose proof (duplicates_key_fresh row db eq_refl) as Hdup;
      cbn [a_doctor_id a_appointment_date a_appointment_time] in Hdup;
      destruct (duplicates_key row (appointments db))
  end; [discriminate|].
  apply Hdup in Hheld. discriminate.
Qed.

(** When the conflict check passes on a held slot, the INSERT meets the
    unique key. *)
Lemma createAppointment_duplicate (e : env) (caller : req_user)
      (b : create_body) (db : Db) :
  slot_held (cb_doctorId b) (cb_appointmentDate b) (cb_appointmentTime b) db ->
  doctor_bookable (cb_doctorId b) db ->
  ~ checkConflict (cb_doctorId b) (cb_appointmentDate b)
                  (cb_appointmentTime b) None db ->
  cb_type b = "in-person" \/ cb_type b = "virtual" ->
  (exists u, In u (users db) /\ u_id u = id caller) ->
  createAppointment e caller b db = (Throw (MysqlError "ER_DUP_ENTRY"), db).
Proof.
  intros Hheld Hdoc Hfree Htype [u [Hu Huid]].
  unfold createAppointment, transaction, bind, query, throw, ret.
  pose proof (availableDoctors_bookable (cb_doctorId b) db) as Hbookable.
  destruct (availableDoctors (cb_doctorId b) db) as [|doc others];
    [apply Hbookable in Hdoc; now contradiction Hdoc|].
  pose proof (conflictsOnCreate_checkConflict (cb_doctorId b)
                (cb_appointmentDate b) (cb_appointmentTime b) db) as Hcheck.
  destruct (conflictsOnCreate _ _ _ db);
    [|exfalso; apply Hfree, Hcheck; discriminate].
  apply type_of_string_some in Htype. destruct Htype as [ty ->].
  unfold insertAppointment. cbn [a_patient_id a_doctor_id a_id].
  assert (Hpatient : existsb (fun u => (u_id u =? id caller)%Z) (users db)
                     = true).
  { apply existsb_exists. exists u. split; [assumption|now apply Z.eqb_eq]. }
  assert (Hfk : existsb (fun d => (d_id d =? cb_doctorId b)%Z) (doctors db)
                = true).
  { destruct Hdoc as [d [_ [Hd [_ [Hid _]]]]]. apply existsb_exists.
    exists d. split; [assumption|now apply Z.eqb_eq]. }
  rewrite Hpatient, Hfk. cbn [negb orb].
  match goal with
  | |- context [duplicates_key ?row (appointments db)] =>
      pose proof (duplicates_key_fresh row db eq_refl) as Hdup;
      cbn [a_doctor_id a_appointment_date a_appointment_time] in Hdup;
      destruct (duplicates_key row (appointments db))
  end; [reflexivity|].
  apply Hdup in Hheld. discriminate.
Qed.

Lemma cancelAppointment_inversion (caller : req_user) (appointmentId : Z)
      (db db1 : Db) (r : reply cancel_json) :
  cancelAppointment caller appointmentId db = (Ok r, db1) ->
  exists appointment doctor_user_id rest,
    appointmentWithDoctor appointmentId db
    = (appointment, doctor_user_id) :: rest
    /\ canCancel caller appointment doctor_user_id = true
    /\ r = Sent 200 (mkCancelJson "Appointment cancelled successfully"
                                  appointmentId)
    /\ db1 = set_appointments
               (map (fun a => if (a_id a =? appointmentId)%Z
                              then with_status cancelled a else a)
                    (appointments db)) db.
Proof.
  unfold cancelAppointment, bind, query, throw, ret, execute.
  destruct (appointmentWithDoctor appointmentId db)
    as [|[appointment doctor_user_id] rest]; [discriminate|].
  destruct (canCancel caller appointment doctor_user_id) eqn:Hcan;
    cbn [negb]; [|discriminate].
  intros [= <- <-]. exists appointment, doctor_user_id, rest. auto.
Qed.

(** X13.  Cancelling does not free the slot.  After a cancellation, no
    booking of that doctor's (date, time) succeeds, for any patient: where
    everything else about the booking is in order the INSERT is refused by
    the unique key, which the error handler answers 409 DUPLICATE_ENTRY.
    The availability listing meanwhile no longer counts the cancelled
    appointment as booked. *)
Theorem cancelled_slot_stays_taken
        (canceller : req_user) (appointmentId : Z) (db db1 : Db)
        (r : reply cancel_json) (a : appointments_row)
        (e : env) (caller : req_user) (b : create_body) :
  cancelAppointment canceller appointmentId db = (Ok r, db1) ->
  In a (appointments db) -> a_id a = appointmentId ->
  cb_doctorId b = a_doctor_id a ->
  cb_appointmentDate b = a_appointment_date a ->
  cb_appointmentTime b = a_appointment_time a ->
  (forall r' db', createAppointment e caller b db1 <> (Ok r', db'))
  /\ (doctor_bookable (cb_doctorId b) db1 ->
      ~ checkConflict (cb_doctorId b) (cb_appointmentDate b)
                      (cb_appointmentTime b) None db1 ->
      cb_type b = "in-person" \/ cb_type b = "virtual" ->
      (exists u, In u (users db1) /\ u_id u = id caller) ->
      createAppointment e caller b db1
      = (Throw (MysqlError "ER_DUP_ENTRY"), db1)
      /\ errorHandler (MysqlError "ER_DUP_ENTRY")
         = mkFailure 409 "Duplicate entry - resource already exists"
                     "DUPLICATE_ENTRY")
  /\ (forall doctorId date p,
         In p (bookedOn doctorId date db1) ->
         exists a', In a' (appointments db) /\ a_id a' <> appointmentId
                    /\ p = (a_appointment_time a', a_duration_minutes a')).
Proof.
  intros Hcancel Hin Hid Hdoctor Hdate Htime.
  apply cancelAppointment_inversion in Hcancel.
  destruct Hcancel as [appointment [doctor_user_id [rest [_ [_ [_ ->]]]]]].
  assert (Hheld : slot_held (cb_doctorId b) (cb_appointmentDate b)
                    (cb_appointmentTime b)
                    (set_appointments
                       (map (fun a => if (a_id a =? appointmentId)%Z
                                      then with_status cancelled a else a)
                            (appointments db)) db)).
  { exists (with_status cancelled a). cbn [appointments set_appointments].
    split.
    - apply in_map_iff. exists a. split; [|assumption].
      apply Z.eqb_eq in Hid. now rewrite Hid.
    - cbn. auto. }
  split; [|split].
  - intros r' db'. now apply createAppointment_held_refused.
  - intros Hdoc Hfree Htype Huser. split; [|reflexivity].
    now apply createAppointment_duplicate.
  - intros doctorId date p Hp. unfold bookedOn in Hp.
    cbn [appointments set_appointments] in Hp. apply in_map_iff in Hp.
    destruct Hp as [x [<- Hx]]. apply filter_In in Hx.
    destruct Hx as [Hx Hocc]. apply in_map_iff in Hx.
    destruct Hx as [y [Hy Hyin]].
    destruct (a_id y =? appointmentId)%Z eqn:E.
    + subst x. cbn in Hocc. rewrite andb_false_r in Hocc. discriminate.
    + subst x. exists y. apply Z.eqb_neq in E. auto.
Qed.

Lemma cancelled_checkup_stays_taken :
  createAppointment morning (as_user jane) same_slot
    (snd (cancelAppointment (as_user john) 1 booked))
  = (Throw (MysqlError "ER_DUP_ENTRY"),
     snd (cancelAppointment (as_user john) 1 booked))
  /\ bookedOn 1 monday_15 (snd (cancelAppointment (as_user john) 1 booked))
     = [].
Proof.
  split; [|reflexivity].
  destruct (cancelAppointment (as_user john) 1 booked) as [r db1] eqn:Hcall.
  assert (Hr : r = Ok (Sent 200 (mkCancelJson
                                   "Appointment cancelled successfully" 1)))
    by (vm_compute in Hcall; now injection Hcall as <- _).
  subst r.
  assert (Hdb : db1 = after_cancel)
    by (vm_compute in Hcall; now injection Hcall as <-).
  destruct (cancelled_slot_stays_taken (as_user john) 1 booked db1 _ checkup
              morning (as_user jane) same_slot Hcall)
    as [_ [Hdup _]]; try reflexivity; [now left|].
  cbn [snd]. apply Hdup.
  - subst db1. exists cardiology, sarah. cbn. repeat split; auto.
  - subst db1. intros [x [Hx [_ [_ [_ [Hstatus _]]]]]].
    destruct Hx as [<-|[<-|[]]]; destruct Hstatus; discriminate.
  - now left.
  - subst db1. exists jane. cbn. auto.
Defined.

Lemma filter_nothing {A : Type} (f : A -> bool) (l : list A) :
  (forall x, In x l -> f x = false) -> filter f l = [].
Proof.
  induction l as [|x l IH]; intros Hnone; [reflexivity|]. cbn.
  rewrite (Hnone x (or_introl eq_refl)). apply IH.
  intros y Hy. apply Hnone. now right.
Qed.

(** The join of PUT /:id and DELETE /:id after a cancellation: the same
    rows, the appointment cancelled. *)
Lemma appointmentWithDoctor_cancelled (appointmentId : Z) (db : Db) :
  appointmentWithDoctor appointmentId
    (set_appointments
       (map (fun a => if (a_id a =? appointmentId)%Z
                      then with_status cancelled a else a)
            (appointments db)) db)
  = map (fun p => (with_status cancelled (fst p), snd p))
        (appointmentWithDoctor appointmentId db).
Proof.
  unfold appointmentWithDoctor. cbn [appointments doctors set_appointments].
  induction (appointments db) as [|a table IH]; [reflexivity|].
  cbn [map flat_map]. rewrite map_app, IH. f_equal.
  destruct (a_id a =? appointmentId)%Z eqn:E.
  - cbn [with_status a_id a_doctor_id]. rewrite E. now rewrite map_map.
  - cbv beta iota.
    assert (Hnone : filter (fun d => (a_doctor_id a =? d_id d)%Z && false)
                           (doctors db) = [])
      by (apply filter_nothing; intros d _; apply andb_false_r).
    now rewrite E, !Hnone.
Qed.

Lemma canCancel_spec (caller : req_user) (appointment : appointments_row)
      (doctor_user_id : Z) :
  canCancel caller appointment doctor_user_id = true
  <-> (role_of caller = admin
       \/ (role_of caller = patient /\ a_patient_id appointment = id caller)
       \/ (role_of caller = doctor /\ doctor_user_id = id caller)).
Proof.
  unfold canCancel.
  destruct (role_of caller); cbn [role_eqb orb andb];
    rewrite ?orb_false_r, ?Z.eqb_eq; intuition congruence.
Qed.

(** X14.  A cancellation goes through exactly for an appointment that
    exists (with its doctor) when the caller is an admin, the appointment's
    patient or the appointment's doctor; its status is not looked at.  It
    sets the status of that appointment to cancelled and changes nothing
    else, and repeating it gives the same answer and the same tables.  The
    two refusals, NotFoundError and ForbiddenError, write nothing. *)
Theorem cancelAppointment_effect
        (caller : req_user) (appointmentId : Z) (db : Db) :
  ((exists r db1, cancelAppointment caller appointmentId db = (Ok r, db1))
   <-> exists appointment doctor_user_id rest,
        appointmentWithDoctor appointmentId db
        = (appointment, doctor_user_id) :: rest
        /\ (role_of caller = admin
            \/ (role_of caller = patient
                /\ a_patient_id appointment = id caller)
            \/ (role_of caller = doctor /\ doctor_user_id = id caller)))
  /\ (forall r db1,
         cancelAppointment caller appointmentId db = (Ok r, db1) ->
         r = Sent 200 (mkCancelJson "Appointment cancelled successfully"
                                    appointmentId)
         /\ appointments db1
            = map (fun a => if (a_id a =? appointmentId)%Z
                            then with_status cancelled a else a)
                  (appointments db)
         /\ (forall a, In a (appointments db1) -> a_id a = appointmentId ->
                       a_status a = cancelled)
         /\ (forall a, a_id a <> appointmentId ->
                       In a (appointments db1) <-> In a (appointments db))
         /\ users db1 = users db /\ doctors db1 = doctors db
         /\ doctor_availability db1 = doctor_availability db
         /\ refresh_tokens db1 = refresh_tokens db
         /\ cancelAppointment caller appointmentId db1 = (Ok r, db1))
  /\ (forall err db1,
         cancelAppointment caller appointmentId db = (Throw err, db1) ->
         db1 = db
         /\ (err = NotFoundError "Appointment"
             \/ err = ForbiddenError
                        "Access denied to cancel this appointment")).
Proof.
  split; [|split].
  - split.
    + intros [r [db1 Hok]]. apply cancelAppointment_inversion in Hok.
      destruct Hok as [appointment [doctor_user_id [rest [Hfound [Hcan _]]]]].
      exists appointment, doctor_user_id, rest.
      split; [assumption|now apply canCancel_spec].
    + intros [appointment [doctor_user_id [rest [Hfound Hcan]]]].
      apply canCancel_spec in Hcan.
      unfold cancelAppointment, bind, query, throw, ret, execute.
      rewrite Hfound, Hcan. cbn [negb]. eexists _, _. reflexivity.
  - intros r db1 Hok. apply cancelAppointment_inversion in Hok.
    destruct Hok as [appointment [doctor_user_id [rest [Hfound [Hcan [-> ->]]]]]].
    cbn [appointments users doctors doctor_availability refresh_tokens
         set_appointments].
    split; [reflexivity|]. split; [reflexivity|]. split; [|split].
    + intros a Ha Hid. apply in_map_iff in Ha. destruct Ha as [x [Hx _]].
      destruct (a_id x =? appointmentId)%Z eqn:E.
      * now subst a.
      * subst a. apply Z.eqb_neq in E. contradiction.
    + intros a Hother. rewrite in_map_iff. split.
      * intros [x [Hx Hin]]. destruct (a_id x =? appointmentId)%Z eqn:E.
        -- subst a. apply Z.eqb_eq in E. cbn in Hother. contradiction.
        -- now subst a.
      * intros Hin. exists a. split; [|assumption].
        apply Z.eqb_neq in Hother. now rewrite Hother.
    + repeat (split; [reflexivity|]).
      unfold cancelAppointment, bind, query, throw, ret, execute.
      rewrite appointmentWithDoctor_cancelled, Hfound. cbn [map fst snd].
      assert (Hagain : canCancel caller (with_status cancelled appointment)
                                 doctor_user_id = true) by exact Hcan.
      rewrite Hagain. cbn [negb]. f_equal.
      unfold set_appointments.
      cbn [appointments users doctors doctor_availability refresh_tokens].
      f_equal. rewrite map_map. apply map_ext. intros a.
      destruct (a_id a =? appointmentId)%Z eqn:E.
      * cbn [with_status a_id]. now rewrite E.
      * now rewrite E.
  - intros err db1.
    unfold cancelAppointment, bind, query, throw, ret, execute.
    destruct (appointmentWithDoctor appointmentId db)
      as [|[appointment doctor_user_id] rest].
    + intros [= <- <-]. auto.
    + destruct (canCancel caller appointment doctor_user_id); cbn [negb].
      * discriminate.
      * intros [= <- <-]. auto.
Qed.

Lemma cancelling_the_checkup_twice :
  cancelAppointment (as_user john) 1
    (snd (cancelAppointment (as_user john) 1 booked))
  = cancelAppointment (as_user john) 1 booked.
Proof.
  destruct (cancelAppointment_effect (as_user john) 1 booked)
    as [_ [Heffect _]].
  destruct (cancelAppointment (as_user john) 1 booked) as [r db1] eqn:Hcall.
  assert (Hr : exists body, r = Ok body)
    by (vm_compute in Hcall; injection Hcall as <- _; eauto).
  destruct Hr as [body ->]. cbn [snd].
  now destruct (Heffect body db1 eq_refl) as [_ [_ [_ [_ [_ [_ [_ [_ H]]]]]]]].
Defined.

(** What a committed update wrote, and the check of the unique key it
    went through. *)
Lemma updateAppointment_committed (actor : req_user) (appointmentId : Z)
      (updates : update_body) (db db' : Db) (r : reply appointment_json) :
  updateAppointment actor appointmentId updates db = (Ok r, db') ->
  db' = set_appointments
          (map (fun a => if (a_id a =? appointmentId)%Z
                         then assign updates a else a) (appointments db)) db
  /\ existsb (fun a => (a_id a =? appointmentId)%Z
                       && duplicates_key a
                            (map (fun a => if (a_id a =? appointmentId)%Z
                                           then assign updates a else a)
                                 (appointments db)))
             (map (fun a => if (a_id a =? appointmentId)%Z
                            then assign updates a else a) (appointments db))
     = false.
Proof.
  unfold updateAppointment, transaction, bind, query, throw, ret.
  destruct (appointmentWithDoctor appointmentId db)
    as [|[appointment doctor_user_id] rest]; [discriminate|].
  destruct (canUpdate actor appointment doctor_user_id);
    cbn [negb]; [|discriminate].
  destruct (role_eqb (role_of actor) patient
            && negb (status_eqb (a_status appointment) scheduled));
    [discriminate|].
  destruct (role_eqb (role_of actor) patient && hasDisallowedFields updates);
    [discriminate|].
  destruct (is_some (ub_appointmentDate updates)
            || is_some (ub_appointmentTime updates));
    [destruct (conflictsOnUpdate _ _ _ appointmentId db); [|discriminate]|];
    (destruct (updateFields updates); [discriminate|]);
    unfold updateAppointmentRow;
    (destruct (existsb is_inherited _); [discriminate|]);
    (destruct (existsb _ _); [discriminate|]);
    cbn [appointments set_appointments];
    (destruct (filter _ _); [discriminate|]);
    intros [= _ <-]; split; reflexivity.
Qed.

(** An update that throws has written nothing; the read after the commit
    always finds the row. *)
Lemma updateAppointment_refused (actor : req_user) (appointmentId : Z)
      (updates : update_body) (db db' : Db) (err : thrown) :
  updateAppointment actor appointmentId updates db = (Throw err, db') ->
  db' = db /\ forall m, err <> TypeError m.
Proof.
  unfold updateAppointment, transaction, bind, query, throw, ret.
  destruct (appointmentWithDoctor appointmentId db)
    as [|[appointment doctor_user_id] rest] eqn:Hfound;
    [intros [= <- <-]; split; [reflexivity|discriminate]|].
  apply appointmentWithDoctor_head in Hfound. destruct Hfound as [Hin Hid].
  assert (Hread : forall others,
             filter (fun a => (a_id a =? appointmentId)%Z)
                    (map (fun a => if (a_id a =? appointmentId)%Z
                                   then assign updates a else a)
                         (appointments db)) = others -> others <> []).
  { intros others <-. rewrite filter_assigned. intros Hnone.
    apply map_eq_nil in Hnone.
    assert (Hthere : In appointment
                        (filter (fun a => (a_id a =? appointmentId)%Z)
                                (appointments db)))
      by (apply filter_In; split; [assumption|now apply Z.eqb_eq]).
    rewrite Hnone in Hthere. contradiction. }
  destruct (canUpdate actor appointment doctor_user_id);
    cbn [negb]; [|intros [= <- <-]; split; [reflexivity|discriminate]].
  destruct (role_eqb (role_of actor) patient
            && negb (status_eqb (a_status appointment) scheduled));
    [intros [= <- <-]; split; [reflexivity|discriminate]|].
  destruct (role_eqb (role_of actor) patient && hasDisallowedFields updates);
    [intros [= <- <-]; split; [reflexivity|discriminate]|].
  destruct (is_some (ub_appointmentDate updates)
            || is_some (ub_appointmentTime updates));
    [destruct (conflictsOnUpdate _ _ _ appointmentId db);
     [|intros [= <- <-]; split; [reflexivity|discriminate]]|];
    (destruct (updateFields updates);
     [intros [= <- <-]; split; [reflexivity|discriminate]|]);
    unfold updateAppointmentRow;
    (destruct (existsb is_inherited _);
     [intros [= <- <-]; split; [reflexivity|discriminate]|]);
    (destruct (existsb _ _);
     [intros [= <- <-]; split; [reflexivity|discriminate]|]);
    cbn [appointments set_appointments];
    (destruct (filter _ _) as [|row others] eqn:Hrow; [|discriminate]);
    now contradiction (Hread [] eq_refl).
Qed.

(** X15.  An update is all or nothing: one that throws leaves every table
    as it was (and the read of the updated row after the commit never comes
    back empty).  One that succeeds touches only the appointments table, and
    there only the rows of the given id: no row is added or removed, and no
    row changes its id, patient, doctor, fee, meeting link or payment
    status, so an appointment moved to type virtual gets no link. *)
Theorem updateAppointment_all_or_nothing
        (actor : req_user) (appointmentId : Z) (updates : update_body)
        (db : Db) :
  (forall err db',
      updateAppointment actor appointmentId updates db = (Throw err, db') ->
      db' = db /\ forall m, err <> TypeError m)
  /\ (forall r db',
         updateAppointment actor appointmentId updates db = (Ok r, db') ->
         users db' = users db /\ doctors db' = doctors db
         /\ doctor_availability db' = doctor_availability db
         /\ refresh_tokens db' = refresh_tokens db
         /\ map a_id (appointments db') = map a_id (appointments db)
         /\ map a_patient_id (appointments db')
            = map a_patient_id (appointments db)
         /\ map a_doctor_id (appointments db')
            = map a_doctor_id (appointments db)
         /\ map a_consultation_fee (appointments db')
            = map a_consultation_fee (appointments db)
         /\ map a_virtual_meeting_url (appointments db')
            = map a_virtual_meeting_url (appointments db)
         /\ map a_payment_status (appointments db')
            = map a_payment_status (appointments db)
         /\ (forall a, a_id a <> appointmentId ->
                       In a (appointments db') <-> In a (appointments db))).
Proof.
  split; [intros err db'; apply updateAppointment_refused|].
  intros r db' Hok. apply updateAppointment_committed in Hok.
  destruct Hok as [-> _].
  cbn [users doctors doctor_availability refresh_tokens appointments
       set_appointments].
  repeat (split; [reflexivity|]).
  repeat (split;
          [rewrite map_map; apply map_ext; intros a;
           now destruct (a_id a =? appointmentId)%Z|]).
  intros a Hother. rewrite in_map_iff. split.
  - intros [x [Hx Hin]]. destruct (a_id x =? appointmentId)%Z eqn:E.
    + subst a. apply Z.eqb_eq in E. cbn in Hother. contradiction.
    + now subst a.
  - intros Hin. exists a. split; [|assumption].
    apply Z.eqb_neq in Hother. now rewrite Hother.
Qed.

Lemma update_without_changes_writes_nothing :
  snd (updateAppointment (as_user john) 1 no_changes booked) = booked.
Proof.
  destruct (updateAppointment_all_or_nothing (as_user john) 1 no_changes
              booked) as [Hrefused _].
  destruct (updateAppointment (as_user john) 1 no_changes booked)
    as [r db'] eqn:Hcall.
  assert (Hr : r = Throw (ReferenceError "ValidationError"))
    by (vm_compute in Hcall; now injection Hcall as <- _).
  subst r. cbn [snd]. now destruct (Hrefused _ db' eq_refl).
Defined.

Lemma createAppointment_inversion (e : env) (caller : req_user)
      (b : create_body) (db db' : Db) (r : reply appointment_json) :
  createAppointment e caller b db = (Ok r, db') ->
  exists row,
    db' = set_appointments (appointments db ++ [row])%list db
    /\ a_id row = insertId a_id (appointments db)
    /\ duplicates_key row (appointments db) = false.
Proof.
  unfold createAppointment, transaction, bind, query, throw, ret.
  destruct (availableDoctors _ db) as [|doc others]; [discriminate|].
  destruct (conflictsOnCreate _ _ _ db); [|discriminate].
  destruct (type_of_string (cb_type b)) as [ty|]; [|discriminate].
  unfold insertAppointment.
  destruct (_ || _); [discriminate|].
  destruct (duplicates_key _ _) eqn:Hdup; [discriminate|].
  intros [= _ <-]. eexists. split; [reflexivity|]. split; [reflexivity|].
  exact Hdup.
Qed.

Lemma slots_unique_map (f : appointments_row -> appointments_row)
      (table : list appointments_row) :
  (forall a, a_id (f a) = a_id a /\ a_doctor_id (f a) = a_doctor_id a
             /\ a_appointment_date (f a) = a_appointment_date a
             /\ a_appointment_time (f a) = a_appointment_time a) ->
  slots_unique table -> slots_unique (map f table).
Proof.
  intros Hkeeps Hunique a b Ha Hb Hd Hdate Htime.
  apply in_map_iff in Ha, Hb.
  destruct Ha as [x [<- Hx]], Hb as [y [<- Hy]].
  destruct (Hkeeps x) as [Hx1 [Hx2 [Hx3 Hx4]]].
  destruct (Hkeeps y) as [Hy1 [Hy2 [Hy3 Hy4]]].
  rewrite Hx1, Hy1. apply Hunique; congruence.
Qed.

Lemma slots_unique_insert (row : appointments_row)
      (table : list appointments_row) :
  duplicates_key row table = false ->
  slots_unique table -> slots_unique (table ++ [row]).
Proof.
  unfold duplicates_key. rewrite existsb_false_forall.
  intros Hdup Hunique a b Ha Hb Hd Hdate Htime.
  assert (Hclash : forall x, In x table ->
             a_doctor_id x = a_doctor_id row ->
             a_appointment_date x = a_appointment_date row ->
             a_appointment_time x = a_appointment_time row ->
             a_id x = a_id row).
  { intros x Hx H1 H2 H3. specialize (Hdup x Hx).
    apply Z.eqb_eq in H1, H2, H3. rewrite H1, H2, H3 in Hdup.
    rewrite !andb_true_r in Hdup. apply negb_false_iff in Hdup.
    now apply Z.eqb_eq. }
  apply in_app_or in Ha, Hb.
  destruct Ha as [Ha|[<-|[]]], Hb as [Hb|[<-|[]]].
  - now apply Hunique.
  - now apply Hclash.
  - symmetry. apply Hclash; congruence.
  - reflexivity.
Qed.

Lemma slots_unique_update (appointmentId : Z) (u : update_body)
      (table : list appointments_row) :
  existsb (fun a => (a_id a =? appointmentId)%Z
                    && duplicates_key a
                         (map (fun a => if (a_id a =? appointmentId)%Z
                                        then assign u a else a) table))
          (map (fun a => if (a_id a =? appointmentId)%Z
                         then assign u a else a) table) = false ->
  slots_unique table ->
  slots_unique (map (fun a => if (a_id a =? appointmentId)%Z
                              then assign u a else a) table).
Proof.
  set (table' := map _ table). rewrite existsb_false_forall.
  intros Hdup Hunique.
  assert (Hclash : forall x y, In x table' -> In y table' ->
             a_id x = appointmentId ->
             a_doctor_id y = a_doctor_id x ->
             a_appointment_date y = a_appointment_date x ->
             a_appointment_time y = a_appointment_time x ->
             a_id y = a_id x).
  { intros x y Hx Hy Hid H1 H2 H3. specialize (Hdup x Hx).
    apply Z.eqb_eq in Hid. rewrite Hid in Hdup. cbn [andb] in Hdup.
    unfold duplicates_key in Hdup. rewrite existsb_false_forall in Hdup.
    specialize (Hdup y Hy). apply Z.eqb_eq in H1, H2, H3.
    rewrite H1, H2, H3 in Hdup. rewrite !andb_true_r in Hdup.
    apply negb_false_iff in Hdup. now apply Z.eqb_eq. }
  assert (Hold : forall x, In x table' -> a_id x <> appointmentId ->
                           In x table).
  { intros x Hx Hother. apply in_map_iff in Hx. destruct Hx as [z [Hz Hin]].
    destruct (a_id z =? appointmentId)%Z eqn:E.
    - subst x. apply Z.eqb_eq in E. cbn in Hother. contradiction.
    - now subst x. }
  intros a b Ha Hb Hd Hdate Htime.
  destruct (Z.eq_dec (a_id a) appointmentId) as [Haid|Haid].
  - symmetry. apply Hclash; congruence.
  - destruct (Z.eq_dec (a_id b) appointmentId) as [Hbid|Hbid].
    + apply Hclash; congruence.
    + apply Hunique; auto.
Qed.

(** X16.  The keys of the appointments table survive the three handlers
    that write to it.  When the ids are distinct and no two appointments
    share a doctor, date and time, the same holds after a booking, after an
    update and after a cancellation: whatever is refused by the unique key
    never reaches the table. *)
Theorem appointment_keys_are_kept
        (e : env) (caller : req_user) (b : create_body)
        (appointmentId : Z) (updates : update_body) (db : Db) :
  appointments_keyed db -> slots_unique (appointments db) ->
  (forall r db',
      createAppointment e caller b db = (Ok r, db') ->
      appointments_keyed db' /\ slots_unique (appointments db'))
  /\ (forall r db',
         updateAppointment caller appointmentId updates db = (Ok r, db') ->
         appointments_keyed db' /\ slots_unique (appointments db'))
  /\ (forall r db',
         cancelAppointment caller appointmentId db = (Ok r, db') ->
         appointments_keyed db' /\ slots_unique (appointments db')).
Proof.
  intros Hkeyed Hunique. split; [|split]; intros r db' Hok.
  - apply createAppointment_inversion in Hok.
    destruct Hok as [row [-> [Hfresh Hdup]]].
    unfold appointments_keyed. cbn [appointments set_appointments]. split.
    + now apply keyed_after_insert.
    + now apply slots_unique_insert.
  - apply updateAppointment_committed in Hok. destruct Hok as [-> Hdup].
    unfold appointments_keyed. cbn [appointments set_appointments]. split.
    + rewrite map_map.
      rewrite (map_ext _ a_id); [exact Hkeyed|].
      intros a. now destruct (a_id a =? appointmentId)%Z.
    + now apply slots_unique_update.
  - apply cancelAppointment_inversion in Hok.
    destruct Hok as [appointment [doctor_user_id [rest [_ [_ [_ ->]]]]]].
    unfold appointments_keyed. cbn [appointments set_appointments]. split.
    + rewrite map_map.
      rewrite (map_ext _ a_id); [exact Hkeyed|].
      intros a. now destruct (a_id a =? appointmentId)%Z.
    + apply slots_unique_map; [|assumption].
      intros a. now destruct (a_id a =? appointmentId)%Z.
Qed.

Lemma slots_unique_decide (table : list appointments_row) :
  forallb (fun a =>
    forallb (fun b =>
      negb ((a_doctor_id a =? a_doctor_id b)%Z
            && (a_appointment_date a =? a_appointment_date b)%Z
            && (a_appointment_time a =? a_appointment_time b)%Z)
      || (a_id a =? a_id b)%Z) table) table = true ->
  slots_unique table.
Proof.
  intros Hall a b Ha Hb Hd Hdate Htime.
  rewrite forallb_forall in Hall. specialize (Hall a Ha).
  rewrite forallb_forall in Hall. specialize (Hall b Hb).
  apply Z.eqb_eq in Hd, Hdate, Htime. rewrite Hd, Hdate, Htime in Hall.
  cbn in Hall. now apply Z.eqb_eq.
Qed.

Lemma keys_kept_after_moving_the_checkup :
  slots_unique
    (appointments (snd (updateAppointment (as_user john) 1 to_half_past_ten
                                          booked))).
Proof.
  assert (Hkeyed : appointments_keyed booked).
  { unfold appointments_keyed. cbn. repeat constructor; cbn; intuition lia. }
  assert (Hunique : slots_unique (appointments booked))
    by (apply slots_unique_decide; reflexivity).
  destruct (appointment_keys_are_kept morning (as_user john) same_slot 1
              to_half_past_ten booked Hkeyed Hunique) as [_ [Hupdate _]].
  destruct (updateAppointment (as_user john) 1 to_half_past_ten booked)
    as [r db'] eqn:Hcall.
  assert (Hr : exists body, r = Ok body)
    by (vm_compute in Hcall; injection Hcall as <- _; eauto).
  destruct Hr as [body ->]. cbn [snd].
  now destruct (Hupdate body db' eq_refl).
Defined.

(** X17.  Who may read an appointment.  For an appointment that the join
    finds, the read is answered exactly for an admin, for a patient whose
    id is the appointment's patient, and for a doctor whose first doctors
    row is the appointment's doctor; anyone else is refused with
    ForbiddenError.  An id the join does not find gives NotFoundError, and
    the handler never writes. *)
Theorem getAppointment_access
        (caller : req_user) (appointmentId : Z) (db : Db) :
  (forall view rest,
      appointmentDetails appointmentId db = view :: rest ->
      (getAppointment caller appointmentId db = (Ok (Sent 200 view), db)
       <-> (role_of caller = admin
            \/ (role_of caller = patient
                /\ a_patient_id (av_appointment view) = id caller)
            \/ (role_of caller = doctor
                /\ exists d others,
                    filter (fun d => (d_user_id d =? id caller)%Z)
                           (doctors db) = d :: others
                    /\ d_id d = a_doctor_id (av_appointment view))))
      /\ (getAppointment caller appointmentId db = (Ok (Sent 200 view), db)
          \/ getAppointment caller appointmentId db
             = (Throw (ForbiddenError "Access denied to this appointment"),
                db)))
  /\ (appointmentDetails appointmentId db = [] ->
      getAppointment caller appointmentId db
      = (Throw (NotFoundError "Appointment"), db))
  /\ snd (getAppointment caller appointmentId db) = db.
Proof.
  unfold getAppointment, bind, query, throw, ret. split; [|split].
  - intros view rest ->.
    destruct (role_of caller) eqn:Hrole; cbn [role_eqb andb].
    + destruct (a_patient_id (av_appointment view) =? id caller)%Z eqn:E;
        cbn [negb].
      * apply Z.eqb_eq in E. split; [|now left].
        split; [intros _; right; left; auto|reflexivity].
      * apply Z.eqb_neq in E. split; [|now right].
        split; [discriminate|].
        intros [H|[[_ H]|[H _]]]; (discriminate || contradiction).
    + destruct (filter (fun d => (d_user_id d =? id caller)%Z) (doctors db))
        as [|d others].
      * split; [|now right]. split; [discriminate|].
        intros [H|[[H _]|[_ [d [others [H _]]]]]]; discriminate.
      * destruct (a_doctor_id (av_appointment view) =? d_id d)%Z eqn:E;
          cbn [negb].
        -- apply Z.eqb_eq in E. split; [|now left].
           split; [|reflexivity].
           intros _. right. right. split; [reflexivity|].
           exists d, others. auto.
        -- apply Z.eqb_neq in E. split; [|now right].
           split; [discriminate|].
           intros [H|[[H _]|[_ [d' [others' [[= <- <-] H]]]]]];
             (discriminate || congruence).
    + split; [|now left]. split; [now left|reflexivity].
  - now intros ->.
  - destruct (appointmentDetails appointmentId db) as [|view rest];
      [reflexivity|].
    destruct (role_eqb (role_of caller) patient
              && negb (a_patient_id (av_appointment view) =? id caller)%Z);
      [reflexivity|].
    destruct (role_eqb (role_of caller) doctor); [|reflexivity].
    destruct (filter _ (doctors db)) as [|d others]; [reflexivity|].
    now destruct (negb _).
Qed.

Lemma jane_cannot_read_johns_checkup :
  getAppointment (as_user jane) 1 booked
  = (Throw (ForbiddenError "Access denied to this appointment"), booked)
  /\ exists view, getAppointment (as_user john) 1 booked
                  = (Ok (Sent 200 view), booked).
Proof.
  destruct (getAppointment_access (as_user jane) 1 booked) as [Hjane _].
  destruct (getAppointment_access (as_user john) 1 booked) as [Hjohn _].
  destruct (appointmentDetails 1 booked) as [|view rest] eqn:Hjoin;
    [vm_compute in Hjoin; discriminate|].
  assert (Hpatient : a_patient_id (av_appointment view) = 2%Z)
    by (vm_compute in Hjoin; now injection Hjoin as <- _).
  destruct (Hjane view rest eq_refl) as [Hiff [Hread|Hrefused]].
  - exfalso. apply Hiff in Hread.
    destruct Hread as [H|[[_ H]|[H _]]]; try discriminate.
    rewrite Hpatient in H. discriminate.
  - split; [exact Hrefused|]. exists view.
    apply (proj1 (Hjohn view rest eq_refl)). right. left.
    split; [reflexivity|exact Hpatient].
Defined.

(** ** The availability listing *)





(** The listing query over the rows just inserted for a doctor who joins
    with one available doctors row and one active account. *)
Lemma availabilityOn_inserted (doc : doctors_row) (u : users_row)
      (day : string) (db : Db) (windows : list window) :
  filter (fun d => (d_id doc =? d_id d)%Z && d_is_available d) (doctors db)
  = [doc] ->
  filter (fun x => (d_user_id doc =? u_id x)%Z && u_is_active x) (users db)
  = [u] ->
  flat_map (fun da =>
    flat_map (fun d =>
      map (fun _ => (da_start_time da, da_end_time da))
          (filter (fun x => (d_user_id d =? u_id x)%Z && u_is_active x)
                  (users db)))
      (filter (fun d => (da_doctor_id da =? d_id d)%Z && d_is_available d)
              (doctors db)))
    (filter (fun da => (da_doctor_id da =? d_id doc)%Z
                       && (da_day_of_week da =? day)%string
                       && da_is_active da)
            (map (row_of (d_id doc)) windows))
  = map (fun w => (or_default (w_startTime w) 0, or_default (w_endTime w) 0))
        (filter (fun w =>
                   (toLowerCase (or_default (w_dayOfWeek w) "") =? day)%string
                   && or_default (w_isActive w) true) windows).
Proof.
  intros Hdoc Huser.
  induction windows as [|w windows IH]; [reflexivity|].
  cbn [map filter]. unfold row_of at 1 2 3.
  cbn [da_doctor_id da_day_of_week da_is_active]. rewrite Z.eqb_refl.
  cbn [andb].
  destruct ((toLowerCase (or_default (w_dayOfWeek w) "") =? day)%string
            && or_default (w_isActive w) true); [|exact IH].
  cbn [flat_map map]. rewrite IH. unfold row_of at 1 2 3.
  cbn [da_doctor_id da_start_time da_end_time].
  rewrite Hdoc. cbn [flat_map]. rewrite Huser. reflexivity.
Qed.

(** X19.  From PUT /availability to the listing query.  After a doctor
    who joins with one available doctors row and one active account has
    stored a set of windows, the query of the availability listing for a
    weekday returns, in the order submitted, the start and end of the
    windows whose day, in lower case, is that weekday and that are active
    (a window without isActive counts as active); nothing of an earlier set
    is left. *)
Theorem stored_windows_are_listed
        (caller : req_user) (windows : list window) (db : Db)
        (doc : doctors_row) (others : list doctors_row) (u : users_row)
        (day : string) :
  filter (fun d => (d_user_id d =? id caller)%Z) (doctors db) = doc :: others ->
  forallb accepted windows = true ->
  filter (fun d => (d_id doc =? d_id d)%Z && d_is_available d) (doctors db)
  = [doc] ->
  filter (fun x => (d_user_id doc =? u_id x)%Z && u_is_active x) (users db)
  = [u] ->
  exists db',
    setAvailability caller (Some windows) db
    = (Ok (Sent 200 "Doctor availability updated successfully"), db')
    /\ availabilityOn (d_id doc) day db'
       = map (fun w => (or_default (w_startTime w) 0,
                        or_default (w_endTime w) 0))
             (filter (fun w =>
                        (toLowerCase (or_default (w_dayOfWeek w) "")
                         =? day)%string
                        && or_default (w_isActive w) true) windows).
Proof.
  intros Hcaller Hall Hdoc Huser. eexists. split.
  - unfold setAvailability, bind, query, transaction, ret, execute.
    rewrite Hcaller, (insertWindows_accepted _ _ _ Hall).
    cbn [doctor_availability set_doctor_availability].
    rewrite set_doctor_availability_twice. reflexivity.
  - unfold availabilityOn.
    cbn [doctor_availability users doctors set_doctor_availability].
    rewrite filter_app, flat_map_app.
    rewrite (filter_nothing _ (filter _ (doctor_availability db))).
    + cbn [flat_map app]. now apply (availabilityOn_inserted doc u).
    + intros da Hda. apply filter_In in Hda. destruct Hda as [_ Hda].
      apply negb_true_iff in Hda. now rewrite Hda.
Qed.

Lemma sarah_stores_a_lunch_break :
  availabilityOn 1 "friday"
    (snd (setAvailability (as_user sarah) (Some friday_windows) opening))
  = [(nine, 12 * 3600); (13 * 3600, seventeen)]%Z
  /\ option_map
       (fun r => match r with
                 | Sent _ body => List.length (availableSlots body)
                 | Refused _ => 0%nat
                 end)
       (getAvailability 48 morning 1 (monday_15 + 4)
          (snd (setAvailability (as_user sarah) (Some friday_windows)
                                opening)))
     = Some 6%nat.
Proof.
  destruct (stored_windows_are_listed (as_user sarah) friday_windows opening
              cardiology [] sarah "friday")
    as [db' [Hset Hlisted]]; try reflexivity.
  rewrite Hset. cbn [snd]. split; [exact Hlisted|].
  assert (Hdb : db' = snd (setAvailability (as_user sarah)
                             (Some friday_windows) opening))
    by now rewrite Hset.
  rewrite Hdb. vm_compute. reflexivity.
Defined.

(** ** Registration *)

Lemma filter_none_iff {A : Type} (f : A -> bool) (l : list A) :
  filter f l = [] <-> forall x, In x l -> f x = false.
Proof.
  split; [|apply filter_nothing].
  intros Hnone x Hx. destruct (f x) eqn:E; [|reflexivity].
  assert (Hin : In x (filter f l)) by (apply filter_In; auto).
  rewrite Hnone in Hin. contradiction.
Qed.

(** What a registration that succeeds found and wrote. *)
Lemma register_inversion (e : env) (b : register_body) (db db' : Db)
      (r : reply auth_json) :
  register e b db = (Ok r, db') ->
  exists ro,
    role_of_string (or_default (rb_role b) "") = Some ro
    /\ filter (fun u => (u_email u =? rb_email b)%string) (users db) = []
    /\ (or_default (rb_role b) "" = "doctor" ->
        truthy (rb_specialization b) = true
        /\ truthy (rb_licenseNumber b) = true
        /\ filter (fun d => (d_license_number d
                             =? or_default (rb_licenseNumber b) "")%string)
                  (doctors db) = [])
    /\ users db'
       = (users db ++
          [mkUser (insertId u_id (users db)) (rb_email b)
                  (Bcrypt.hash (rb_password b) (salt e)) ro (rb_firstName b)
                  (rb_lastName b) true false])%list
    /\ doctors db'
       = (if (or_default (rb_role b) "" =? "doctor")%string
          then (doctors db ++
                [mkDoctor (insertId d_id (doctors db))
                          (insertId u_id (users db))
                          (or_default (rb_specialization b) "")
                          (or_default (rb_licenseNumber b) "")
                          (or_default (rb_yearsOfExperience b) 0) 0 true])%list
          else doctors db)
    /\ refresh_tokens db'
       = (refresh_tokens db ++
          [mkRefreshToken (insertId rt_id (refresh_tokens db))
             (insertId u_id (users db))
             (Bcrypt.hash
                (refreshToken (generateTokens e (insertId u_id (users db))))
                (salt e))
             (now e + 7 * 24 * 60 * 60 * 1000) false])%list
    /\ appointments db' = appointments db
    /\ doctor_availability db' = doctor_availability db
    /\ r = Sent 201
             (mkAuthJson "User registered successfully"
                (Some (mkUserJson (insertId u_id (users db)) (rb_email b)
                                  (or_default (rb_role b) "")
                                  (rb_firstName b) (rb_lastName b)))
                (generateTokens e (insertId u_id (users db)))).
Proof.
  unfold register, transaction, bind, query, throw, ret, storeRefreshToken,
    execute.
  destruct (filter _ (users db)) eqn:Hemail; [|discriminate].
  destruct (role_of_string (or_default (rb_role b) "")) as [ro|];
    [|discriminate].
  destruct (or_default (rb_role b) "" =? "doctor")%string eqn:Hrole.
  - destruct (truthy (rb_specialization b)); cbn [negb orb]; [|discriminate].
    destruct (truthy (rb_licenseNumber b)); cbn [negb]; [|discriminate].
    cbn [doctors set_users].
    destruct (filter _ (doctors db)) eqn:Hlicense; [|discriminate].
    intros [= <- <-]. exists ro. cbn. repeat split; reflexivity.
  - intros [= <- <-]. exists ro. cbn. apply String.eqb_neq in Hrole.
    repeat split; try reflexivity; contradiction.
Qed.

Lemma register_refused_unchanged (e : env) (b : register_body) (db db' : Db)
      (err : thrown) :
  register e b db = (Throw err, db') -> db' = db.
Proof.
  unfold register, transaction, bind, query, throw, ret, storeRefreshToken,
    execute.
  destruct (filter _ (users db)); [|now intros [= _ <-]].
  destruct (role_of_string (or_default (rb_role b) "")) as [ro|];
    [|now intros [= _ <-]].
  destruct (or_default (rb_role b) "" =? "doctor")%string.
  - destruct (negb (truthy (rb_specialization b))
              || negb (truthy (rb_licenseNumber b)));
      [now intros [= _ <-]|].
    cbn [doctors set_users].
    destruct (filter _ (doctors db)); [discriminate|now intros [= _ <-]].
  - discriminate.
Qed.

(** X20.  What a registration leaves behind.  The handler succeeds only
    for an email no account has, and for a doctor only with a
    specialization and a license number no doctor has; it then adds one
    account under a fresh id, active, with its email not verified and the
    hash of the password, adds a doctors row (available, fee 0) exactly for
    role doctor, and stores one refresh record for the new account.  The
    emails of the accounts stay distinct.  A registration that throws
    leaves every table as it was: an account inserted before a failing
    doctor check is rolled back. *)
Theorem register_adds_one_account
        (e : env) (b : register_body) (db : Db) :
  (forall r db',
      register e b db = (Ok r, db') ->
      (forall u, In u (users db) -> u_email u <> rb_email b)
      /\ (exists u,
             users db' = (users db ++ [u])%list
             /\ ~ In (u_id u) (map u_id (users db))
             /\ u_email u = rb_email b
             /\ Bcrypt.d_of (u_password_hash u) = rb_password b
             /\ u_is_active u = true /\ u_email_verified u = false
             /\ role_name (u_role u) = or_default (rb_role b) ""
             /\ (u_role u <> doctor -> doctors db' = doctors db)
             /\ (u_role u = doctor ->
                 exists d,
                   doctors db' = (doctors db ++ [d])%list
                   /\ d_user_id d = u_id u /\ d_is_available d = true
                   /\ d_consultation_fee d = 0%Z
                   /\ (forall d', In d' (doctors db) ->
                                  d_license_number d' <> d_license_number d))
             /\ live (u_id u) (refresh_tokens db')
                = (live (u_id u) (refresh_tokens db) ++
                   [mkRefreshToken (insertId rt_id (refresh_tokens db))
                      (u_id u)
                      (Bcrypt.hash (refreshToken (generateTokens e (u_id u)))
                                   (salt e))
                      (now e + 7 * 24 * 60 * 60 * 1000) false])%list)
      /\ (emails_unique db -> emails_unique db')
      /\ appointments db' = appointments db
      /\ doctor_availability db' = doctor_availability db)
  /\ (forall err db', register e b db = (Throw err, db') -> db' = db).
Proof.
  split; [|intros err db'; apply register_refused_unchanged].
  intros r db' Hok. apply register_inversion in Hok.
  destruct Hok as [ro [Hrole [Hemail [Hdoctor [Husers [Hdoctors
                   [Htokens [Happointments [Hwindows _]]]]]]]]].
  assert (Hnew : forall u, In u (users db) -> u_email u <> rb_email b).
  { intros u Hu. rewrite filter_none_iff in Hemail.
    specialize (Hemail u Hu). now apply String.eqb_neq. }
  split; [assumption|]. split; [|split; [|split; assumption]].
  - eexists. split; [exact Husers|].
    cbn [u_id u_email u_password_hash u_is_active u_email_verified u_role
         Bcrypt.hash Bcrypt.d_of].
    split.
    { intros Hin. apply in_map_iff in Hin. destruct Hin as [x [Hx Hin]].
      pose proof (insertId_above u_id (users db) x Hin). lia. }
    repeat (split; [reflexivity|]).
    assert (Hname : role_name ro = or_default (rb_role b) "").
    { unfold role_of_string in Hrole.
      destruct (or_default (rb_role b) "" =? "patient")%string eqn:E1;
        [apply String.eqb_eq in E1; now injection Hrole as <-|].
      destruct (or_default (rb_role b) "" =? "doctor")%string eqn:E2;
        [apply String.eqb_eq in E2; now injection Hrole as <-|].
      destruct (or_default (rb_role b) "" =? "admin")%string eqn:E3;
        [apply String.eqb_eq in E3; now injection Hrole as <-|].
      discriminate. }
    split; [assumption|]. split; [|split].
    + intros Hother. rewrite Hdoctors.
      destruct (or_default (rb_role b) "" =? "doctor")%string eqn:E;
        [|reflexivity].
      apply String.eqb_eq in E. rewrite E in Hname.
      destruct ro; try discriminate. now contradiction Hother.
    + intros ->. cbn [role_name] in Hname. symmetry in Hname.
      destruct (Hdoctor Hname) as [_ [_ Hlicense]].
      rewrite Hdoctors, Hname. cbn [String.eqb Ascii.eqb Bool.eqb].
      eexists. split; [reflexivity|].
      cbn [d_user_id d_is_available d_consultation_fee d_license_number].
      repeat (split; [reflexivity|]).
      intros d' Hd'. rewrite filter_none_iff in Hlicense.
      specialize (Hlicense d' Hd'). now apply String.eqb_neq.
    + rewrite Htokens. unfold live. rewrite filter_app.
      cbn [filter rt_user_id rt_is_revoked]. rewrite Z.eqb_refl.
      reflexivity.
  - unfold emails_unique. rewrite Husers, map_app. intros Hunique.
    apply NoDup_app; [assumption|repeat constructor; intros []|].
    intros x Hx [<-|[]]. apply in_map_iff in Hx.
    destruct Hx as [u [Hu Hin]]. now apply (Hnew u).
Qed.

Lemma registering_the_new_patient :
  exists u,
    users (snd (register morning new_patient opening)) = (staff ++ [u])%list
    /\ u_is_active u = true.
Proof.
  destruct (register_adds_one_account morning new_patient opening)
    as [Hadded _].
  destruct (register morning new_patient opening) as [r db'] eqn:Hcall.
  assert (Hr : exists body, r = Ok body)
    by (vm_compute in Hcall; injection Hcall as <- _; eauto).
  destruct Hr as [body ->].
  destruct (Hadded body db' eq_refl)
    as [_ [[u [Husers [_ [_ [_ [Hactive _]]]]]] _]].
  exists u. cbn [snd]. split; [exact Husers|exact Hactive].
Defined.

(** X21.  From registration to the first requests.  After a registration
    that succeeded, login with the registered email succeeds for that
    account with the registered password, and with exactly the passwords
    that have its 72 key bytes: every other one is refused, which among
    passwords of at most 71 bytes without a NUL is every password but the
    registered one.  The access token that came with the registration is
    let through by authenticateToken, as the new account with the role
    registered, for as long as it has not expired; and the refresh token
    that came with it is redeemed within its seven days. *)
Theorem register_then_sign_in
        (e e' : env) (b : register_body) (db db' : Db) (body : auth_json) :
  register e b db = (Ok (Sent 201 body), db') ->
  (exists r db'',
      login e' (rb_email b) (rb_password b) db' = (Ok (Sent 200 r), db'')
      /\ option_map uj_id (user r) = Some (insertId u_id (users db))
      /\ option_map uj_id (user body) = Some (insertId u_id (users db)))
  /\ (forall password,
         Bcrypt.key72 password = Bcrypt.key72 (rb_password b) ->
         exists r db'',
           login e' (rb_email b) password db' = (Ok (Sent 200 r), db'')
           /\ option_map uj_id (user r) = Some (insertId u_id (users db)))
  /\ (forall password,
         Bcrypt.key72 password <> Bcrypt.key72 (rb_password b) ->
         login e' (rb_email b) password db'
         = (Throw (UnauthorizedError "Invalid email or password"), db'))
  /\ (forall password,
         nul_free password -> nul_free (rb_password b) ->
         (String.length password <= 71)%nat ->
         (String.length (rb_password b) <= 71)%nat ->
         password <> rb_password b ->
         login e' (rb_email b) password db'
         = (Throw (UnauthorizedError "Invalid email or password"), db'))
  /\ (forall scheme,
         (now e' / 1000
          < now e / 1000
            + or_default (JWT_EXPIRES_IN e) default_JWT_EXPIRES_IN)%Z ->
         exists u,
           authenticateToken e' db' (Some [scheme; accessToken (issued body)])
           = Next u
           /\ id u = insertId u_id (users db)
           /\ role_name (role_of u) = or_default (rb_role b) "")
  /\ ((now e' < now e + 7 * 24 * 60 * 60 * 1000)%Z ->
      (now e' / 1000
       < now e / 1000
         + or_default (JWT_REFRESH_EXPIRES_IN e)
                      default_JWT_REFRESH_EXPIRES_IN)%Z ->
      exists fresh db'',
        refresh e' (Some (refreshToken (issued body))) db'
        = (Ok (Sent 200 (mkAuthJson "Tokens refreshed successfully" None
                                    fresh)), db'')).
Proof.
  intros Hok. apply register_inversion in Hok.
  destruct Hok as [ro [Hrole [Hemail [_ [Husers [_ [Htokens [_ [_ Hbody]]]]]]]]].
  injection Hbody as ->.
  assert (Hfound : filter (fun u => (u_email u =? rb_email b)%string)
                          (users db')
                   = [mkUser (insertId u_id (users db)) (rb_email b)
                             (Bcrypt.hash (rb_password b) (salt e)) ro
                             (rb_firstName b) (rb_lastName b) true false]).
  { rewrite Husers, filter_app, Hemail. cbn [filter u_email app].
    now rewrite String.eqb_refl. }
  assert (Hname : role_name ro = or_default (rb_role b) "").
  { unfold role_of_string in Hrole.
    destruct (or_default (rb_role b) "" =? "patient")%string eqn:E1;
      [apply String.eqb_eq in E1; now injection Hrole as <-|].
    destruct (or_default (rb_role b) "" =? "doctor")%string eqn:E2;
      [apply String.eqb_eq in E2; now injection Hrole as <-|].
    destruct (or_default (rb_role b) "" =? "admin")%string eqn:E3;
      [apply String.eqb_eq in E3; now injection Hrole as <-|].
    discriminate. }
  assert (Hright : forall password,
            Bcrypt.key72 password = Bcrypt.key72 (rb_password b) ->
            exists r db'',
              login e' (rb_email b) password db' = (Ok (Sent 200 r), db'')
              /\ option_map uj_id (user r) = Some (insertId u_id (users db))).
  { intros password Hkey.
    unfold login, bind, query, throw, ret, storeRefreshToken, execute.
    rewrite Hfound. unfold Bcrypt.compare, Bcrypt.hash.
    cbn [u_is_active negb u_password_hash Bcrypt.d_of].
    rewrite Hkey, String.eqb_refl. cbn [negb]. eexists _, _.
    split; reflexivity. }
  assert (Hwrong : forall password,
            Bcrypt.key72 password <> Bcrypt.key72 (rb_password b) ->
            login e' (rb_email b) password db'
            = (Throw (UnauthorizedError "Invalid email or password"), db')).
  { intros password Hkey.
    apply (login_wrong_password e' (rb_email b) password db' _ [] Hfound);
      [reflexivity|].
    cbn [u_password_hash Bcrypt.hash Bcrypt.d_of]. congruence. }
  split; [|split; [|split; [|split; [|split]]]].
  - destruct (Hright (rb_password b) eq_refl) as [r [db'' [Hlogin Hid]]].
    exists r, db''. repeat split; assumption.
  - exact Hright.
  - exact Hwrong.
  - intros password Hfree Hfree' Hlen Hlen' Hother. apply Hwrong.
    intros Hkey. apply Hother. now apply key72_short.
  - intros scheme Hfresh. cbn [issued accessToken generateTokens].
    unfold authenticateToken, Jwt.sign. cbn [nth_error Jwt.falsy Jwt.verify
      Jwt.secret_eqb Jwt.exp Jwt.userId].
    destruct (Z.leb_spec (now e / 1000
                          + or_default (JWT_EXPIRES_IN e)
                                       default_JWT_EXPIRES_IN)
                         (now e' / 1000)) as [Hexpired|_];
      [now apply Z.lt_nge in Hfresh|].
    rewrite Husers, filter_app.
    rewrite (filter_nothing _ (users db)).
    + cbn [filter app u_id u_is_active]. rewrite Z.eqb_refl. cbn [andb].
      eexists. split; [reflexivity|]. cbn [id role_of u_id u_role]. auto.
    + intros x Hx. pose proof (insertId_above u_id (users db) x Hx).
      apply andb_false_iff. left. apply Z.eqb_neq. cbn [Jwt.userId]. lia.
  - intros Hrecord Htoken. cbn [issued refreshToken generateTokens].
    unfold Jwt.sign. cbv zeta.
    match goal with
    | |- context [Jwt.Signed Jwt.JWT_REFRESH_SECRET ?p] =>
        destruct (refresh_progress e' p db'
                    (mkRefreshToken (insertId rt_id (refresh_tokens db))
                       (insertId u_id (users db))
                       (Bcrypt.hash (Jwt.Signed Jwt.JWT_REFRESH_SECRET p)
                                    (salt e))
                       (now e + 7 * 24 * 60 * 60 * 1000) false))
          as [db'' Hgo]
    end.
    + cbn [Jwt.exp]. exact Htoken.
    + rewrite Htokens. apply in_or_app. right. now left.
    + repeat split. exact Hrecord.
    + eexists _, db''. exact Hgo.
Qed.

Lemma the_new_patient_signs_in :
  (exists r db'',
      login an_hour_later "ann@example.com" "Sesame1234"
            (snd (register morning new_patient opening))
      = (Ok (Sent 200 r), db''))
  /\ exists r db'',
      login an_hour_later "lee@example.com" (seventy_two ++ "zz")
            (snd (register morning long_patient opening))
      = (Ok (Sent 200 r), db'').
Proof.
  split.
  - destruct (register morning new_patient opening) as [r db'] eqn:Hcall.
    assert (Hr : exists body, r = Ok (Sent 201 body))
      by (vm_compute in Hcall; injection Hcall as <- _; eauto).
    destruct Hr as [body ->].
    destruct (register_then_sign_in morning an_hour_later new_patient opening
                db' body Hcall) as [[r [db'' [Hlogin _]]] _].
    cbn [snd]. exists r, db''. exact Hlogin.
  - destruct (register morning long_patient opening) as [r db'] eqn:Hcall.
    assert (Hr : exists body, r = Ok (Sent 201 body))
      by (vm_compute in Hcall; injection Hcall as <- _; eauto).
    destruct Hr as [body ->].
    destruct (register_then_sign_in morning an_hour_later long_patient opening
                db' body Hcall) as [_ [Hsame _]].
    destruct (Hsame (seventy_two ++ "zz")) as [r [db'' [Hlogin _]]].
    + apply key72_beyond. vm_compute. lia.
    + cbn [snd]. exists r, db''. exact Hlogin.
Defined.

(** X22.  Booking and rescheduling never look at the doctor's windows.
    Whatever rows doctor_availability holds, a booking and an update give
    the same answer and write the same rows: a time outside every window,
    or with a doctor who has stored no window at all, is booked like any
    other. *)
Theorem booking_ignores_the_windows
        (e : env) (caller : req_user) (b : create_body)
        (appointmentId : Z) (updates : update_body)
        (windows : list doctor_availability_row) (db : Db) :
  createAppointment e caller b (set_doctor_availability windows db)
  = (fst (createAppointment e caller b db),
     set_doctor_availability windows (snd (createAppointment e caller b db)))
  /\ updateAppointment caller appointmentId updates
       (set_doctor_availability windows db)
     = (fst (updateAppointment caller appointmentId updates db),
        set_doctor_availability windows
          (snd (updateAppointment caller appointmentId updates db))).
Proof.
  split.
  - unfold createAppointment, transaction, bind, query, throw, ret,
      insertAppointment, availableDoctors, conflictsOnCreate.
    cbn [users doctors appointments set_doctor_availability].
    destruct (flat_map _ (doctors db)) as [|doc others]; [reflexivity|].
    cbn [users doctors appointments set_doctor_availability].
    destruct (filter _ (appointments db)); [|reflexivity].
    destruct (type_of_string (cb_type b)) as [ty|]; [|reflexivity].
    cbn [users doctors appointments set_doctor_availability].
    destruct (_ || _); [reflexivity|].
    destruct (duplicates_key _ _); reflexivity.
  - unfold updateAppointment, transaction, bind, query, throw, ret,
      appointmentWithDoctor, conflictsOnUpdate, updateAppointmentRow.
    cbn [users doctors appointments set_doctor_availability].
    destruct (flat_map _ (appointments db))
      as [|[appointment doctor_user_id] rest]; [reflexivity|].
    destruct (canUpdate caller appointment doctor_user_id);
      cbn [negb]; [|reflexivity].
    destruct (role_eqb (role_of caller) patient
              && negb (status_eqb (a_status appointment) scheduled));
      [reflexivity|].
    destruct (role_eqb (role_of caller) patient && hasDisallowedFields updates);
      [reflexivity|].
    destruct (is_some (ub_appointmentDate updates)
              || is_some (ub_appointmentTime updates));
      cbn [users doctors appointments set_doctor_availability];
      [destruct (filter _ (appointments db)); [|reflexivity]|];
      (destruct (updateFields updates); [reflexivity|]);
      cbn [users doctors appointments set_doctor_availability];
      (destruct (existsb is_inherited _); [reflexivity|]);
      (destruct (existsb _ _); [reflexivity|]);
      cbn [appointments set_appointments set_doctor_availability fst snd];
      (destruct (filter _ _); reflexivity).
Qed.

Lemma getAvailability_weekday (fuel : nat) (e : env) (doctorId date : Z)
      (db : Db) (body : availability_json) :
  getAvailability fuel e doctorId date db = Some (Sent 200 body) ->
  dayOfWeek body
  = nth (Z.to_nat (getDay e (Date_of_day date))) dayNames "".
Proof.
  unfold getAvailability.
  destruct (Date_of_day date <? today e)%Z; [discriminate|]. cbv zeta.
  destruct (availabilityOn doctorId _ db) as [|[start_time end_time] rest];
    [now intros [= <-]|].
  destruct (clock start_time) as [startTime|]; [|now intros [= <-]].
  destruct (slotLoop fuel _ _ startTime []); [|discriminate].
  now intros [= <-].
Qed.

(** X23.  The listing and the server's time zone.  The requested date is
    read as midnight UTC and compared, and its weekday taken, in local time.
    On a server at or east of Greenwich (less than a day) the weekday in the
    answer is the date's own and today's date is never refused as past.  On
    a server west of Greenwich the answer carries the weekday before the
    date's, so the windows of the day before are listed, and a request for
    today's local date is refused as a past date. *)
Theorem listing_and_the_time_zone
        (fuel : nat) (e : env) (doctorId date : Z) (db : Db) :
  (forall body,
      getAvailability fuel e doctorId date db = Some (Sent 200 body) ->
      ((0 <= tz e < msPerDay)%Z ->
       dayOfWeek body = nth (Z.to_nat ((date + 4) mod 7)) dayNames "")
      /\ ((- msPerDay <= tz e < 0)%Z ->
          dayOfWeek body = nth (Z.to_nat ((date + 3) mod 7)) dayNames ""))
  /\ ((tz e < 0)%Z ->
      getAvailability fuel e doctorId ((now e + tz e) / msPerDay) db
      = Some (Refused (mkFailure 400
                         "Cannot check availability for past dates" "")))
  /\ ((0 <= tz e)%Z ->
      forall f,
        getAvailability fuel e doctorId ((now e + tz e) / msPerDay) db
        <> Some (Refused f)).
Proof.
  split; [|split].
  - intros body Hsent. apply getAvailability_weekday in Hsent.
    rewrite Hsent. unfold getDay, Date_of_day, msPerDay. split; intros Htz.
    + do 3 f_equal. rewrite Z.div_add_l by lia.
      rewrite (Z.div_small (tz e)) by lia. lia.
    + do 3 f_equal.
      replace (date * 86400000 + tz e)%Z
        with ((date - 1) * 86400000 + (tz e + 86400000))%Z by lia.
      rewrite Z.div_add_l by lia.
      rewrite (Z.div_small (tz e + 86400000)) by lia. lia.
  - intros Hwest. unfold getAvailability, today, Date_of_day.
    destruct (Z.ltb_spec ((now e + tz e) / msPerDay * msPerDay)
                         ((now e + tz e) / msPerDay * msPerDay - tz e));
      [reflexivity|lia].
  - intros Heast f. unfold getAvailability, today, Date_of_day.
    destruct (Z.ltb_spec ((now e + tz e) / msPerDay * msPerDay)
                         ((now e + tz e) / msPerDay * msPerDay - tz e));
      [lia|].
    cbv zeta.
    destruct (availabilityOn doctorId _ db) as [|[start_time end_time] rest];
      [discriminate|].
    destruct (clock start_time) as [startTime|]; [|discriminate].
    destruct (slotLoop fuel _ _ startTime []); discriminate.
Qed.

Lemma monday_morning_in_new_york :
  getAvailability 48 new_york 1 monday_15 opening
  = Some (Refused (mkFailure 400 "Cannot check availability for past dates"
                             ""))
  /\ option_map
       (fun r => match r with
                 | Sent _ body => dayOfWeek body
                 | Refused _ => ""
                 end)
       (getAvailability 48 new_york 1 (monday_15 + 1) opening)
     = Some "monday".
Proof.
  destruct (listing_and_the_time_zone 48 new_york 1 monday_15 opening)
    as [_ [Hpast _]].
  split; [apply Hpast; reflexivity|].
  destruct (listing_and_the_time_zone 48 new_york 1 (monday_15 + 1) opening)
    as [Hday _].
  destruct (getAvailability 48 new_york 1 (monday_15 + 1) opening)
    as [[status body|f]|] eqn:Hcall;
    try (vm_compute in Hcall; discriminate).
  assert (Hstatus : status = 200%Z)
    by (vm_compute in Hcall; now injection Hcall as <- _).
  subst status. cbn [option_map].
  destruct (Hday body eq_refl) as [_ Hwest]. rewrite Hwest; [reflexivity|].
  vm_compute. split; [discriminate|reflexivity].
Defined.

(** ** Errors that reach the error handler *)

Lemma updateFields_nothing (u : update_body) :
  updateFields u = [] ->
  ub_appointmentDate u = None /\ ub_appointmentTime u = None.
Proof.
  unfold updateFields, Object_keys.
  destruct (ub_appointmentDate u); [discriminate|].
  destruct (ub_appointmentTime u); [discriminate|]. auto.
Qed.

Lemma insertWindows_app (doctorId : Z) (good rest : list window) :
  forall db,
    forallb accepted good = true ->
    insertWindows doctorId (good ++ rest)%list db
    = insertWindows doctorId rest
        (set_doctor_availability
           (doctor_availability db ++ map (row_of doctorId) good) db).
Proof.
  induction good as [|w good IH]; intros db Hall.
  - cbn [app map]. rewrite app_nil_r. now destruct db.
  - cbn [forallb] in Hall. apply andb_true_iff in Hall.
    destruct Hall as [Hw Hall]. cbn [insertWindows map app].
    unfold accepted in Hw. unfold row_of at 1.
    destruct (w_dayOfWeek w) as [day|]; [|discriminate].
    destruct (w_startTime w) as [startTime|]; [|discriminate].
    destruct (w_endTime w) as [endTime|]; [|discriminate].
    apply andb_true_iff in Hw. destruct Hw as [Hday Henum].
    apply negb_true_iff in Hday. rewrite Hday, Henum. cbn [negb].
    unfold bind, execute. rewrite (IH _ Hall).
    cbn [doctor_availability set_doctor_availability or_default].
    rewrite set_doctor_availability_twice, <- app_assoc. reflexivity.
Qed.

(** X24.  Two requests that the handlers mean to refuse as invalid are
    answered 500.  An update that names no updatable field, from a caller
    who may update the appointment, and an availability replacement whose
    first window that is not accepted lacks its day, start or end, both
    evaluate [new ValidationError(...)] in a module that does not import
    that name; the ReferenceError is rolled back and the error handler
    turns it into 500 INTERNAL_ERROR. *)
Theorem invalid_requests_answered_500
        (caller : req_user) (appointmentId : Z) (updates : update_body)
        (db : Db) (appointment : appointments_row) (doctor_user_id : Z)
        (found : list (appointments_row * Z))
        (good : list window) (w : window) (rest : list window)
        (doc : doctors_row) (others : list doctors_row) :
  (appointmentWithDoctor appointmentId db
   = (appointment, doctor_user_id) :: found ->
   canUpdate caller appointment doctor_user_id = true ->
   (role_of caller = patient ->
    a_status appointment = scheduled /\ hasDisallowedFields updates = false) ->
   updateFields updates = [] ->
   updateAppointment caller appointmentId updates db
   = (Throw (ReferenceError "ValidationError"), db))
  /\ (filter (fun d => (d_user_id d =? id caller)%Z) (doctors db)
      = doc :: others ->
      forallb accepted good = true ->
      w_dayOfWeek w = None \/ w_dayOfWeek w = Some ""
      \/ w_startTime w = None \/ w_endTime w = None ->
      setAvailability caller (Some (good ++ w :: rest)%list) db
      = (Throw (ReferenceError "ValidationError"), db))
  /\ errorHandler (ReferenceError "ValidationError")
     = mkFailure 500 "Internal server error" "INTERNAL_ERROR".
Proof.
  split; [|split; [|reflexivity]].
  - intros Hfound Hcan Hpatient Hnothing.
    destruct (updateFields_nothing updates Hnothing) as [Hdate Htime].
    unfold updateAppointment, transaction, bind, query, throw, ret.
    rewrite Hfound, Hcan, Hdate, Htime, Hnothing. cbn [negb is_some orb].
    destruct (role_of caller) eqn:Hrole; cbn [role_eqb andb]; try reflexivity.
    destruct (Hpatient eq_refl) as [-> ->]. reflexivity.
  - intros Hdoctor Hgood Hlacks.
    unfold setAvailability, bind, query, transaction, ret, execute.
    rewrite Hdoctor, (insertWindows_app _ _ _ _ Hgood).
    cbn [insertWindows].
    destruct (w_dayOfWeek w) as [day|]; [|reflexivity].
    destruct (w_startTime w) as [startTime|];
      [|destruct Hlacks as [H|[H|[H|H]]]; reflexivity].
    destruct (w_endTime w) as [endTime|];
      [|destruct Hlacks as [H|[H|[H|H]]]; reflexivity].
    destruct Hlacks as [H|[H|[H|H]]]; try discriminate.
    injection H as ->. reflexivity.
Qed.

Lemma update_without_fields_and_open_ended_window :
  updateAppointment (as_user john) 1 no_changes booked
  = (Throw (ReferenceError "ValidationError"), booked)
  /\ setAvailability (as_user sarah) (Some [open_ended]) opening
     = (Throw (ReferenceError "ValidationError"), opening).
Proof.
  destruct (invalid_requests_answered_500 (as_user john) 1 no_changes booked
              checkup 5 [] [] open_ended [] cardiology [])
    as [Hupdate _].
  destruct (invalid_requests_answered_500 (as_user sarah) 1 no_changes opening
              checkup 5 [] [] open_ended [] cardiology [])
    as [_ [Hwindow _]].
  split.
  - apply Hupdate; try reflexivity. intros _. split; reflexivity.
  - apply Hwindow; try reflexivity. vm_compute. auto.
Defined.

(** ** Administration of accounts *)

Lemma deleteUser_inversion (caller : req_user) (target : Z) (db db' : Db)
      (r : reply delete_json) :
  deleteUser caller target db = (Ok r, db') ->
  (r = Refused (mkFailure 400 "Cannot delete your own account" "")
   /\ target = id caller /\ db' = db)
  \/ (r = Sent 200 (mkDeleteJson "User deleted successfully" target)
      /\ target <> id caller
      /\ (exists u, In u (users db) /\ u_id u = target)
      /\ db' = cascade target db).
Proof.
  unfold deleteUser, bind, query, throw, ret, execute.
  destruct (Z.eqb_spec target (id caller)) as [Hself|Hother].
  - intros [= <- <-]. left. auto.
  - destruct (filter (fun u => (u_id u =? target)%Z) (users db))
      as [|u rest] eqn:Hrows; [discriminate|].
    intros [= <- <-]. right. repeat split; try assumption.
    exists u.
    assert (Hu : In u (filter (fun u => (u_id u =? target)%Z) (users db)))
      by (rewrite Hrows; now left).
    apply filter_In in Hu. destruct Hu as [Hin Hid].
    apply Z.eqb_eq in Hid. auto.
Qed.

(** X25.  Deleting an account.  An administrator cannot delete the account
    the call is made with (400) and an unknown id gives NotFoundError; both
    write nothing.  A deletion that succeeds leaves no row of the account:
    no account row, no doctors row, no appointment as patient, no refresh
    record; with a doctor's account go all appointments with that doctor,
    whoever the patient.  Rows that do not hang on the account stay, the
    foreign keys among the tables still hold, and every access or refresh
    token of the account is refused from then on. *)
Theorem deleteUser_removes_the_account
        (caller : req_user) (target : Z) (db : Db) :
  deleteUser caller (id caller) db
  = (Ok (Refused (mkFailure 400 "Cannot delete your own account" "")), db)
  /\ (target <> id caller ->
      (forall u, In u (users db) -> u_id u <> target) ->
      deleteUser caller target db = (Throw (NotFoundError "User"), db))
  /\ (forall body db',
         deleteUser caller target db = (Ok (Sent 200 body), db') ->
         (forall u, In u (users db') -> u_id u <> target)
         /\ (forall d, In d (doctors db') -> d_user_id d <> target)
         /\ (forall a, In a (appointments db') ->
                       a_patient_id a <> target
                       /\ forall d, In d (doctors db) ->
                                    d_user_id d = target ->
                                    a_doctor_id a <> d_id d)
         /\ (forall r, In r (refresh_tokens db') -> rt_user_id r <> target)
         /\ (forall u, u_id u <> target ->
                       In u (users db') <-> In u (users db))
         /\ (forall a, In a (appointments db) ->
                       a_patient_id a <> target ->
                       (forall d, In d (doctors db) ->
                                  d_id d = a_doctor_id a ->
                                  d_user_id d <> target) ->
                       In a (appointments db'))
         /\ (references_hold db -> references_hold db')
         /\ (forall e scheme t decoded,
                Jwt.verify t Jwt.JWT_SECRET (now e) = Ok decoded ->
                Jwt.userId decoded = target ->
                authenticateToken e db' (Some [scheme; t])
                = Answer (mkFailure 401
                            "Invalid token - user not found or inactive"
                            "INVALID_TOKEN"))
         /\ (forall e p,
                Jwt.userId p = target ->
                exists err,
                  refresh e (Some (Jwt.Signed Jwt.JWT_REFRESH_SECRET p)) db'
                  = (Throw err, db'))).
Proof.
  split; [|split].
  - unfold deleteUser. now rewrite Z.eqb_refl.
  - intros Hother Hnone. unfold deleteUser, bind, query, throw.
    apply Z.eqb_neq in Hother. rewrite Hother.
    rewrite filter_nothing; [reflexivity|].
    intros u Hu. apply Z.eqb_neq. now apply Hnone.
  - intros body db' Hok. apply deleteUser_inversion in Hok.
    destruct Hok as [[Hr _]|[_ [Hother [_ ->]]]]; [discriminate|].
    assert (Husers : forall u, In u (users (cascade target db)) ->
                               In u (users db) /\ u_id u <> target).
    { intros u Hu. cbn [cascade users] in Hu. apply filter_In in Hu.
      destruct Hu as [Hin Hu]. apply negb_true_iff, Z.eqb_neq in Hu. auto. }
    assert (Hdoctors : forall d, In d (doctors (cascade target db)) ->
                                 In d (doctors db) /\ d_user_id d <> target).
    { intros d Hd. cbn [cascade doctors] in Hd. apply filter_In in Hd.
      destruct Hd as [Hin Hd]. apply negb_true_iff, Z.eqb_neq in Hd. auto. }
    assert (Hremoved : forall doctorId,
               existsb (fun d => (d_id d =? doctorId)%Z
                                 && (d_user_id d =? target)%Z) (doctors db)
               = false ->
               forall d, In d (doctors db) -> d_id d = doctorId ->
                         d_user_id d <> target).
    { intros doctorId Hnone d Hd Hid Huser.
      rewrite existsb_false_forall in Hnone. specialize (Hnone d Hd).
      apply Z.eqb_eq in Hid, Huser. rewrite Hid, Huser in Hnone.
      discriminate. }
    assert (Happointments :
              forall a, In a (appointments (cascade target db)) ->
                        In a (appointments db) /\ a_patient_id a <> target
                        /\ forall d, In d (doctors db) ->
                                     d_id d = a_doctor_id a ->
                                     d_user_id d <> target).
    { intros a Ha. cbn [cascade appointments] in Ha. apply filter_In in Ha.
      destruct Ha as [Hin Ha]. apply andb_true_iff in Ha.
      destruct Ha as [Hp Hd]. apply negb_true_iff in Hp, Hd.
      apply Z.eqb_neq in Hp. split; [assumption|]. split; [assumption|].
      now apply Hremoved. }
    assert (Htokens : forall r, In r (refresh_tokens (cascade target db)) ->
                                In r (refresh_tokens db)
                                /\ rt_user_id r <> target).
    { intros r Hr. cbn [cascade refresh_tokens] in Hr. apply filter_In in Hr.
      destruct Hr as [Hin Hr]. apply negb_true_iff, Z.eqb_neq in Hr. auto. }
    split; [intros u Hu; now apply Husers|].
    split; [intros d Hd; now apply Hdoctors|].
    split.
    { intros a Ha. destruct (Happointments a Ha) as [_ [Hp Hd]].
      split; [assumption|]. intros d Hin Huser Hid.
      now apply (Hd d Hin (eq_sym Hid)). }
    split; [intros r Hr; now apply Htokens|].
    split.
    { intros u Hu. cbn [cascade users]. rewrite filter_In. split.
      - now intros [Hin _].
      - intros Hin. split; [assumption|].
        now apply negb_true_iff, Z.eqb_neq. }
    split.
    { intros a Hin Hp Hd. cbn [cascade appointments]. apply filter_In.
      split; [assumption|]. apply andb_true_iff. split.
      - now apply negb_true_iff, Z.eqb_neq.
      - apply negb_true_iff, existsb_false_forall. intros d Hdin.
        destruct (Z.eqb_spec (d_id d) (a_doctor_id a)) as [Hid|_];
          [|reflexivity].
        cbn [andb]. apply Z.eqb_neq. now apply Hd. }
    split.
    { intros [Hfk1 [Hfk2 [Hfk3 Hfk4]]].
      assert (Huser_kept : forall u, In u (users db) -> u_id u <> target ->
                                     In u (users (cascade target db))).
      { intros u Hin Hu. cbn [cascade users]. apply filter_In.
        split; [assumption|]. now apply negb_true_iff, Z.eqb_neq. }
      assert (Hdoctor_kept : forall d, In d (doctors db) ->
                                       d_user_id d <> target ->
                                       In d (doctors (cascade target db))).
      { intros d Hin Hd. cbn [cascade doctors]. apply filter_In.
        split; [assumption|]. now apply negb_true_iff, Z.eqb_neq. }
      split; [|split; [|split]].
      - intros d Hd. destruct (Hdoctors d Hd) as [Hin Hkept].
        destruct (Hfk1 d Hin) as [u [Hu Hid]]. exists u.
        split; [|assumption]. apply Huser_kept; [assumption|congruence].
      - intros da Hda. cbn [cascade doctor_availability] in Hda.
        apply filter_In in Hda. destruct Hda as [Hin Hda].
        apply negb_true_iff in Hda.
        destruct (Hfk2 da Hin) as [d [Hd Hid]]. exists d.
        split; [|assumption]. apply Hdoctor_kept; [assumption|].
        now apply (Hremoved (da_doctor_id da)).
      - intros a Ha. destruct (Happointments a Ha) as [Hin [Hp Hd]].
        destruct (Hfk3 a Hin) as [[u [Hu Huid]] [d [Hdin Hdid]]]. split.
        + exists u. split; [|assumption].
          apply Huser_kept; [assumption|congruence].
        + exists d. split; [|assumption].
          apply Hdoctor_kept; [assumption|]. now apply Hd.
      - intros r Hr. destruct (Htokens r Hr) as [Hin Hkept].
        destruct (Hfk4 r Hin) as [u [Hu Hid]]. exists u.
        split; [|assumption]. apply Huser_kept; [assumption|congruence]. }
    split.
    { intros e scheme t decoded Hverify Huser.
      apply authenticate_requires_active with (decoded := decoded);
        [assumption|].
      intros u Hu Hid. exfalso. destruct (Husers u Hu) as [_ Hkept].
      congruence. }
    intros e p Huser. apply refresh_refused_when_revoked.
    intros row Hrow Hid. exfalso. destruct (Htokens row Hrow) as [_ Hkept].
    congruence.
Qed.

Lemma deleting_sarah_removes_the_checkup :
  appointments (snd (deleteUser (as_user administrator) 5 booked)) = []
  /\ authenticateToken an_hour_later
       (snd (deleteUser (as_user administrator) 5 booked))
       (bearer sarahs_access)
     = Answer (mkFailure 401 "Invalid token - user not found or inactive"
                         "INVALID_TOKEN").
Proof.
  destruct (deleteUser_removes_the_account (as_user administrator) 5 booked)
    as [_ [_ Hgone]].
  destruct (deleteUser (as_user administrator) 5 booked) as [r db'] eqn:Hcall.
  assert (Hr : exists body, r = Ok (Sent 200 body))
    by (vm_compute in Hcall; injection Hcall as <- _; eauto).
  destruct Hr as [body ->].
  assert (Hdb : appointments db' = [])
    by (vm_compute in Hcall; now injection Hcall as _ <-).
  destruct (Hgone body db' eq_refl) as [_ [_ [_ [_ [_ [_ [_ [Hrefused _]]]]]]]].
  cbn [snd]. split; [exact Hdb|].
  apply (Hrefused an_hour_later (Jwt.Opaque "Bearer") sarahs_access
                  (Jwt.mkPayload 5 1704949600 1705036000)); reflexivity.
Defined.

(** The user the middleware attaches is an active row of the table. *)
Lemma authenticate_names_a_row (e : env) (db : Db)
      (authHeader : option (list Jwt.token)) (caller : req_user) :
  authenticateToken e db authHeader = Next caller ->
  exists u, In u (users db) /\ u_is_active u = true
            /\ id caller = u_id u /\ role_of caller = u_role u.
Proof.
  unfold authenticateToken.
  destruct authHeader as [parts|]; [|discriminate].
  destruct (nth_error parts 1) as [t|]; [|discriminate].
  destruct (Jwt.falsy t); [discriminate|].
  destruct (Jwt.verify t Jwt.JWT_SECRET (now e)) as [decoded|[]];
    try discriminate.
  destruct (filter _ (users db)) as [|u rest] eqn:Hrows; [discriminate|].
  intros [= <-]. exists u.
  assert (Hu : In u (filter (fun u => (u_id u =? Jwt.userId decoded)%Z
                                      && u_is_active u) (users db)))
    by (rewrite Hrows; now left).
  apply filter_In in Hu. destruct Hu as [Hin Hu].
  apply andb_true_iff in Hu. destruct Hu as [_ Hactive]. auto.
Qed.

Lemma authorize_admin_only (caller : req_user) :
  authorizeRoles ["admin"] (Some caller) = Next tt <-> role_of caller = admin.
Proof.
  unfold authorizeRoles, includes.
  destruct (role_of caller); cbn; split; (reflexivity || discriminate).
Qed.

Lemma authorize_doctor_only (caller : req_user) :
  authorizeRoles ["doctor"] (Some caller) = Next tt <-> role_of caller = doctor.
Proof.
  unfold authorizeRoles, includes.
  destruct (role_of caller); cbn; split; (reflexivity || discriminate).
Qed.

(** X26.  The guards in front of the administration routes.  A request
    that authenticateToken refuses gets that refusal from all three routes;
    a caller who is not an admin gets 403 from the status and the delete
    route, one who is not a doctor gets 403 from the availability route,
    and an id below 1 or not an integer gets the validation failure; in each
    case nothing is written.  So whenever the status route or the delete
    route changes a table, the token named an active account with role
    admin. *)
Theorem administration_is_gated
        (e : env) (authHeader : option (list Jwt.token))
        (param_id : option Z) (isActive : option bool)
        (availability : option (list window)) (db : Db) :
  (forall f,
      authenticateToken e db authHeader = Answer f ->
      PUT_users_status e authHeader param_id isActive db
      = (Ok (Refused f), db)
      /\ DELETE_users e authHeader param_id db = (Ok (Refused f), db)
      /\ PUT_doctors_availability e authHeader availability db
         = (Ok (Refused f), db))
  /\ (forall caller,
         authenticateToken e db authHeader = Next caller ->
         (role_of caller <> admin ->
          PUT_users_status e authHeader param_id isActive db
          = (Ok (Refused (mkFailure 403 "Insufficient permissions"
                                    "INSUFFICIENT_PERMISSIONS")), db)
          /\ DELETE_users e authHeader param_id db
             = (Ok (Refused (mkFailure 403 "Insufficient permissions"
                                       "INSUFFICIENT_PERMISSIONS")), db))
         /\ (role_of caller <> doctor ->
             PUT_doctors_availability e authHeader availability db
             = (Ok (Refused (mkFailure 403 "Insufficient permissions"
                                       "INSUFFICIENT_PERMISSIONS")), db))
         /\ (role_of caller = admin ->
             (forall target, param_id = Some target -> (1 <= target)%Z ->
                PUT_users_status e authHeader param_id isActive db
                = updateUserStatus caller target isActive db
                /\ DELETE_users e authHeader param_id db
                   = deleteUser caller target db)
             /\ ((forall target, param_id = Some target -> (target < 1)%Z) ->
                 PUT_users_status e authHeader param_id isActive db
                 = (Ok (Refused (mkFailureWith 400 "Validation failed" ""
                                   [("id", "Valid ID is required")])), db)
                 /\ DELETE_users e authHeader param_id db
                    = (Ok (Refused (mkFailureWith 400 "Validation failed" ""
                                      [("id", "Valid ID is required")])),
                       db)))
         /\ (role_of caller = doctor ->
             PUT_doctors_availability e authHeader availability db
             = setAvailability caller availability db))
  /\ (forall outcome removal db',
         PUT_users_status e authHeader param_id isActive db = (outcome, db')
         \/ DELETE_users e authHeader param_id db = (removal, db') ->
         db' <> db ->
         exists u, In u (users db) /\ u_is_active u = true
                   /\ u_role u = admin).
Proof.
  split; [|split].
  - intros f Hrefused.
    unfold PUT_users_status, DELETE_users, PUT_doctors_availability.
    rewrite Hrefused. auto.
  - intros caller Hcaller.
    unfold PUT_users_status, DELETE_users, PUT_doctors_availability.
    rewrite Hcaller.
    pose proof (authorize_admin_only caller) as Hadmin.
    pose proof (authorize_doctor_only caller) as Hdoctor.
    unfold authorizeRoles, includes in *.
    split; [|split; [|split]].
    + intros Hrole. destruct (role_of caller); cbn; auto.
      now contradiction Hrole.
    + intros Hrole. destruct (role_of caller); cbn; auto.
      now contradiction Hrole.
    + intros ->. cbn. unfold idValidation, check, handleValidationErrors.
      split.
      * intros target -> Hvalid. cbn [or_default].
        destruct (Z.leb_spec 1 target); [auto|lia].
      * intros Hinvalid. destruct param_id as [target|]; [|auto].
        specialize (Hinvalid target eq_refl).
        destruct (Z.leb_spec 1 target); [lia|auto].
    + intros ->. reflexivity.
  - intros outcome removal db' Hcall Hchanged.
    unfold PUT_users_status, DELETE_users in Hcall.
    destruct (authenticateToken e db authHeader) as [caller|f] eqn:Hcaller.
    + destruct (authenticate_names_a_row _ _ _ _ Hcaller)
        as [u [Hin [Hactive [_ Hrole]]]].
      pose proof (authorize_admin_only caller) as Hadmin.
      destruct (authorizeRoles ["admin"] (Some caller)) as [[]|f].
      * exists u. split; [assumption|]. split; [assumption|].
        rewrite <- Hrole. now apply Hadmin.
      * destruct Hcall as [[= _ <-]|[= _ <-]]; now contradiction Hchanged.
    + destruct Hcall as [[= _ <-]|[= _ <-]]; now contradiction Hchanged.
Qed.

Lemma john_cannot_deactivate_jane :
  PUT_users_status morning (bearer (accessToken johns_tokens)) (Some 3)
                   (Some false) opening
  = (Ok (Refused (mkFailure 403 "Insufficient permissions"
                            "INSUFFICIENT_PERMISSIONS")), opening).
Proof.
  destruct (administration_is_gated morning
              (bearer (accessToken johns_tokens)) (Some 3) (Some false) None
              opening) as [_ [Hgate _]].
  destruct (Hgate (as_user john) eq_refl) as [Hadmin _].
  apply Hadmin. discriminate.
Defined.

(** ** The foreign keys *)

(** The foreign keys hold in [db'] when the ids of accounts and doctors
    of [db] are still there and every referencing row of [db'] refers to
    what a row of [db] referred to, or to a row of [db']. *)
Lemma references_carry (db db' : Db) :
  references_hold db ->
  (forall u, In u (users db) ->
             exists u', In u' (users db') /\ u_id u' = u_id u) ->
  (forall d, In d (doctors db) ->
             exists d', In d' (doctors db') /\ d_id d' = d_id d) ->
  (forall d, In d (doctors db') ->
             (exists x, In x (doctors db) /\ d_user_id x = d_user_id d)
             \/ exists u, In u (users db') /\ u_id u = d_user_id d) ->
  (forall da, In da (doctor_availability db') ->
              (exists x, In x (doctor_availability db)
                         /\ da_doctor_id x = da_doctor_id da)
              \/ exists d, In d (doctors db') /\ d_id d = da_doctor_id da) ->
  (forall a, In a (appointments db') ->
             (exists x, In x (appointments db)
                        /\ a_patient_id x = a_patient_id a
                        /\ a_doctor_id x = a_doctor_id a)
             \/ ((exists u, In u (users db') /\ u_id u = a_patient_id a)
                 /\ exists d, In d (doctors db') /\ d_id d = a_doctor_id a)) ->
  (forall r, In r (refresh_tokens db') ->
             (exists x, In x (refresh_tokens db)
                        /\ rt_user_id x = rt_user_id r)
             \/ exists u, In u (users db') /\ u_id u = rt_user_id r) ->
  references_hold db'.
Proof.
  intros [Hfk1 [Hfk2 [Hfk3 Hfk4]]] Husers Hdoctors H1 H2 H3 H4.
  assert (Huser : forall k, (exists u, In u (users db) /\ u_id u = k) ->
                            exists u, In u (users db') /\ u_id u = k).
  { intros k [u [Hu <-]]. now apply Husers. }
  assert (Hdoctor : forall k, (exists d, In d (doctors db) /\ d_id d = k) ->
                              exists d, In d (doctors db') /\ d_id d = k).
  { intros k [d [Hd <-]]. now apply Hdoctors. }
  split; [|split; [|split]].
  - intros d Hd. destruct (H1 d Hd) as [[x [Hx <-]]|Hnew]; [|assumption].
    now apply Huser, Hfk1.
  - intros da Hda. destruct (H2 da Hda) as [[x [Hx <-]]|Hnew]; [|assumption].
    now apply Hdoctor, Hfk2.
  - intros a Ha. destruct (H3 a Ha) as [[x [Hx [<- <-]]]|Hnew]; [|assumption].
    destruct (Hfk3 x Hx). split; [now apply Huser|now apply Hdoctor].
  - intros r Hr. destruct (H4 r Hr) as [[x [Hx <-]]|Hnew]; [|assumption].
    now apply Huser, Hfk4.
Qed.

Ltac same_rows :=
  let x := fresh "x" in
  let Hx := fresh "Hx" in
  intros x Hx;
  first [ exists x; split; [exact Hx|reflexivity]
        | left; exists x; repeat split; exact Hx ].

Ltac mapped_rows :=
  let x := fresh "x" in
  let y := fresh "y" in
  let Hx := fresh "Hx" in
  let Hy := fresh "Hy" in
  intros x Hx; apply in_map_iff in Hx; destruct Hx as [y [Hy Hx]];
  left; exists y; subst x;
  repeat split; try exact Hx;
  match goal with
  | |- context [if ?c then _ else _] => now destruct c
  end.

Lemma in_mapped_id {A : Type} (key : A -> Z) (f : A -> A) (l : list A) :
  (forall a, key (f a) = key a) ->
  forall a, In a l -> exists a', In a' (map f l) /\ key a' = key a.
Proof.
  intros Hkey a Ha. exists (f a). split; [now apply in_map|apply Hkey].
Qed.

Lemma createAppointment_references (e : env) (caller : req_user)
      (b : create_body) (db db' : Db) (r : reply appointment_json) :
  createAppointment e caller b db = (Ok r, db') ->
  exists row,
    db' = set_appointments (appointments db ++ [row])%list db
    /\ (exists u, In u (users db) /\ u_id u = a_patient_id row)
    /\ exists d, In d (doctors db) /\ d_id d = a_doctor_id row.
Proof.
  unfold createAppointment, transaction, bind, query, throw, ret.
  destruct (availableDoctors _ db) as [|doc others]; [discriminate|].
  destruct (conflictsOnCreate _ _ _ db); [|discriminate].
  destruct (type_of_string (cb_type b)) as [ty|]; [|discriminate].
  unfold insertAppointment.
  destruct (existsb (fun u => _) (users db)) eqn:Hpatient;
    cbn [negb orb]; [|discriminate].
  destruct (existsb (fun d => _) (doctors db)) eqn:Hdoctor;
    cbn [negb]; [|discriminate].
  destruct (duplicates_key _ _); [discriminate|].
  intros [= _ <-]. eexists. split; [reflexivity|].
  apply existsb_exists in Hpatient, Hdoctor.
  destruct Hpatient as [u [Hu Huid]], Hdoctor as [d [Hd Hdid]].
  apply Z.eqb_eq in Huid, Hdid. split; eauto.
Qed.

(** X27.  The foreign keys survive the handlers.  When every doctors row
    has its account, every window its doctor, every appointment its patient
    and its doctor, and every refresh record its account, the same holds
    after a registration, a login, a refresh, a logout, a password change,
    a status change, a booking, an update, a cancellation and a replacement
    of windows: none of their writes can be refused by a foreign key. *)
Theorem foreign_keys_are_kept
        (e : env) (caller : req_user) (db db' : Db)
        (b : register_body) (email password : string) (t : Jwt.token)
        (presented : option Jwt.token) (current new : option string)
        (target : Z) (isActive : option bool) (booking : create_body)
        (appointmentId : Z) (updates : update_body)
        (availability : option (list window)) :
  references_hold db ->
  (forall r, register e b db = (Ok r, db') -> references_hold db')
  /\ (forall r, login e email password db = (Ok r, db') ->
                references_hold db')
  /\ (forall r, refresh e (Some t) db = (Ok r, db') -> references_hold db')
  /\ (forall r, logout caller presented db = (Ok r, db') ->
                references_hold db')
  /\ (forall r, changePassword e caller current new db = (Ok r, db') ->
                references_hold db')
  /\ (forall r, updateUserStatus caller target isActive db = (Ok r, db') ->
                references_hold db')
  /\ (forall r, createAppointment e caller booking db = (Ok r, db') ->
                references_hold db')
  /\ (forall r, updateAppointment caller appointmentId updates db
                = (Ok r, db') -> references_hold db')
  /\ (forall r, cancelAppointment caller appointmentId db = (Ok r, db') ->
                references_hold db')
  /\ (forall r, setAvailability caller availability db = (Ok r, db') ->
                references_hold db').
Proof.
  intros Hrefs.
  assert (Hrevoke : forall rid x,
             In x (revoke rid (refresh_tokens db)) ->
             exists y, In y (refresh_tokens db)
                       /\ rt_user_id y = rt_user_id x).
  { intros rid x Hx. apply in_map_iff in Hx. destruct Hx as [y [<- Hy]].
    exists y. split; [assumption|]. now destruct (rt_id y =? rid)%Z. }
  assert (HrevokeAll : forall uid x,
             In x (revokeAll uid (refresh_tokens db)) ->
             exists y, In y (refresh_tokens db)
                       /\ rt_user_id y = rt_user_id x).
  { intros uid x Hx. apply in_map_iff in Hx. destruct Hx as [y [<- Hy]].
    exists y. split; [assumption|]. now destruct (rt_user_id y =? uid)%Z. }
  repeat match goal with |- _ /\ _ => split end; intros r Hok.
  - (* register *)
    apply register_inversion in Hok.
    destruct Hok as [ro [_ [_ [_ [Husers [Hdoctors [Htokens
                     [Happointments [Hwindows _]]]]]]]]].
    apply (references_carry db db' Hrefs).
    + intros u Hu. exists u. rewrite Husers. split; [|reflexivity].
      apply in_or_app. now left.
    + intros d Hd. exists d. rewrite Hdoctors. split; [|reflexivity].
      destruct (_ =? "doctor")%string; [apply in_or_app; now left|assumption].
    + intros d Hd. rewrite Hdoctors in Hd.
      destruct (_ =? "doctor")%string; [|left; now exists d].
      apply in_app_or in Hd. destruct Hd as [Hd|[<-|[]]];
        [left; now exists d|].
      right. eexists. rewrite Husers. split.
      * apply in_or_app. right. now left.
      * reflexivity.
    + rewrite Hwindows. same_rows.
    + rewrite Happointments. same_rows.
    + intros x Hx. rewrite Htokens in Hx. apply in_app_or in Hx.
      destruct Hx as [Hx|[<-|[]]]; [left; now exists x|].
      right. eexists. rewrite Husers. split.
      * apply in_or_app. right. now left.
      * reflexivity.
  - (* login *)
    apply login_inversion in Hok.
    destruct Hok as [u [rest [Hfound [_ [_ [_ ->]]]]]].
    assert (Hu : In u (filter (fun u => (u_email u =? email)%string)
                              (users db))) by (rewrite Hfound; now left).
    apply filter_In in Hu. destruct Hu as [Hu _].
    apply (references_carry _ _ Hrefs);
      cbn [users doctors doctor_availability appointments refresh_tokens
           set_refresh_tokens]; try same_rows.
    intros x Hx. apply in_app_or in Hx.
    destruct Hx as [Hx|[<-|[]]]; [left; now exists x|].
    right. now exists u.
  - (* refresh *)
    apply refresh_inversion in Hok.
    destruct Hok as [p [valid [_ [_ [Hin [[Huser _] [_ ->]]]]]]].
    apply (references_carry _ _ Hrefs);
      cbn [users doctors doctor_availability appointments refresh_tokens
           set_refresh_tokens]; try same_rows.
    intros x Hx. apply in_app_or in Hx. destruct Hx as [Hx|[<-|[]]].
    + left. now apply (Hrevoke (rt_id valid)).
    + left. now exists valid.
  - (* logout *)
    assert (Hall : references_hold
                     (set_refresh_tokens
                        (revokeAll (id caller) (refresh_tokens db)) db)).
    { apply (references_carry _ _ Hrefs);
        cbn [users doctors doctor_availability appointments refresh_tokens
             set_refresh_tokens]; try same_rows.
      intros x Hx. left. now apply (HrevokeAll (id caller)). }
    revert Hok. unfold logout, bind, query, execute, ret.
    destruct presented as [token|]; [|now intros [= _ <-]].
    destruct (Jwt.falsy token); [now intros [= _ <-]|].
    destruct (validToken token _) as [row|]; intros [= _ <-];
      [|assumption].
    apply (references_carry _ _ Hrefs);
      cbn [users doctors doctor_availability appointments refresh_tokens
           set_refresh_tokens]; try same_rows.
    intros x Hx. left. now apply (Hrevoke (rt_id row)).
  - (* changePassword *)
    revert Hok. unfold changePassword, bind, query, execute, ret, throw.
    destruct (_ || _); [now intros [= _ <-]|].
    destruct (_ <? 8)%Z; [now intros [= _ <-]|].
    destruct (filter _ (users db)) as [|u rest]; [discriminate|].
    destruct (negb _); intros [= _ <-]; [assumption|].
    apply (references_carry _ _ Hrefs);
      cbn [users doctors doctor_availability appointments refresh_tokens
           set_refresh_tokens set_users]; try same_rows.
    + apply in_mapped_id. intros a. now destruct (u_id a =? id caller)%Z.
    + intros x Hx. left. now apply (HrevokeAll (id caller)).
  - (* updateUserStatus *)
    revert Hok. unfold updateUserStatus, bind, ret, throw, execute.
    destruct isActive as [active|]; [|now intros [= _ <-]].
    destruct (_ && negb active); [now intros [= _ <-]|].
    destruct (_ =? 0)%Z; [discriminate|].
    assert (Husers : forall u, In u (users db) ->
              exists u',
                In u' (map (fun u =>
                              if (u_id u =? target)%Z
                              then mkUser (u_id u) (u_email u)
                                     (u_password_hash u) (u_role u)
                                     (u_first_name u) (u_last_name u)
                                     active (u_email_verified u)
                              else u) (users db))
                /\ u_id u' = u_id u).
    { apply in_mapped_id. intros a. now destruct (u_id a =? target)%Z. }
    destruct active; cbn [negb]; intros [= _ <-];
      apply (references_carry _ _ Hrefs);
      cbn [users doctors doctor_availability appointments refresh_tokens
           set_refresh_tokens set_users]; try same_rows; try exact Husers.
    intros x Hx. left. now apply (HrevokeAll target).
  - (* createAppointment *)
    apply createAppointment_references in Hok.
    destruct Hok as [row [-> [Hpatient Hdoctor]]].
    apply (references_carry _ _ Hrefs);
      cbn [users doctors doctor_availability appointments refresh_tokens
           set_appointments]; try same_rows.
    intros x Hx. apply in_app_or in Hx.
    destruct Hx as [Hx|[<-|[]]]; [left; now exists x|].
    right. split; assumption.
  - (* updateAppointment *)
    apply updateAppointment_committed in Hok. destruct Hok as [-> _].
    apply (references_carry _ _ Hrefs);
      cbn [users doctors doctor_availability appointments refresh_tokens
           set_appointments]; try same_rows.
    mapped_rows.
  - (* cancelAppointment *)
    apply cancelAppointment_inversion in Hok.
    destruct Hok as [appointment [doctor_user_id [rest [_ [_ [_ ->]]]]]].
    apply (references_carry _ _ Hrefs);
      cbn [users doctors doctor_availability appointments refresh_tokens
           set_appointments]; try same_rows.
    mapped_rows.
  - (* setAvailability *)
    revert Hok. unfold setAvailability, bind, query, transaction, ret, execute.
    destruct availability as [windows|]; [|now intros [= _ <-]].
    destruct (filter (fun d => (d_user_id d =? id caller)%Z) (doctors db))
      as [|doc others] eqn:Hfound; [discriminate|].
    assert (Hdoc : In doc (filter (fun d => (d_user_id d =? id caller)%Z)
                                  (doctors db))) by (rewrite Hfound; now left).
    apply filter_In in Hdoc. destruct Hdoc as [Hdoc _].
    destruct (forallb accepted windows) eqn:Hall.
    + rewrite (insertWindows_accepted _ _ _ Hall). intros [= _ <-].
      apply (references_carry _ _ Hrefs);
        cbn [users doctors doctor_availability appointments refresh_tokens
             set_doctor_availability]; try same_rows.
      intros x Hx. apply in_app_or in Hx. destruct Hx as [Hx|Hx].
      * apply filter_In in Hx. left. exists x. split; [apply Hx|reflexivity].
      * apply in_map_iff in Hx. destruct Hx as [w [<- _]].
        right. now exists doc.
    + match goal with
      | |- context [insertWindows (d_id doc) windows ?db1] =>
          destruct (insertWindows_rejected (d_id doc) windows db1 Hall)
            as [err [db'' Hthrow]]
      end.
      rewrite Hthrow. discriminate.
Qed.

Lemma references_hold_at_opening : references_hold opening.
Proof.
  unfold references_hold. cbn [opening users doctors doctor_availability
                               appointments refresh_tokens].
  split; [|split; [|split]].
  - intros d [<-|[]]. exists sarah. split; [|reflexivity]. cbn. auto.
  - intros da Hda. exists cardiology. split; [now left|].
    cbn in Hda. destruct Hda as [<-|[<-|[<-|[<-|[]]]]]; reflexivity.
  - intros a [].
  - intros r [].
Qed.

Lemma foreign_keys_after_johns_login : references_hold signed_in.
Proof.
  destruct (foreign_keys_are_kept morning (as_user john) opening signed_in
              new_patient "patient@demo.com" "Demo1234"
              (refreshToken johns_tokens) None None None 2 None same_slot 1
              no_changes None references_hold_at_opening)
    as [_ [Hlogin _]].
  apply (Hlogin (Sent 200
                   (mkAuthJson "Login successful"
                      (Some (mkUserJson 2 "patient@demo.com" "patient" "John"
                                        "Doe"))
                      johns_tokens))).
  reflexivity.
Defined.

Lemma sarah_is_let_through :
  authenticateToken morning opening (bearer sarahs_access)
  = Next (as_user sarah).
Proof.
  destruct (authenticate_lets_through morning opening (bearer sarahs_access))
    as [Hiff _].
  apply (Hiff (as_user sarah)).
  exists [Jwt.Opaque "Bearer"; sarahs_access],
         (Jwt.mkPayload 5 1704949600 1705036000), sarah, [].
  repeat split; reflexivity.
Defined.

Lemma sarah_is_recognised :
  optionalAuth morning opening (bearer sarahs_access) = Some (as_user sarah).
Proof.
  apply (optionalAuth_agrees morning opening (bearer sarahs_access)).
  reflexivity.
Defined.

Lemma johns_token_is_redeemed :
  (exists r db',
      refresh an_hour_later (Some (refreshToken johns_tokens)) signed_in
      = (Ok r, db'))
  /\ exists r db',
      refresh an_hour_later
              (Some (refreshToken (generateTokens ten_seconds_later 2)))
              signed_in
      = (Ok r, db').
Proof.
  split.
  - apply (refresh_redeems_exactly an_hour_later (refreshToken johns_tokens)
                                   signed_in).
    exists (Jwt.mkPayload 2 1704949600 1705554400),
           (mkRefreshToken 1 2 (Bcrypt.hash (refreshToken johns_tokens) 7)
                           (1704949600000 + 7 * 24 * 60 * 60 * 1000) false).
    split; [reflexivity|]. split; [reflexivity|]. split; [now left|].
    repeat split.
  - apply (refresh_redeems_exactly an_hour_later
             (refreshToken (generateTokens ten_seconds_later 2)) signed_in).
    exists (Jwt.mkPayload 2 1704949610 1705554410),
           (mkRefreshToken 1 2 (Bcrypt.hash (refreshToken johns_tokens) 7)
                           (1704949600000 + 7 * 24 * 60 * 60 * 1000) false).
    split; [reflexivity|]. split; [reflexivity|]. split; [now left|].
    repeat split.
Defined.

(** ** What does not end an access token *)

Lemma authenticate_same_users (e : env) (db db' : Db)
      (authHeader : option (list Jwt.token)) :
  users db' = users db ->
  authenticateToken e db' authHeader = authenticateToken e db authHeader.
Proof. intros Husers. unfold authenticateToken. now rewrite Husers. Qed.

(** X28.  Logout, a password change and a refresh leave access tokens
    alone.  They write refresh records (and the password hash) only, so
    authenticateToken gives the same answer after them as before, at any
    clock: an access token issued before a logout or a password change is
    let through until it expires. *)
Theorem access_tokens_outlive_logout
        (e e' : env) (caller : req_user) (presented : option Jwt.token)
        (current new : option string) (t : Jwt.token) (db : Db)
        (authHeader : option (list Jwt.token)) :
  authenticateToken e' (snd (logout caller presented db)) authHeader
  = authenticateToken e' db authHeader
  /\ authenticateToken e' (snd (changePassword e caller current new db))
                       authHeader
     = authenticateToken e' db authHeader
  /\ authenticateToken e' (snd (refresh e (Some t) db)) authHeader
     = authenticateToken e' db authHeader.
Proof.
  split; [|split].
  - apply authenticate_same_users.
    unfold logout, bind, query, execute, ret.
    destruct presented as [token|]; [|reflexivity].
    destruct (Jwt.falsy token); [reflexivity|].
    now destruct (validToken token _).
  - unfold changePassword, bind, query, execute, ret, throw.
    destruct (_ || _); [reflexivity|].
    destruct (_ <? 8)%Z; [reflexivity|].
    destruct (filter _ (users db)) as [|u rest]; [reflexivity|].
    destruct (negb _); [reflexivity|].
    cbn [snd]. unfold authenticateToken.
    destruct authHeader as [parts|]; [|reflexivity]. cbv zeta.
    destruct (nth_error parts 1) as [token|]; [|reflexivity].
    destruct (Jwt.falsy token); [reflexivity|].
    destruct (Jwt.verify token Jwt.JWT_SECRET (now e')) as [decoded|err];
      [|reflexivity].
    cbn [users set_users set_refresh_tokens].
    rewrite filter_map_swap.
    rewrite (filter_ext _ (fun u => (u_id u =? Jwt.userId decoded)%Z
                                    && u_is_active u))
      by (intros a; now destruct (u_id a =? id caller)%Z).
    destruct (filter _ (users db)) as [|row others]; [reflexivity|].
    cbn [map]. now destruct (u_id row =? id caller)%Z.
  - destruct (refresh e (Some t) db) as [[r|err] db'] eqn:Hrefresh.
    + apply refresh_inversion in Hrefresh.
      destruct Hrefresh as [p [valid [_ [_ [_ [_ [_ ->]]]]]]].
      now apply authenticate_same_users.
    + apply refresh_refused_unchanged in Hrefresh. now subst db'.
Qed.
